(** * Identity, token lifecycle and resource authorization of the todo backend

    A shallow embedding of the authentication and authorization core:
    - [backend/src/auth/security.py]    token issuance and verification,
    - [backend/src/auth/middleware.py]  the request gate,
    - [backend/src/auth/deps.py]        the per-route dependencies,
    - [backend/src/api/v1/tasks.py]     the task endpoints,
    - [backend/src/services/task_service.py] the task service,
    - [backend/src/utils/validators.py], [backend/src/models/task.py],
    - [backend/src/core/rate_limiting.py] the sliding-window limiter.

    Python functions become functions in a small monad that threads the
    mutable store (database session, Redis), collects the log lines written
    and carries raised exceptions. *)

From Stdlib Require Import ZArith NArith String Ascii List Bool Lia.
From stdpp Require Import base decidable option list gmap strings numbers fin_maps fin_sets sets
  countable pretty.

Open Scope Z_scope.
Open Scope string_scope.

(** ** Python values *)

(** A Python [str] is a sequence of Unicode code points; [len] counts code
    points, not encoded bytes. *)
Definition pystr := list N.

Fixpoint str (s : string) : pystr :=
  match s with
  | EmptyString => []
  | String a r => N_of_ascii a :: str r
  end.

Definition len (s : pystr) : Z := Z.of_nat (length s).

(** Number of bytes of one code point, and of a string, in UTF-8. *)
Definition utf8_width (c : N) : Z :=
  if (c <? 128)%N then 1
  else if (c <? 2048)%N then 2
  else if (c <? 65536)%N then 3
  else 4.

Definition utf8_len (s : pystr) : Z :=
  fold_right (fun c acc => utf8_width c + acc) 0 s.

(** [s.split(sep)] for a one-character separator. *)
Fixpoint split (sep : N) (s : pystr) : list pystr :=
  match s with
  | [] => [[]]
  | c :: r =>
      if (c =? sep)%N then [] :: split sep r
      else match split sep r with
           | [] => [[c]]
           | h :: t => (c :: h) :: t
           end
  end.

(** [s.startswith(p)] *)
Fixpoint startswith (s p : pystr) : bool :=
  match p, s with
  | [], _ => true
  | _ :: _, [] => false
  | a :: p', b :: s' => (a =? b)%N && startswith s' p'
  end.

(** [s.lower()] on the ASCII letters, which is all the gate compares. *)
Definition lower_cp (c : N) : N :=
  if ((65 <=? c) && (c <=? 90))%N then (c + 32)%N else c.
Definition lower (s : pystr) : pystr := map lower_cp s.

(** Unicode white space, as [str.strip] and [str.isspace] see it. *)
Definition isspace (c : N) : bool :=
  (((9 <=? c) && (c <=? 13)) || ((28 <=? c) && (c <=? 32))
   || (c =? 133) || (c =? 160) || (c =? 5760)
   || ((8192 <=? c) && (c <=? 8202)) || (c =? 8232) || (c =? 8233)
   || (c =? 8239) || (c =? 8287) || (c =? 12288))%N.

Fixpoint lstrip (s : pystr) : pystr :=
  match s with
  | [] => []
  | c :: r => if isspace c then lstrip r else s
  end.
Definition strip (s : pystr) : pystr := rev (lstrip (rev (lstrip s))).

(** The scalars that occur as claim values and identifiers: [None], an
    [int] and a [str].  Instants are whole epoch seconds, the granularity of
    the NumericDate a token carries, so a [datetime] placed in the claims is
    the [int] the JWT library writes for it. *)
Inductive pyval :=
| VNone
| VInt (z : Z)
| VStr (s : pystr).

#[global] Instance pyval_eq_dec : EqDecision pyval.
Proof. solve_decision. Defined.

(** Truth value of an object in a condition. *)
Definition truthy (v : pyval) : bool :=
  match v with
  | VNone => false
  | VInt z => negb (Z.eqb z 0)
  | VStr s => negb (Z.eqb (len s) 0)
  end.

(** [d.get(k)]: missing keys read as [None]. *)
Definition dict_get (d : gmap string pyval) (k : string) : pyval :=
  match d !! k with
  | Some v => v
  | None => VNone
  end.

(** [d.get(k, dflt)] *)
Definition dict_get_default (d : gmap string pyval) (k : string) (dflt : pyval) : pyval :=
  match d !! k with
  | Some v => v
  | None => dflt
  end.

(** ** Exceptions, log lines and the monad *)

Inductive exn :=
| NameError (name : string)
| ValueError (msg : string)
| TypeError
| KeyError (key : string)
| JWTError
| LibraryError
| PermissionError
| IntegrityError
| ValidationError
| HTTPException (status_code : Z) (detail : string) (headers : list (string * string)).

#[global] Instance exn_eq_dec : EqDecision exn.
Proof. solve_decision. Defined.

Inductive outcome (A : Type) :=
| Return (a : A)
| Raise (e : exn).
Arguments Return {A} a.
Arguments Raise {A} e.

(** One line handed to the logger: the logging function called, its first
    positional argument, and the [user_id] and [reason] keywords. *)
Record log_entry := LogEntry {
  log_fn : string;
  log_event : string;
  log_user : pyval;
  log_reason : string
}.

Record res (S A : Type) := Res {
  st : S;
  tr : list log_entry;
  out : outcome A
}.
Arguments Res {S A} st tr out.
Arguments st {S A} r.
Arguments tr {S A} r.
Arguments out {S A} r.

Definition M (S A : Type) : Type := S -> res S A.

Definition ret {S A} (a : A) : M S A := fun s => Res s [] (Return a).
Definition raise {S A} (e : exn) : M S A := fun s => Res s [] (Raise e).

Definition bind {S A B} (m : M S A) (f : A -> M S B) : M S B :=
  fun s =>
    match m s with
    | Res s1 t1 (Return a) =>
        match f a s1 with
        | Res s2 t2 o => Res s2 (t1 ++ t2) o
        end
    | Res s1 t1 (Raise e) => Res s1 t1 (Raise e)
    end.

(** [try: body except Exception as e: handler e].  What the body did to the
    store and wrote to the log before raising stays. *)
Definition try_except {S A} (body : M S A) (handler : exn -> M S A) : M S A :=
  fun s =>
    match body s with
    | Res s1 t1 (Return a) => Res s1 t1 (Return a)
    | Res s1 t1 (Raise e) =>
        match handler e s1 with
        | Res s2 t2 o => Res s2 (t1 ++ t2) o
        end
    end.

Definition get_state {S} : M S S := fun s => Res s [] (Return s).
Definition put_state {S} (s' : S) : M S unit := fun _ => Res s' [] (Return tt).
Definition emit {S} (e : log_entry) : M S unit := fun s => Res s [e] (Return tt).

Declare Scope py_scope.
Delimit Scope py_scope with py.
Notation "x <- m ;; k" := (bind m (fun x => k))
  (at level 90, m at level 89, right associativity) : py_scope.
Notation "m ;;; k" := (bind m (fun _ => k))
  (at level 90, right associativity) : py_scope.
Open Scope py_scope.

(** ** [src/core/logging.py] *)

Definition log_operation {S} (operation : string) (user_id : pyval) : M S unit :=
  emit (LogEntry "log_operation" operation user_id "").
(** [log_error(error, **kwargs)] takes one positional argument; the task
    service calls it as [log_error(e, "...")], with two, and the call
    raises [TypeError] before anything is logged. *)
Definition log_error {S} (operation : string) : M S unit :=
  raise TypeError.
Definition log_authorization_decision {S} (action : string) (user_id : pyval) (granted : bool) : M S unit :=
  emit (LogEntry "log_authorization_decision" action user_id (if granted then "GRANTED" else "DENIED")).
Definition log_token_validation_result {S} (token_status : string) (user_id : pyval) (reason : string) : M S unit :=
  emit (LogEntry "log_token_validation_result" token_status user_id reason).
Definition log_token_lifecycle_event {S} (event : string) (user_id : pyval) : M S unit :=
  emit (LogEntry "log_token_lifecycle_event" event user_id "").

(** ** [src/auth/security.py] *)

Abbreviation claims := (gmap string pyval).

(** [security.py] imports [log_operation], [log_token_validation_result] and
    [log_token_lifecycle_event] from the logging module and nothing else:
    the name [log_security_event] is unbound in the module, so every call
    written in it raises [NameError] when it is evaluated. *)
Definition log_security_event {S} (event : string) : M S unit :=
  raise (NameError "log_security_event").

Definition www_authenticate : list (string * string) := [("WWW-Authenticate", "Bearer")].

Definition HTTP_401_UNAUTHORIZED : Z := 401.
Definition HTTP_403_FORBIDDEN : Z := 403.
Definition HTTP_404_NOT_FOUND : Z := 404.
Definition HTTP_400_BAD_REQUEST : Z := 400.
Definition HTTP_500_INTERNAL_SERVER_ERROR : Z := 500.

Definition invalid_user_id : exn :=
  ValueError "Invalid user_id: must be a non-empty string with max 255 characters".
Definition invalid_role : exn :=
  ValueError "Invalid role. Only 'user' and 'admin' roles are allowed.".

(** [current_time >= exp_time] and [current_time < exp_time]: ordering a
    number against [None] or a [str] raises [TypeError]. *)
Definition py_ge {S} (now : Z) (v : pyval) : M S bool :=
  match v with
  | VInt e => ret (e <=? now)%Z
  | _ => raise TypeError
  end.

Definition py_lt {S} (now : Z) (v : pyval) : M S bool :=
  match v with
  | VInt e => ret (now <? e)%Z
  | _ => raise TypeError
  end.

Definition of_outcome {S A} (o : outcome A) : M S A := fun s => Res s [] o.

Section Security.
(** The store the surrounding request works on; this module never touches it. *)
Context {S : Type}.

(** The JWT library, under the configured secret and algorithm:
    [jwt.encode(claims, SECRET_KEY, algorithm=JWT_ALGORITHM)],
    [jwt.decode(token, SECRET_KEY, algorithms=[JWT_ALGORITHM])] called at
    the moment the caller's own clock reading is the one given, and the
    same with [options={"verify_exp": False}]. *)
Variable jwt_encode : claims -> pystr.
Variable jwt_decode : pystr -> Z -> outcome claims.
Variable jwt_decode_no_exp : pystr -> Z -> outcome claims.

(** [settings.JWT_EXPIRATION_DELTA], in seconds. *)
Variable JWT_EXPIRATION_DELTA : Z.

(** The instant [create_access_token] computes for [exp].  A zero
    [timedelta] is false in a condition, so it selects the default. *)
Definition expire_at (expires_delta : option Z) (now : Z) : Z :=
  match expires_delta with
  | Some d => if negb (d =? 0)%Z then now + d else now + JWT_EXPIRATION_DELTA
  | None => now + JWT_EXPIRATION_DELTA
  end.

(** The claims [create_access_token] hands to the encoder. *)
Definition issued_claims (data : claims) (expires_delta : option Z) (now : Z) : claims :=
  let to_encode := <["exp" := VInt (expire_at expires_delta now)]> data in
  <["nbf" := VInt now]> (<["iat" := VInt now]> to_encode).

Definition create_access_token (data : claims) (expires_delta : option Z) (now : Z)
  : M S pystr :=
  let to_encode := data in
  match to_encode !! "user_id" with
  | Some user_id =>
      match user_id with
      | VStr s =>
          if (len s =? 0)%Z || (255 <? len s)%Z then raise invalid_user_id else ret tt
      | _ => raise invalid_user_id
      end
  | None => ret tt
  end ;;;
  match to_encode !! "role" with
  | Some role =>
      if negb (bool_decide (role = VStr (str "user")) || bool_decide (role = VStr (str "admin")))
      then log_security_event "INVALID_ROLE_ASSIGNED" ;;; raise invalid_role
      else ret tt
  | None => ret tt
  end ;;;
  let encoded_jwt := jwt_encode (issued_claims data expires_delta now) in
  let user_id := dict_get_default data "user_id" (VStr (str "unknown")) in
  log_operation "TOKEN_CREATED" user_id ;;;
  log_token_validation_result "CREATED" user_id "" ;;;
  ret encoded_jwt.

Definition verify_token (token : pystr) (now : Z) : M S (option claims) :=
  try_except
    (if negb (truthy (VStr token)) || (len token =? 0)%Z then
       log_security_event "EMPTY_TOKEN_RECEIVED" ;;; ret None
     else
       let parts := split 46 token in
       if negb (Z.of_nat (length parts) =? 3)%Z then
         log_security_event "MALFORMED_TOKEN_RECEIVED" ;;; ret None
       else
         payload <- of_outcome (jwt_decode token now) ;;
         let user_id := dict_get_default payload "user_id" (VStr (str "unknown")) in
         let exp_time := dict_get payload "exp" in
         let valid :=
           log_token_lifecycle_event "VALID" user_id ;;; ret (Some payload) in
         if truthy exp_time then
           expired <- py_ge now exp_time ;;
           if (expired : bool) then
             log_token_validation_result "EXPIRED" user_id "Token expiry time reached" ;;;
             ret None
           else valid
         else valid)
    (fun e =>
       match e with
       | JWTError =>
           log_token_validation_result "INVALID" (VStr (str "unknown")) "JWT Error" ;;;
           log_security_event "TOKEN_VERIFICATION_FAILED" ;;; ret None
       | _ =>
           log_token_validation_result "INVALID" (VStr (str "unknown")) "Unexpected error" ;;;
           log_security_event "TOKEN_VERIFICATION_ERROR" ;;; ret None
       end).

Definition validate_jwt_token (token : pystr) (now : Z) : M S (option claims) :=
  try_except
    (payload <- of_outcome (jwt_decode token now) ;;
     let exp_time := dict_get payload "exp" in
     let user_id := dict_get_default payload "user_id" (VStr (str "unknown")) in
     let valid := log_token_validation_result "VALID" user_id "" ;;; ret (Some payload) in
     if truthy exp_time then
       expired <- py_ge now exp_time ;;
       if (expired : bool) then
         log_token_validation_result "EXPIRED" user_id "Token expiry time reached" ;;;
         ret None
       else valid
     else valid)
    (fun e =>
       match e with
       | JWTError => log_token_validation_result "INVALID" VNone "JWT Error" ;;; ret None
       | _ => raise e
       end).

(** [credentials] is what [HTTPBearer(auto_error=False)] resolved: [None]
    without a bearer credential, else the token. *)
Definition get_current_user_payload (credentials : option pystr) (now : Z) : M S claims :=
  match credentials with
  | None =>
      log_token_validation_result "MISSING" VNone "No authorization token provided" ;;;
      raise (HTTPException HTTP_401_UNAUTHORIZED "No authorization token provided" www_authenticate)
  | Some token =>
      payload <- validate_jwt_token token now ;;
      match payload with
      | None =>
          user_id <- try_except
                       (temp_payload <- of_outcome (jwt_decode_no_exp token now) ;;
                        ret (dict_get_default temp_payload "user_id" (VStr (str "unknown"))))
                       (fun _ => ret (VStr (str "unknown"))) ;;
          log_token_validation_result "FAILED" user_id "Invalid or expired token" ;;;
          raise (HTTPException HTTP_401_UNAUTHORIZED "Invalid or expired token" www_authenticate)
      | Some payload =>
          match dict_get payload "user_id" with
          | VNone =>
              log_token_validation_result "FAILED" VNone "No user_id in token payload" ;;;
              raise (HTTPException HTTP_401_UNAUTHORIZED "Could not validate credentials" www_authenticate)
          | _ => ret payload
          end
      end
  end.

Definition validate_token_not_expired (payload : claims) (now : Z) : M S bool :=
  let exp_time := dict_get payload "exp" in
  match exp_time with
  | VNone => ret false
  | _ =>
      is_valid <- py_lt now exp_time ;;
      let user_id := dict_get_default payload "user_id" (VStr (str "unknown")) in
      (if (is_valid : bool)
       then log_token_validation_result "NOT_EXPIRED" user_id ""
       else log_token_validation_result "EXPIRED_CHECK" user_id "Token expiry validation failed") ;;;
      ret is_valid
  end.

(** *** [src/auth/deps.py]

    [security = HTTPBearer()] hands the dependency the bearer token. *)
Definition get_current_user_id (token : pystr) (now : Z) : M S pyval :=
  payload <- verify_token token now ;;
  match payload with
  | None =>
      raise (HTTPException HTTP_401_UNAUTHORIZED "Invalid authentication credentials" www_authenticate)
  | Some payload =>
      match dict_get payload "user_id" with
      | VNone =>
          raise (HTTPException HTTP_401_UNAUTHORIZED "Could not validate credentials" www_authenticate)
      | user_id => ret user_id
      end
  end.

(** *** [src/auth/middleware.py] *)

Record request := Request {
  method : pystr;
  path : pystr;
  authorization : option pystr   (* [request.headers.get("Authorization")] *)
}.

(** What the gate stores on [request.state]. *)
Record request_state := RequestState {
  state_user_id : pyval;
  state_user_role : pyval;
  state_token_payload : claims
}.

Definition public_routes : list pystr :=
  [ str "/"; str "/docs"; str "/redoc"; str "/openapi.json"; str "/health";
    str "/api/v1/login"; str "/api/v1/register" ].

Definition is_public_route (p : pystr) : bool :=
  existsb (fun route => startswith p route) public_routes.

(** [JWTMiddleware.dispatch].  A returned value means [call_next(request)]
    ran, with the given [request.state] ([None] when the gate was skipped);
    a raised exception means the request never reached it. *)
Definition dispatch (req : request) (now : Z) : M S (option request_state) :=
  if bool_decide (method req = str "OPTIONS") || is_public_route (path req) then
    ret None
  else
    match authorization req with
    | None =>
        raise (HTTPException HTTP_401_UNAUTHORIZED "Authorization header is missing" www_authenticate)
    | Some auth_header =>
        token <- try_except
                   (match split 32 auth_header with
                    | [scheme; token] =>
                        if negb (bool_decide (lower scheme = str "bearer")) then
                          raise (HTTPException HTTP_401_UNAUTHORIZED
                                   "Authorization scheme must be Bearer" www_authenticate)
                        else ret token
                    | _ => raise (ValueError "unpack")
                    end)
                   (fun e =>
                      match e with
                      | ValueError _ =>
                          raise (HTTPException HTTP_401_UNAUTHORIZED
                                   "Invalid authorization header format" www_authenticate)
                      | _ => raise e
                      end) ;;
        payload <- verify_token token now ;;
        match payload with
        | None =>
            raise (HTTPException HTTP_401_UNAUTHORIZED "Invalid or expired token" www_authenticate)
        | Some payload =>
            let exp_time := dict_get payload "exp" in
            let proceed :=
              ret (Some (RequestState (dict_get payload "user_id")
                           (dict_get_default payload "role" (VStr (str "user")))
                           payload)) in
            if truthy exp_time then
              expired <- py_ge now exp_time ;;
              if (expired : bool) then
                raise (HTTPException HTTP_401_UNAUTHORIZED "Token has expired" www_authenticate)
              else proceed
            else proceed
        end
    end.

End Security.

(** ** [src/models/task.py] *)

Record Task := mkTask {
  id : Z;
  title : pystr;
  description : option pystr;
  completed : bool;
  user_id : pyval;
  created_at : Z;
  updated_at : Z
}.

Record TaskCreate := mkTaskCreate {
  create_title : pystr;
  create_description : option pystr;
  create_completed : bool;
  create_user_id : pyval
}.

(** A field of a request body: left out, or sent (possibly as [null]).
    [dict(exclude_unset=True)] keeps exactly the fields that were sent. *)
Inductive sent (A : Type) :=
| NotSent
| Sent (v : option A).
Arguments NotSent {A}.
Arguments Sent {A} v.

Definition value_of {A} (f : sent A) : option A :=
  match f with
  | NotSent => None
  | Sent v => v
  end.

Record TaskUpdate := mkTaskUpdate {
  update_title : sent pystr;
  update_description : sent pystr;
  update_completed : sent bool
}.

(** The [Field] constraints of [TaskUpdate], which the framework enforces
    on a request body before the endpoint runs. *)
Definition TaskUpdate_fields_ok (u : TaskUpdate) : Prop :=
  (forall t, value_of (update_title u) = Some t -> 1 <= len t <= 255) /\
  (forall d, value_of (update_description u) = Some d -> len d <= 1000).

(** The table [task], keyed by its primary key. *)
Abbreviation session := (gmap Z Task).

(** Every write below is committed before anything can raise, so a
    rollback finds nothing pending. *)
Definition session_rollback : M session unit := ret tt.

(** [TaskResponse.model_validate(task)]: the [TaskBase] constraints are
    checked again on the way out. *)
Definition TaskResponse_model_validate {S} (t : Task) : M S Task :=
  let title_ok := (1 <=? len (title t))%Z && (len (title t) <=? 255)%Z in
  let description_ok :=
    match description t with
    | Some d => (len d <=? 1000)%Z
    | None => true
    end in
  let user_id_ok :=
    match user_id t with
    | VStr u => (len u <=? 255)%Z
    | _ => false
    end in
  if title_ok && description_ok && user_id_ok then ret t else raise ValidationError.

(** ** [src/utils/validators.py] *)

Definition validate_task_create {S} (task_create : TaskCreate) : M S unit :=
  (if negb (truthy (VStr (create_title task_create)))
      || (len (strip (create_title task_create)) =? 0)%Z
   then raise (HTTPException HTTP_400_BAD_REQUEST "Task title is required" [])
   else ret tt) ;;;
  (if (255 <? len (create_title task_create))%Z
   then raise (HTTPException HTTP_400_BAD_REQUEST "Task title must be 255 characters or less" [])
   else ret tt) ;;;
  match create_description task_create with
  | Some d =>
      if truthy (VStr d) && (1000 <? len d)%Z
      then raise (HTTPException HTTP_400_BAD_REQUEST
                    "Task description must be 1000 characters or less" [])
      else ret tt
  | None => ret tt
  end.

Definition validate_task_update {S} (task_update : TaskUpdate) : M S unit :=
  match value_of (update_title task_update) with
  | Some t =>
      if (len t =? 0)%Z
      then raise (HTTPException HTTP_400_BAD_REQUEST "Task title cannot be empty" [])
      else if (255 <? len t)%Z
      then raise (HTTPException HTTP_400_BAD_REQUEST "Task title must be 255 characters or less" [])
      else ret tt
  | None => ret tt
  end ;;;
  match value_of (update_description task_update) with
  | Some d =>
      if (1000 <? len d)%Z
      then raise (HTTPException HTTP_400_BAD_REQUEST
                    "Task description must be 1000 characters or less" [])
      else ret tt
  | None => ret tt
  end.

(** ** [src/services/task_service.py] *)

Module TaskService.

(** The row built from the fields of [task_create], added, committed and
    refreshed: the
    database assigns an unused key, the [default_factory] the two instants;
    a [NULL] owner violates the column's [NOT NULL]. *)
Definition create_task (task_create : TaskCreate) (now : Z) : M session Task :=
  try_except
    (log_operation "CREATE_TASK" (create_user_id task_create) ;;;
     s <- get_state ;;
     match create_user_id task_create with
     | VNone => raise IntegrityError
     | owner =>
         let db_task :=
           mkTask (fresh (dom s)) (create_title task_create)
             (create_description task_create) (create_completed task_create)
             owner now now in
         put_state (<[id db_task := db_task]> s) ;;;
         log_operation "TASK_CREATED" (create_user_id task_create) ;;;
         ret db_task
     end)
    (fun e => log_error "CREATE_TASK" ;;; session_rollback ;;; raise e).

Definition get_task_by_id (task_id : Z) : M session (option Task) :=
  try_except
    (log_operation "GET_TASK_BY_ID" VNone ;;;
     s <- get_state ;;
     let task := s !! task_id in
     match task with
     | Some t => log_operation "TASK_FOUND" (user_id t)
     | None => log_operation "TASK_NOT_FOUND" VNone
     end ;;;
     ret task)
    (fun e => log_error "GET_TASK_BY_ID" ;;; raise e).

(** The [setattr] loop over the fields that were sent.  [title] and
    [completed] are [NOT NULL] columns: a [null] for them fails the commit. *)
Definition apply_update (task_update : TaskUpdate) (t : Task) : option Task :=
  match update_title task_update with
  | NotSent => Some (title t)
  | Sent v => v
  end ≫= fun new_title =>
  match update_completed task_update with
  | NotSent => Some (completed t)
  | Sent v => v
  end ≫= fun new_completed =>
  let new_description :=
    match update_description task_update with
    | NotSent => description t
    | Sent v => v
    end in
  Some (mkTask (id t) new_title new_description new_completed
          (user_id t) (created_at t) (updated_at t)).

(** The ownership test shared by the three mutations: it is made only for
    a [current_user_id] that is true in a condition. *)
Definition check_owner (action : string) (db_task : Task) (current_user_id : pyval)
  : M session unit :=
  (if truthy current_user_id && negb (bool_decide (user_id db_task = current_user_id))
   then log_authorization_decision action current_user_id false ;;; raise PermissionError
   else ret tt) ;;;
  (if truthy current_user_id
   then log_authorization_decision action current_user_id true
   else ret tt).

Definition update_task (task_id : Z) (task_update : TaskUpdate) (current_user_id : pyval)
  : M session (option Task) :=
  try_except
    (s <- get_state ;;
     match s !! task_id with
     | None => log_operation "TASK_UPDATE_FAILED_NOT_FOUND" VNone ;;; ret None
     | Some db_task =>
         check_owner "update" db_task current_user_id ;;;
         match apply_update task_update db_task with
         | None => raise IntegrityError
         | Some db_task' =>
             put_state (<[task_id := db_task']> s) ;;;
             log_operation "TASK_UPDATED" (user_id db_task') ;;;
             ret (Some db_task')
         end
     end)
    (fun e => log_error "UPDATE_TASK" ;;; session_rollback ;;; raise e).

Definition delete_task (task_id : Z) (current_user_id : pyval) : M session bool :=
  try_except
    (s <- get_state ;;
     match s !! task_id with
     | None => log_operation "TASK_DELETE_FAILED_NOT_FOUND" VNone ;;; ret false
     | Some db_task =>
         check_owner "delete" db_task current_user_id ;;;
         put_state (delete task_id s) ;;;
         log_operation "TASK_DELETED" (user_id db_task) ;;;
         ret true
     end)
    (fun e => log_error "DELETE_TASK" ;;; session_rollback ;;; raise e).

Definition toggle_task_completion (task_id : Z) (current_user_id : pyval)
  : M session (option Task) :=
  try_except
    (s <- get_state ;;
     match s !! task_id with
     | None => log_operation "TASK_TOGGLE_FAILED_NOT_FOUND" VNone ;;; ret None
     | Some db_task =>
         check_owner "toggle" db_task current_user_id ;;;
         let db_task' :=
           mkTask (id db_task) (title db_task) (description db_task)
             (negb (completed db_task)) (user_id db_task)
             (created_at db_task) (updated_at db_task) in
         put_state (<[task_id := db_task']> s) ;;;
         log_operation "TASK_COMPLETION_TOGGLED" (user_id db_task') ;;;
         ret (Some db_task')
     end)
    (fun e => log_error "TOGGLE_TASK_COMPLETION" ;;; session_rollback ;;; raise e).

End TaskService.

(** ** [src/api/v1/tasks.py] *)

Module TasksAPI.

(** [except HTTPException: raise] followed by [except Exception] turning
    anything else into a 500. *)
Definition reraise_or_500 {A} (operation detail : string) (current_user_id : pyval)
    (e : exn) : M session A :=
  match e with
  | HTTPException _ _ _ => raise e
  | _ =>
      log_operation operation current_user_id ;;;
      raise (HTTPException HTTP_500_INTERNAL_SERVER_ERROR detail [])
  end.

(** The 404 of the three routes; the f-string writes the id in decimal. *)
Definition not_found {A} (task_id : Z) : M session A :=
  raise (HTTPException HTTP_404_NOT_FOUND
           (String.append "Task with id " (String.append (pretty task_id) " not found")) []).

Definition create_task (task_create : TaskCreate) (current_user_id : pyval) (now : Z)
  : M session Task :=
  try_except
    (let task_create :=
       mkTaskCreate (create_title task_create) (create_description task_create)
         (create_completed task_create) current_user_id in
     validate_task_create task_create ;;;
     db_task <- TaskService.create_task task_create now ;;
     log_operation "TASK_CREATED_SUCCESSFULLY" current_user_id ;;;
     TaskResponse_model_validate db_task)
    (reraise_or_500 "CREATE_TASK_ERROR" "An error occurred while creating the task"
       current_user_id).

Definition update_task (task_id : Z) (task_update : TaskUpdate) (current_user_id : pyval)
  : M session Task :=
  try_except
    (validate_task_update task_update ;;;
     existing_task <- TaskService.get_task_by_id task_id ;;
     match existing_task with
     | None => not_found task_id
     | Some existing_task =>
         if negb (bool_decide (user_id existing_task = current_user_id)) then
           log_operation "UNAUTHORIZED_ACCESS_ATTEMPT" current_user_id ;;;
           raise (HTTPException HTTP_403_FORBIDDEN "You can only update your own tasks" [])
         else
           updated_task <- TaskService.update_task task_id task_update VNone ;;
           match updated_task with
           | None => not_found task_id
           | Some updated_task =>
               log_operation "TASK_UPDATED_SUCCESSFULLY" current_user_id ;;;
               TaskResponse_model_validate updated_task
           end
     end)
    (reraise_or_500 "UPDATE_TASK_ERROR" "An error occurred while updating the task"
       current_user_id).

Definition toggle_task_completion (task_id : Z) (current_user_id : pyval)
  : M session Task :=
  try_except
    (existing_task <- TaskService.get_task_by_id task_id ;;
     match existing_task with
     | None => not_found task_id
     | Some existing_task =>
         if negb (bool_decide (user_id existing_task = current_user_id)) then
           log_operation "UNAUTHORIZED_ACCESS_ATTEMPT" current_user_id ;;;
           raise (HTTPException HTTP_403_FORBIDDEN
                    "You can only toggle completion status of your own tasks" [])
         else
           toggled_task <- TaskService.toggle_task_completion task_id VNone ;;
           match toggled_task with
           | None => not_found task_id
           | Some toggled_task =>
               log_operation "TASK_COMPLETION_TOGGLED_SUCCESSFULLY" current_user_id ;;;
               TaskResponse_model_validate toggled_task
           end
     end)
    (reraise_or_500 "TOGGLE_TASK_ERROR" "An error occurred while toggling the task"
       current_user_id).

Definition delete_task (task_id : Z) (current_user_id : pyval) : M session unit :=
  try_except
    (existing_task <- TaskService.get_task_by_id task_id ;;
     match existing_task with
     | None => not_found task_id
     | Some existing_task =>
         if negb (bool_decide (user_id existing_task = current_user_id)) then
           log_operation "UNAUTHORIZED_ACCESS_ATTEMPT" current_user_id ;;;
           raise (HTTPException HTTP_403_FORBIDDEN "You can only delete your own tasks" [])
         else
           success <- TaskService.delete_task task_id VNone ;;
           if (success : bool) then
             log_operation "TASK_DELETED_SUCCESSFULLY" current_user_id
           else not_found task_id
     end)
    (reraise_or_500 "DELETE_TASK_ERROR" "An error occurred while deleting the task"
       current_user_id).

(** The three mutating routes, each resolved behind
    [Depends(get_current_user_id)]: the dependency turns the bearer token
    into [current_user_id] and the endpoint is given that value alone. *)
Inductive mutation :=
| Update (task_update : TaskUpdate)
| Toggle
| Delete.

Definition run_mutation (op : mutation) (task_id : Z) (current_user_id : pyval)
  : M session (option Task) :=
  match op with
  | Update task_update => t <- update_task task_id task_update current_user_id ;; ret (Some t)
  | Toggle => t <- toggle_task_completion task_id current_user_id ;; ret (Some t)
  | Delete => delete_task task_id current_user_id ;;; ret None
  end.

Definition route (jwt_decode : pystr -> Z -> outcome claims)
    (op : mutation) (task_id : Z) (token : pystr) (now : Z) : M session (option Task) :=
  current_user_id <- get_current_user_id jwt_decode token now ;;
  run_mutation op task_id current_user_id.

Definition forbidden_detail (op : mutation) : string :=
  match op with
  | Update _ => "You can only update your own tasks"
  | Toggle => "You can only toggle completion status of your own tasks"
  | Delete => "You can only delete your own tasks"
  end.

Definition body_ok (op : mutation) : Prop :=
  match op with
  | Update task_update => TaskUpdate_fields_ok task_update
  | _ => True
  end.

End TasksAPI.

(** The row [create_task] builds for a body and a principal. *)
Definition created_row (tc : TaskCreate) (uid : pyval) (now : Z) (s : session) : Task :=
  mkTask (fresh (dom s)) (create_title tc) (create_description tc)
    (create_completed tc) uid now now.

(** The task a toggle leaves behind. *)
Definition toggled (t : Task) : Task :=
  mkTask (id t) (title t) (description t) (negb (completed t)) (user_id t)
    (created_at t) (updated_at t).

(** ** [src/core/rate_limiting.py] *)

(** A clock reading of [time.time()], in microseconds. *)
Definition seconds (n : Z) : Z := n * 1000000.

(** The sorted sets of the Redis instance and the time-to-live last set on
    each key.  Every member the limiter adds is [str(score)] of its own
    score, and [str] is injective on clock readings, so a sorted set is
    given by the set of its scores: adding a reading that is already there
    leaves the set, and its cardinality, as they were. *)
Record redis := Redis {
  zsets : gmap pystr (gset Z);
  ttls : gmap pystr Z
}.

Definition zset_of (r : redis) (key : pystr) : gset Z :=
  match zsets r !! key with
  | Some z => z
  | None => ∅
  end.

(** [ZREMRANGEBYSCORE key lo hi]: drops the members with [lo <= score <= hi];
    a sorted set left empty is removed with its key. *)
Definition zremrangebyscore (key : pystr) (lo hi : Z) : M redis unit :=
  r <- get_state ;;
  match zsets r !! key with
  | None => ret tt
  | Some z =>
      let z' := filter (fun x => ~ (lo <= x /\ x <= hi)) z in
      if decide (z' = ∅)
      then put_state (Redis (delete key (zsets r)) (delete key (ttls r)))
      else put_state (Redis (<[key := z']> (zsets r)) (ttls r))
  end.

(** [ZADD key {str(score): score}] *)
Definition zadd (key : pystr) (score : Z) : M redis unit :=
  r <- get_state ;;
  put_state (Redis (<[key := {[score]} ∪ zset_of r key]> (zsets r)) (ttls r)).

(** [EXPIRE key seconds] *)
Definition expire (key : pystr) (window_seconds : Z) : M redis unit :=
  r <- get_state ;;
  match zsets r !! key with
  | None => ret tt
  | Some _ => put_state (Redis (zsets r) (<[key := window_seconds]> (ttls r)))
  end.

(** [ZCARD key] *)
Definition zcard (key : pystr) : M redis Z :=
  r <- get_state ;;
  ret (Z.of_nat (size (zset_of r key))).

Module RateLimiter.

Definition default_limits : gmap string Z :=
  <["requests_per_minute" := 100]>
    (<["requests_per_hour" := 1000]> (<["requests_per_day" := 10000]> ∅)).

Definition log_rate_limit_event (user_id : pystr) (limit_type : string)
  : M redis unit :=
  emit (LogEntry "log_rate_limit_event" limit_type (VStr user_id) "").

Definition _increment_counter (key : pystr) (current_time : Z) (window_seconds : Z)
  : M redis Z :=
  zremrangebyscore key 0 (current_time - seconds window_seconds) ;;;
  zadd key current_time ;;;
  expire key window_seconds ;;;
  zcard key.

Definition rate_limit_key (user_id endpoint : pystr) (window : string) : pystr :=
  (str "rate_limit:" ++ user_id ++ str ":" ++ endpoint ++ str ":" ++ str window)%list.

(** [limits[name]]: a missing key raises [KeyError]. *)
Definition limit_item (limits : gmap string Z) (name : string) : M redis Z :=
  match limits !! name with
  | Some v => ret v
  | None => raise (KeyError name)
  end.

Definition is_rate_limited (user_id endpoint : pystr) (limits : option (gmap string Z))
    (current_time : Z) : M redis bool :=
  if negb (truthy (VStr user_id)) || bool_decide (user_id = str "unknown") then
    ret false
  else
    let limits :=
      match limits with
      | Some l => if decide (l = ∅) then default_limits else l
      | None => default_limits
      end in
    let per_minute_key := rate_limit_key user_id endpoint "minute" in
    per_minute_count <- _increment_counter per_minute_key current_time 60 ;;
    if (default 100 (limits !! "requests_per_minute") <? per_minute_count)%Z then
      _ <- limit_item limits "requests_per_minute" ;;
      log_rate_limit_event user_id "per_minute" ;;;
      ret true
    else
      let per_hour_key := rate_limit_key user_id endpoint "hour" in
      per_hour_count <- _increment_counter per_hour_key current_time 3600 ;;
      if (default 1000 (limits !! "requests_per_hour") <? per_hour_count)%Z then
        _ <- limit_item limits "requests_per_hour" ;;
        log_rate_limit_event user_id "per_hour" ;;;
        ret true
      else
        let per_day_key := rate_limit_key user_id endpoint "day" in
        per_day_count <- _increment_counter per_day_key current_time 86400 ;;
        if (default 10000 (limits !! "requests_per_day") <? per_day_count)%Z then
          _ <- limit_item limits "requests_per_day" ;;
          log_rate_limit_event user_id "per_day" ;;;
          ret true
        else ret false.

(** A run of requests of one principal on one endpoint, one clock reading
    each, with the default limits; the answers come back in order. *)
Fixpoint serve (user_id endpoint : pystr) (times : list Z) (r : redis)
  : list (outcome bool) * redis :=
  match times with
  | [] => ([], r)
  | t :: rest =>
      let a := is_rate_limited user_id endpoint None t r in
      let '(answers, r') := serve user_id endpoint rest (st a) in
      (out a :: answers, r')
  end.

End RateLimiter.

(** The claims [create_access_token] lets through: a [user_id], when there
    is one, is a [str] of 1 to 255 characters; a [role], when there is one,
    is ["user"] or ["admin"]. *)
Definition user_id_accepted (data : claims) : Prop :=
  match data !! "user_id" with
  | None => True
  | Some (VStr u) => 1 <= len u <= 255
  | Some _ => False
  end.

Definition role_accepted (data : claims) : Prop :=
  match data !! "role" with
  | None => True
  | Some role => role = VStr (str "user") \/ role = VStr (str "admin")
  end.

(** The members of a key after [_increment_counter] at [current_time]:
    what was there and does not score in [0, current_time - window], and
    the reading itself. *)
Definition recorded (r : redis) (key : pystr) (current_time window_seconds : Z) : gset Z :=
  {[current_time]} ∪
  filter (fun x => ~ (0 <= x /\ x <= current_time - seconds window_seconds)) (zset_of r key).

Definition fresh_redis : redis := Redis ∅ ∅.

(** A principal the limiter counts: neither empty nor the sentinel. *)
Definition counted (user_id : pystr) : Prop :=
  negb (truthy (VStr user_id)) || bool_decide (user_id = str "unknown") = false.

(** Clock readings that lie inside one 60-second window. *)
Definition within_a_minute (times : list Z) : Prop :=
  Forall (fun a => Forall (fun b => a - b < seconds 60) times) times.

#[global] Instance within_a_minute_dec (times : list Z) : Decision (within_a_minute times).
Proof. unfold within_a_minute. apply _. Defined.

(** What the three counters of a principal hold after the requests [seen],
    none of them evicted yet: the minute counter all of them, the coarser
    ones no more than that. *)
Definition counters_hold (user_id endpoint : pystr) (seen : list Z) (r : redis) : Prop :=
  zset_of r (RateLimiter.rate_limit_key user_id endpoint "minute") = list_to_set seen /\
  zset_of r (RateLimiter.rate_limit_key user_id endpoint "hour") ⊆ list_to_set seen /\
  zset_of r (RateLimiter.rate_limit_key user_id endpoint "day") ⊆ list_to_set seen.

(** ** More of [src/auth/security.py], [src/auth/deps.py] and
    [src/api/v1/auth.py] *)

Section TokenEndpoints.
Context {S : Type}.
Variable jwt_encode : claims -> pystr.
Variable jwt_decode : pystr -> Z -> outcome claims.
Variable JWT_EXPIRATION_DELTA : Z.

(** [security.authorize_user_for_task] *)
Definition authorize_user_for_task (task : Task) (current_user_id : pyval) : M S Task :=
  if negb (bool_decide (user_id task = current_user_id)) then
    log_operation "AUTHORIZATION_DENIED" current_user_id ;;;
    raise (HTTPException HTTP_403_FORBIDDEN "Not authorized to access this task" [])
  else
    log_operation "AUTHORIZATION_GRANTED" current_user_id ;;;
    ret task.

(** [deps.verify_admin_access] *)
Definition verify_admin_access (current_user_payload : claims) : M S claims :=
  let role := dict_get_default current_user_payload "role" (VStr (str "user")) in
  if negb (bool_decide (role = VStr (str "admin"))) then
    raise (HTTPException HTTP_403_FORBIDDEN "Admin access required" [])
  else ret current_user_payload.

(** [deps.is_token_expired] *)
Definition is_token_expired (payload : claims) (now : Z) : M S bool :=
  let exp_time := dict_get payload "exp" in
  match exp_time with
  | VNone => ret true
  | _ => py_ge now exp_time
  end.



End TokenEndpoints.

(** [deps.get_current_user_payload], and [verify_admin_access] behind it as
    a route declares it. *)
Module Deps.

Definition get_current_user_payload {S : Type} (jwt_decode : pystr -> Z -> outcome claims)
    (token : pystr) (now : Z) : M S claims :=
  payload <- verify_token jwt_decode token now ;;
  match payload with
  | None =>
      raise (HTTPException HTTP_401_UNAUTHORIZED "Invalid authentication credentials"
               www_authenticate)
  | Some payload => ret payload
  end.

Definition admin_access {S : Type} (jwt_decode : pystr -> Z -> outcome claims)
    (token : pystr) (now : Z) : M S claims :=
  current_user_payload <- get_current_user_payload jwt_decode token now ;;
  verify_admin_access current_user_payload.

End Deps.

(** [validators.validate_user_access] *)
Definition validate_user_access (task_user_id : pyval) (requesting_user_id : pyval) : bool :=
  if negb (truthy requesting_user_id) then false
  else bool_decide (task_user_id = requesting_user_id).

(** ** More of [src/models/task.py] and [src/services/task_service.py] *)

(** One element of [result.all()] for a [select] of the entity: the entity
    itself, or a one-column row holding it, as the driver returns it. *)
Inductive fetched :=
| Entity (t : Task)
| Row (t : Task).

Module TaskReads.

(** [Task.get_by_user_id]: the rows of the table owned by [owner]. *)
Definition get_by_user_id (as_rows : bool) (owner : pyval)
  : M session (list fetched) :=
  s <- get_state ;;
  ret (map (if as_rows then Row else Entity)
         (filter (fun t => user_id t = owner) (map snd (map_to_list s)))).

(** [Task.get_by_id_and_user_id]: [first()] of the same kind of result. *)
Definition get_by_id_and_user_id (as_rows : bool) (task_id : Z) (owner : pyval)
  : M session (option fetched) :=
  s <- get_state ;;
  ret (match s !! task_id with
       | Some t =>
           if bool_decide (user_id t = owner)
           then Some ((if as_rows then Row else Entity) t)
           else None
       | None => None
       end).

(** The loop of [get_tasks_by_user_id] over what was fetched: a row gives
    its first column, an entity is kept as it is. *)
Definition unwrap (task : fetched) : Task :=
  match task with
  | Row item => item
  | Entity t => t
  end.

(** [TaskService.get_tasks_by_user_id] *)
Definition get_tasks_by_user_id (as_rows : bool) (owner : pyval)
  : M session (list Task) :=
  try_except
    (log_operation "GET_TASKS_BY_USER" owner ;;;
     tasks <- get_by_user_id as_rows owner ;;
     let processed_tasks := map unwrap tasks in
     log_operation "FOUND_TASKS_FOR_USER" owner ;;;
     ret processed_tasks)
    (fun e => log_error "GET_TASKS_BY_USER" ;;; raise e).

(** [TaskService.get_task_by_id_and_user_id]: what [first()] gave is
    handed on as it came. *)
Definition get_task_by_id_and_user_id (as_rows : bool) (task_id : Z) (owner : pyval)
  : M session (option fetched) :=
  try_except
    (log_operation "GET_TASK_BY_ID_AND_USER" owner ;;;
     task <- get_by_id_and_user_id as_rows task_id owner ;;
     match task with
     | Some _ => log_operation "TASK_FOUND_FOR_USER" owner
     | None => log_operation "TASK_NOT_FOUND_FOR_USER" owner
     end ;;;
     ret task)
    (fun e => log_error "GET_TASK_BY_ID_AND_USER" ;;; raise e).

(** [TaskService.verify_task_ownership] *)
Definition verify_task_ownership (task_id : Z) (owner : pyval) : M session bool :=
  try_except
    (s <- get_state ;;
     match s !! task_id with
     | None => ret false
     | Some task => ret (bool_decide (user_id task = owner))
     end)
    (fun e => log_error "VERIFY_TASK_OWNERSHIP" ;;; raise e).

(** The list comprehension over [TaskResponse.model_validate]. *)
Fixpoint validate_all (tasks : list Task) : M session (list Task) :=
  match tasks with
  | [] => ret []
  | t :: rest =>
      r <- TaskResponse_model_validate t ;;
      rs <- validate_all rest ;;
      ret (r :: rs)
  end.

(** [tasks.get_tasks_for_user], the route [GET /user/{user_id}] *)
Definition get_tasks_for_user (as_rows : bool) (path_user_id : pystr)
    (current_user_id : pyval) : M session (list Task) :=
  try_except
    (if negb (bool_decide (VStr path_user_id = current_user_id)) then
       log_operation "UNAUTHORIZED_ACCESS_ATTEMPT_tasks_for_user" current_user_id ;;;
       raise (HTTPException HTTP_403_FORBIDDEN "You can only access your own tasks" [])
     else if negb (truthy (VStr path_user_id)) || (len (strip path_user_id) =? 0)%Z then
       raise (HTTPException HTTP_400_BAD_REQUEST "user_id is required" [])
     else
       tasks <- get_tasks_by_user_id as_rows (VStr path_user_id) ;;
       log_operation "GET_TASKS_SUCCESS" (VStr path_user_id) ;;;
       validate_all tasks)
    (TasksAPI.reraise_or_500 "GET_TASKS_ERROR" "An error occurred while retrieving tasks"
       (VStr path_user_id)).

End TaskReads.

(** ** More of [src/core/rate_limiting.py] *)

Module RateReports.

(** What [get_rate_limit_info] reports beside the two names it was given. *)
Record rate_limit_info := RateLimitInfo {
  per_minute : Z;
  per_hour : Z;
  per_day : Z
}.

(** One turn of its loop: the key is named after the part of the window
    name that follows the underscore. *)
Definition window_count (user_id endpoint : pystr) (name : string) (window_seconds : Z)
    (current_time : Z) : M redis Z :=
  let key := RateLimiter.rate_limit_key user_id endpoint name in
  zremrangebyscore key 0 (current_time - seconds window_seconds) ;;;
  zcard key.

(** [RateLimiter.get_rate_limit_info] *)
Definition get_rate_limit_info (user_id endpoint : pystr) (current_time : Z)
  : M redis rate_limit_info :=
  m <- window_count user_id endpoint "minute" 60 current_time ;;
  h <- window_count user_id endpoint "hour" 3600 current_time ;;
  d <- window_count user_id endpoint "day" 86400 current_time ;;
  ret (RateLimitInfo m h d).

End RateReports.

(** [UsageTracker]: the counters kept in the process and the hashes kept
    in Redis, one per principal and one per endpoint. *)
Record usage := Usage {
  metrics : gmap string Z;
  hashes : gmap pystr (gmap pystr Z)
}.

Module UsageTracker.

(** The tracker as [__init__] leaves it, on a Redis without usage keys. *)
Definition init : usage :=
  Usage (list_to_map [("requests", 0); ("successful_requests", 0);
                      ("failed_requests", 0); ("database_queries", 0);
                      ("api_calls", 0); ("user_messages", 0); ("ai_responses", 0)])
        ∅.

(** [self.metrics[name] += 1] *)
Definition bump (name : string) : M usage unit :=
  u <- get_state ;;
  match metrics u !! name with
  | Some v => put_state (Usage (<[name := v + 1]> (metrics u)) (hashes u))
  | None => raise (KeyError name)
  end.

(** [HINCRBY key field 1] *)
Definition hincrby (key field : pystr) : M usage unit :=
  u <- get_state ;;
  let h := default ∅ (hashes u !! key) in
  let v := default 0 (h !! field) in
  put_state (Usage (metrics u) (<[key := <[field := v + 1]> h]> (hashes u))).

Definition log_metric (metric_name : string) : M usage unit :=
  emit (LogEntry "log_metric" metric_name VNone "").

Definition user_key (user_id : pystr) : pystr := (str "usage:users:" ++ user_id)%list.
Definition endpoint_key (endpoint : pystr) : pystr := (str "usage:endpoints:" ++ endpoint)%list.

Definition track_request (user_id status : pystr) : M usage unit :=
  bump "requests" ;;;
  (if bool_decide (status = str "success")
   then bump "successful_requests"
   else bump "failed_requests") ;;;
  hincrby (user_key user_id) (str "requests") ;;;
  hincrby (user_key user_id) status ;;;
  log_metric "request_tracking".

Definition track_database_query (user_id query_type : pystr) : M usage unit :=
  bump "database_queries" ;;;
  hincrby (user_key user_id) (str "database_queries") ;;;
  hincrby (user_key user_id) (str "db_" ++ query_type ++ str "_queries")%list ;;;
  log_metric "database_query_tracking".

Definition track_api_call (endpoint status : pystr) : M usage unit :=
  bump "api_calls" ;;;
  hincrby (endpoint_key endpoint) (str "calls") ;;;
  hincrby (endpoint_key endpoint) status ;;;
  log_metric "api_call_tracking".

Definition track_user_message (user_id : pystr) : M usage unit :=
  bump "user_messages" ;;;
  hincrby (user_key user_id) (str "user_messages") ;;;
  log_metric "user_message_tracking".

Definition track_ai_response (user_id : pystr) : M usage unit :=
  bump "ai_responses" ;;;
  hincrby (user_key user_id) (str "ai_responses") ;;;
  log_metric "ai_response_tracking".

(** The calls the tracker can be given, and a run of them. *)
Inductive call :=
| TrackRequest (user_id status : pystr)
| TrackDatabaseQuery (user_id query_type : pystr)
| TrackApiCall (endpoint status : pystr)
| TrackUserMessage (user_id : pystr)
| TrackAiResponse (user_id : pystr).

Definition perform (c : call) : M usage unit :=
  match c with
  | TrackRequest u s => track_request u s
  | TrackDatabaseQuery u q => track_database_query u q
  | TrackApiCall e s => track_api_call e s
  | TrackUserMessage u => track_user_message u
  | TrackAiResponse u => track_ai_response u
  end.

Fixpoint perform_all (calls : list call) : M usage unit :=
  match calls with
  | [] => ret tt
  | c :: rest => perform c ;;; perform_all rest
  end.

(** The counter named [name], as [get_usage_statistics] reads it. *)
Definition metric (u : usage) (name : string) : Z := default 0 (metrics u !! name).

Definition is_request (c : call) : bool :=
  match c with
  | TrackRequest _ _ => true
  | _ => false
  end.

End UsageTracker.

(** The members of a key that [ZREMRANGEBYSCORE key 0 (current_time - window)]
    leaves in place. *)
Definition kept (r : redis) (key : pystr) (current_time window_seconds : Z) : gset Z :=
  filter (fun x => ~ (0 <= x /\ x <= current_time - seconds window_seconds)) (zset_of r key).

(** ** The clocks and the library's checks *)

(** [datetime.utcnow().timestamp()] at the instant [now] (seconds since the
    epoch), on a host whose local time is [utc_offset] seconds ahead of
    UTC: the naive UTC date is read as a local one.  This is the reading
    [verify_token] compares with [exp]. *)
Definition utcnow_timestamp (utc_offset now : Z) : Z := now - utc_offset.

(** The claims [jwt.decode] validates on its own account beside the three
    time claims. *)
Definition registered_names : list string := ["aud"; "iss"; "sub"; "jti"; "at_hash"].

Definition unregistered (c : claims) : Prop :=
  Forall (fun k => c !! k = None) registered_names.

(** What is assumed of the library where a statement follows a token from
    issuance to verification.  A token [jwt.encode] made of claims with
    integer [exp], [iat] and [nbf] and no other registered claim has three
    segments, and [jwt.decode], under the same key and algorithm, gives the
    claims back unless, on the library's clock, [exp] lies in the past or
    [nbf] in the future, which it reports by a [JWTError].  The library's
    clock is the instant [now] itself; the second argument of [jwt_decode]
    is the reading [verify_token] takes at that instant. *)
Definition jose_round_trip (jwt_encode : claims -> pystr)
    (jwt_decode : pystr -> Z -> outcome claims) (utc_offset : Z) : Prop :=
  forall (c : claims) (e i n now : Z),
    c !! "exp" = Some (VInt e) -> c !! "iat" = Some (VInt i) ->
    c !! "nbf" = Some (VInt n) -> unregistered c ->
    Z.of_nat (length (split 46 (jwt_encode c))) = 3 /\
    jwt_decode (jwt_encode c) (utcnow_timestamp utc_offset now)
    = if (e <? now)%Z || (now <? n)%Z then Raise JWTError else Return c.

(** ** Sample data

    A stand-in for the JWT library that knows one token and does not look
    at the clock (it is used at readings up to the token's [exp] only), and
    sample claims, used to run the statements below on concrete inputs. *)

Definition sample_token : pystr := str "header.claims.signature".

Definition sample_encode : claims -> pystr := fun _ => sample_token.

Definition sample_decode (p : claims) : pystr -> Z -> outcome claims :=
  fun token _ => if decide (token = sample_token) then Return p else Raise JWTError.

#[global] Instance pyval_countable : Countable pyval.
Proof.
  refine (inj_countable'
            (fun v => match v with
                      | VNone => inl tt
                      | VInt z => inr (inl z)
                      | VStr s => inr (inr s)
                      end)
            (fun x => match x with
                      | inl _ => VNone
                      | inr (inl z) => VInt z
                      | inr (inr s) => VStr s
                      end) _).
  intros [| |]; reflexivity.
Defined.

(** A second stand-in for the library, with a payload segment that can be
    read back: the claims are numbered and the number is written in binary,
    lowest digit first and without its leading one.  Decoding applies the
    library's two time checks on the clock of a host [utc_offset] seconds
    ahead of UTC. *)
Fixpoint pos_bits (p : positive) : pystr :=
  match p with
  | xH => []
  | xO q => 48%N :: pos_bits q
  | xI q => 49%N :: pos_bits q
  end.

Fixpoint bits_pos (s : pystr) : positive :=
  match s with
  | [] => xH
  | c :: r => if (c =? 48)%N then xO (bits_pos r) else xI (bits_pos r)
  end.

Definition codec_encode (c : claims) : pystr :=
  (str "h." ++ pos_bits (encode c) ++ str ".s")%list.

Definition codec_decode (utc_offset : Z) (token : pystr) (reading : Z) : outcome claims :=
  match split 46 token with
  | [_; body; _] =>
      match decode (bits_pos body) with
      | Some c =>
          let now := reading + utc_offset in
          let expired := match c !! "exp" with
                         | Some (VInt e) => (e <? now)%Z
                         | _ => false
                         end in
          let early := match c !! "nbf" with
                       | Some (VInt n) => (now <? n)%Z
                       | _ => false
                       end in
          if expired || early then Raise JWTError else Return c
      | None => Raise JWTError
      end
  | _ => Raise JWTError
  end.

(** The claims of the repository's test of an expired token. *)
Definition expired_test_claims : claims :=
  <["user_id" := VStr (str "expired_test_user")]> (<["role" := VStr (str "user")]> ∅).

Definition alice_claims : claims :=
  <["user_id" := VStr (str "alice")]> (<["role" := VStr (str "admin")]> ∅).

(** 128 times the letter e with an acute accent (U+00E9), two bytes each. *)
Definition accented_user_id : pystr := repeat 233%N 128.

Definition alice_exp_claims : claims := <["exp" := VInt 1700003600]> alice_claims.
Definition empty_user_id_claims : claims := <["user_id" := VStr (str "")]> ∅.
Definition root_role_claims : claims := <["role" := VStr (str "root")]> alice_claims.
Definition accented_claims : claims := <["user_id" := VStr accented_user_id]> ∅.

Definition bob_task : Task :=
  mkTask 1 (str "Buy milk") None false (VStr (str "bob")) 1700000000 1700000000.
Definition alice_task : Task :=
  mkTask 2 (str "Write report") (Some (str "by Friday")) false (VStr (str "alice"))
    1700000000 1700000000.
Definition sample_session : session := <[1 := bob_task]> ∅.
Definition alice_session : session := <[2 := alice_task]> sample_session.
Definition rename_update : TaskUpdate :=
  mkTaskUpdate (Sent (Some (str "Mine now"))) NotSent NotSent.
Definition spoofed_create : TaskCreate :=
  mkTaskCreate (str "Water plants") None false (VStr (str "bob")).

(** 101 requests, 1 ms apart, and 101 requests at one clock reading. *)
Definition burst : list Z := map (fun i => 1700000000000000 + 1000 * Z.of_nat i) (seq 0 101).
Definition same_instant : list Z := repeat 1700000000000000 101.

(** The store after one request of alice at the first reading of [burst]. *)
Definition after_one : redis :=
  st (RateLimiter.is_rate_limited (str "alice") (str "/api/v1/chat") None
        1700000000000000 fresh_redis).

(** The minute counter of one principal on the chat endpoint, holding the
    101 requests of the last 101 microseconds, and limits that name the
    hour only. *)
Definition crowded_redis : redis :=
  Redis {[ RateLimiter.rate_limit_key (str "alice") (str "/api/v1/chat") "minute" :=
             list_to_set (map (fun i => 1700000000000000 - Z.of_nat i) (seq 1 101)) ]} ∅.

Definition hourly_limits : gmap string Z := {[ "requests_per_hour" := 500 ]}.

(** * Properties *)

(** Unfolds the monad so that a run on a given store computes. *)
Ltac run :=
  unfold log_operation, log_error, log_authorization_decision,
    log_token_validation_result, log_token_lifecycle_event, log_security_event,
    py_ge, py_lt in *;
  unfold try_except, bind, ret, raise, of_outcome, emit, get_state, put_state in *;
  cbn [st tr out] in *.

Lemma split_cons_length (sep : N) (s : pystr) : (1 <= length (split sep s))%nat.
Proof.
  induction s as [|c r IH]; simpl; [lia|].
  destruct (c =? sep)%N; simpl; [lia|].
  destruct (split sep r); simpl; lia.
Qed.

Lemma three_segments_nonempty (token : pystr) :
  Z.of_nat (length (split 46 token)) = 3 ->
  negb (truthy (VStr token)) || (len token =? 0)%Z = false.
Proof.
  destruct token as [|c r]; simpl; [discriminate|].
  intros _. unfold len. simpl length. 
  replace (Z.of_nat (Datatypes.S (length r)) =? 0)%Z with false by (symmetry; apply Z.eqb_neq; lia).
  reflexivity.
Qed.

Section SecurityFacts.
Context {S : Type}.
Variable jwt_encode : claims -> pystr.
Variable jwt_decode : pystr -> Z -> outcome claims.
Variable JWT_EXPIRATION_DELTA : Z.

(** What [verify_token] does once the library has decoded the token. *)
Lemma verify_token_decoded (token : pystr) (now : Z) (p : claims) (s : S) :
  Z.of_nat (length (split 46 token)) = 3 ->
  jwt_decode token now = Return p ->
  verify_token jwt_decode token now s =
    let user := dict_get_default p "user_id" (VStr (str "unknown")) in
    match dict_get p "exp" with
    | VInt e =>
        if negb (e =? 0)%Z && (e <=? now)%Z
        then Res s [LogEntry "log_token_validation_result" "EXPIRED" user
                      "Token expiry time reached"] (Return None)
        else Res s [LogEntry "log_token_lifecycle_event" "VALID" user ""] (Return (Some p))
    | VNone => Res s [LogEntry "log_token_lifecycle_event" "VALID" user ""] (Return (Some p))
    | VStr x =>
        if (len x =? 0)%Z
        then Res s [LogEntry "log_token_lifecycle_event" "VALID" user ""] (Return (Some p))
        else Res s [LogEntry "log_token_validation_result" "INVALID" (VStr (str "unknown"))
                      "Unexpected error"] (Raise (NameError "log_security_event"))
    end.
Proof.
  intros Hseg Hdec. unfold verify_token.
  rewrite (three_segments_nonempty token Hseg).
  rewrite Hseg. cbn [Z.eqb negb Pos.eqb].
  run. rewrite Hdec. cbn [st tr out].
  destruct (dict_get p "exp") as [|e|x]; cbn [truthy].
  - reflexivity.
  - destruct (e =? 0)%Z; cbn [negb andb]; [reflexivity|].
    cbn [st tr out]. destruct (e <=? now)%Z; reflexivity.
  - destruct (len x =? 0)%Z; reflexivity.
Qed.

(** Whatever [verify_token] answers without decoded claims in hand, it
    answers by raising: the only [None] it returns is the expiry one. *)
Lemma verify_token_returns_inv (token : pystr) (now : Z) (r : option claims) (s : S) :
  out (verify_token jwt_decode token now s) = Return r ->
  Z.of_nat (length (split 46 token)) = 3 /\
  exists p, jwt_decode token now = Return p /\
    match dict_get p "exp" with
    | VInt e => if negb (e =? 0)%Z && (e <=? now)%Z then r = None else r = Some p
    | VNone => r = Some p
    | VStr x => len x = 0 /\ r = Some p
    end.
Proof.
  intros Hout.
  destruct (decide (Z.of_nat (length (split 46 token)) = 3)) as [Hseg|Hseg].
  - split; [exact Hseg|].
    destruct (jwt_decode token now) as [p|e] eqn:Hdec.
    + exists p. split; [reflexivity|].
      rewrite (verify_token_decoded token now p s Hseg Hdec) in Hout.
      cbn zeta in Hout.
      destruct (dict_get p "exp") as [|e|x].
      * cbn in Hout. congruence.
      * destruct (negb (e =? 0)%Z && (e <=? now)%Z); cbn in Hout; congruence.
      * destruct (len x =? 0)%Z eqn:Hx; cbn in Hout; [|discriminate].
        apply Z.eqb_eq in Hx. split; congruence.
    + exfalso. unfold verify_token in Hout.
      rewrite (three_segments_nonempty token Hseg), Hseg in Hout.
      cbn [Z.eqb negb Pos.eqb] in Hout. run. rewrite Hdec in Hout.
      cbn [st tr out] in Hout. destruct e; cbn in Hout; discriminate.
  - exfalso. unfold verify_token in Hout.
    apply Z.eqb_neq in Hseg.
    destruct (negb (truthy (VStr token)) || (len token =? 0)%Z);
      [|rewrite Hseg in Hout]; run; cbn in Hout; discriminate.
Qed.

(** C9 (fails on the code).  On the empty token [verify_token] does not
    return [None]: the call it makes to report the empty token raises
    [NameError], the handler that catches it makes the same call, and the
    second [NameError] reaches the caller. *)
Theorem verify_token_empty_raises (now : Z) (s : S) :
  out (verify_token jwt_decode (str "") now s) = Raise (NameError "log_security_event").
Proof. reflexivity. Qed.

(** The same happens for every token that is not made of three segments
    and for every token the library rejects. *)
Lemma verify_token_malformed_raises (token : pystr) (now : Z) (s : S) :
  Z.of_nat (length (split 46 token)) <> 3 ->
  out (verify_token jwt_decode token now s) = Raise (NameError "log_security_event").
Proof.
  intros Hseg. apply Z.eqb_neq in Hseg. unfold verify_token.
  destruct (negb (truthy (VStr token)) || (len token =? 0)%Z);
    [|rewrite Hseg]; reflexivity.
Qed.

Lemma verify_token_rejected_raises (token : pystr) (now : Z) (e : exn) (s : S) :
  Z.of_nat (length (split 46 token)) = 3 ->
  jwt_decode token now = Raise e ->
  out (verify_token jwt_decode token now s) = Raise (NameError "log_security_event").
Proof.
  intros Hseg Hdec. unfold verify_token.
  rewrite (three_segments_nonempty token Hseg), Hseg.
  cbn [Z.eqb negb Pos.eqb]. run. rewrite Hdec. cbn [st tr out].
  destruct e; reflexivity.
Qed.

(** C4.  For a token with three segments that the library decodes to
    claims without [exp], [verify_token] returns the claims while
    [validate_token_not_expired] answers [False] for them; when [exp] is
    present (a non-zero instant) the two agree: [verify_token] returns the
    claims exactly when [validate_token_not_expired] answers [True]. *)
Theorem missing_exp_policies_differ (token : pystr) (now : Z) (p : claims) (s : S) :
  Z.of_nat (length (split 46 token)) = 3 ->
  jwt_decode token now = Return p ->
  (p !! "exp" = None ->
     out (verify_token jwt_decode token now s) = Return (Some p) /\
     out (validate_token_not_expired p now s) = Return false) /\
  (forall e, p !! "exp" = Some (VInt e) -> e <> 0 ->
     (out (verify_token jwt_decode token now s) = Return (Some p) <->
      out (validate_token_not_expired p now s) = Return true)).
Proof.
  intros Hseg Hdec.
  rewrite (verify_token_decoded token now p s Hseg Hdec).
  unfold validate_token_not_expired, dict_get. cbn zeta. split.
  - intros Hexp. rewrite Hexp. cbn. split; reflexivity.
  - intros e Hexp He. rewrite Hexp. run.
    apply Z.eqb_neq in He. rewrite He. cbn [negb andb].
    destruct (e <=? now)%Z eqn:Hle; destruct (now <? e)%Z eqn:Hlt;
      cbn [st tr out]; try lia; split; intros H; try discriminate H; try reflexivity.
Qed.

(** Issuance, when nothing is wrong with the claims: the token is the
    encoding of [issued_claims], whose [exp] is the instant of issuance plus
    the time to live. *)
Lemma create_access_token_returns_inv (data : claims) (ttl : option Z) (now : Z)
    (tok : pystr) (s : S) :
  out (create_access_token jwt_encode JWT_EXPIRATION_DELTA data ttl now s) = Return tok ->
  tok = jwt_encode (issued_claims JWT_EXPIRATION_DELTA data ttl now).
Proof.
  unfold create_access_token. run.
  destruct (data !! "user_id") as [[|z|u]|]; cbn [st tr out];
    try discriminate;
    try (destruct ((len u =? 0)%Z || (255 <? len u)%Z); cbn [st tr out];
         try discriminate);
    (destruct (data !! "role") as [role|]; cbn [st tr out];
     [destruct (negb (bool_decide (role = VStr (str "user"))
                      || bool_decide (role = VStr (str "admin"))));
      cbn [st tr out]; try discriminate|];
     intros H; injection H as <-; reflexivity).
Qed.

(** C6, as the code has it.  Issuance raises the invalid-subject
    [ValueError] for every claims set whose [user_id] is present and is not
    a [str], is empty, or is longer than 255 characters (code points, not
    bytes); it returns no token for a claims set with an acceptable
    [user_id] whose [role] is present and is neither ["user"] nor
    ["admin"]; and for a claims set acceptable on both counts it raises
    nothing and returns the encoding of the issued claims. *)
Theorem create_access_token_validation (data : claims) (ttl : option Z) (now : Z) (s : S) :
  (forall v, data !! "user_id" = Some v ->
             (forall u, v = VStr u -> len u = 0 \/ 255 < len u) ->
             out (create_access_token jwt_encode JWT_EXPIRATION_DELTA data ttl now s)
               = Raise invalid_user_id) /\
  (user_id_accepted data ->
   forall role, data !! "role" = Some role ->
                role <> VStr (str "user") -> role <> VStr (str "admin") ->
                forall tok,
                  out (create_access_token jwt_encode JWT_EXPIRATION_DELTA data ttl now s)
                    <> Return tok) /\
  (user_id_accepted data -> role_accepted data ->
   out (create_access_token jwt_encode JWT_EXPIRATION_DELTA data ttl now s)
     = Return (jwt_encode (issued_claims JWT_EXPIRATION_DELTA data ttl now))).
Proof.
  assert (Hpass : user_id_accepted data ->
            out (create_access_token jwt_encode JWT_EXPIRATION_DELTA data ttl now s) =
            match data !! "role" with
            | Some role =>
                if negb (bool_decide (role = VStr (str "user"))
                         || bool_decide (role = VStr (str "admin")))
                then Raise (NameError "log_security_event")
                else Return (jwt_encode (issued_claims JWT_EXPIRATION_DELTA data ttl now))
            | None => Return (jwt_encode (issued_claims JWT_EXPIRATION_DELTA data ttl now))
            end).
  { unfold user_id_accepted, create_access_token. run.
    destruct (data !! "user_id") as [[|z|u]|]; try contradiction.
    - intros [Hlo Hhi].
      replace (len u =? 0)%Z with false by (symmetry; apply Z.eqb_neq; lia).
      replace (255 <? len u)%Z with false by (symmetry; apply Z.ltb_ge; lia).
      cbn [orb st tr out].
      destruct (data !! "role") as [role|]; cbn [st tr out]; [|reflexivity].
      destruct (negb (bool_decide (role = VStr (str "user"))
                      || bool_decide (role = VStr (str "admin")))); reflexivity.
    - intros _. cbn [st tr out].
      destruct (data !! "role") as [role|]; cbn [st tr out]; [|reflexivity].
      destruct (negb (bool_decide (role = VStr (str "user"))
                      || bool_decide (role = VStr (str "admin")))); reflexivity. }
  split; [|split].
  - intros v Hv Hbad. unfold create_access_token. run. rewrite Hv.
    destruct v as [|z|u]; try reflexivity.
    destruct (Hbad u eq_refl) as [H0|H255].
    + rewrite H0. reflexivity.
    + replace (255 <? len u)%Z with true by (symmetry; apply Z.ltb_lt; lia).
      rewrite orb_true_r. reflexivity.
  - intros Hu role Hrole Hnu Hna tok. rewrite (Hpass Hu), Hrole.
    rewrite (bool_decide_eq_false_2 _ Hnu), (bool_decide_eq_false_2 _ Hna).
    discriminate.
  - intros Hu Hr. rewrite (Hpass Hu). unfold role_accepted in Hr.
    destruct (data !! "role") as [role|]; [|reflexivity].
    destruct Hr as [-> | ->]; reflexivity.
Qed.

Lemma three_insert_subseteq (data : claims) (a b c : pyval) :
  data !! "exp" = None -> data !! "iat" = None -> data !! "nbf" = None ->
  data ⊆ <["nbf" := c]> (<["iat" := b]> (<["exp" := a]> data)).
Proof.
  intros He Hi Hn.
  etrans; [apply (insert_subseteq data "exp" a He)|].
  etrans; [apply (insert_subseteq _ "iat" b)|].
  { rewrite lookup_insert_ne by discriminate. exact Hi. }
  apply insert_subseteq.
  rewrite lookup_insert_ne by discriminate.
  rewrite lookup_insert_ne by discriminate. exact Hn.
Qed.

(** The gate lets every request through whose path begins with a slash:
    the first entry of [public_routes] is a prefix of each of them. *)
Lemma dispatch_public_prefix (req : request) (now : Z) (s : S) :
  startswith (path req) (str "/") = true ->
  dispatch jwt_decode req now s = Res s [] (Return None).
Proof.
  intros Hp. unfold dispatch, is_public_route, public_routes.
  cbn [existsb]. rewrite Hp. rewrite orb_true_r. reflexivity.
Qed.

(** C1 (fails on the code).  A [PUT] on a task, with no [Authorization]
    header, is not rejected by the gate: it is passed on to the endpoint
    with nothing stored on the request. *)
Theorem dispatch_missing_header_passes (now : Z) (s : S) :
  dispatch jwt_decode (Request (str "PUT") (str "/api/v1/tasks/1") None) now s
    = Res s [] (Return None).
Proof. apply dispatch_public_prefix. reflexivity. Qed.

(** Were the path not matched by [public_routes], the gate would answer
    401 with the [WWW-Authenticate] header, as the dependency
    [get_current_user_payload] does without credentials. *)
Lemma dispatch_missing_header_protected (req : request) (now : Z) (s : S) :
  method req <> str "OPTIONS" ->
  is_public_route (path req) = false ->
  authorization req = None ->
  dispatch jwt_decode req now s =
    Res s [] (Raise (HTTPException 401 "Authorization header is missing"
                       [("WWW-Authenticate", "Bearer")])).
Proof.
  intros Hm Hp Ha. unfold dispatch.
  rewrite (bool_decide_eq_false_2 _ Hm), Hp, Ha. reflexivity.
Qed.

Lemma get_current_user_payload_missing (jwt_decode_no_exp : pystr -> Z -> outcome claims)
    (now : Z) (s : S) :
  out (get_current_user_payload jwt_decode jwt_decode_no_exp None now s) =
    Raise (HTTPException 401 "No authorization token provided"
             [("WWW-Authenticate", "Bearer")]).
Proof. reflexivity. Qed.

End SecurityFacts.

(** *** The statements above on sample data *)

Lemma missing_exp_policies_differ_witness :
  (out (verify_token (sample_decode alice_claims) sample_token 1700000000 tt)
     = Return (Some alice_claims) /\
   out (validate_token_not_expired alice_claims 1700000000 tt) = Return false) /\
  (out (verify_token (sample_decode alice_exp_claims) sample_token 1700000000 tt)
     = Return (Some alice_exp_claims) <->
   out (validate_token_not_expired alice_exp_claims 1700000000 tt) = Return true).
Proof.
  split.
  - apply (@missing_exp_policies_differ unit (sample_decode alice_claims)
             sample_token 1700000000 alice_claims tt);
      vm_compute; reflexivity.
  - apply (fun a b => proj2 (@missing_exp_policies_differ unit
                    (sample_decode alice_exp_claims)
                    sample_token 1700000000 alice_exp_claims tt a b) 1700003600).
    + vm_compute; reflexivity.
    + vm_compute; reflexivity.
    + vm_compute; reflexivity.
    + lia.
Defined.


(** C6, as stated, fails: a [user_id] of 128 two-byte characters is 256
    bytes long, and a token is issued for it. *)
Lemma user_id_over_255_bytes_issued :
  accented_claims !! "user_id" = Some (VStr accented_user_id) /\
  255 < utf8_len accented_user_id /\
  out (create_access_token sample_encode 604800 accented_claims None 1700000000 tt)
    = Return sample_token.
Proof. split; [|split]; vm_compute; reflexivity. Qed.

Lemma create_access_token_validation_witness :
  out (create_access_token sample_encode 604800 empty_user_id_claims None 1700000000 tt)
    = Raise invalid_user_id /\
  (forall tok,
      out (create_access_token sample_encode 604800 root_role_claims None 1700000000 tt)
        <> Return tok) /\
  out (create_access_token sample_encode 604800 alice_claims None 1700000000 tt)
    = Return (sample_encode (issued_claims 604800 alice_claims None 1700000000)).
Proof.
  split; [|split].
  - apply (proj1 (@create_access_token_validation unit sample_encode 604800
                    empty_user_id_claims None 1700000000 tt) (VStr (str ""))).
    + vm_compute; reflexivity.
    + intros u Hu. injection Hu as <-. left. reflexivity.
  - apply (fun a => proj1 (proj2 (@create_access_token_validation unit sample_encode 604800
                    root_role_claims None 1700000000 tt)) a (VStr (str "root"))).
    + vm_compute. split; discriminate.
    + vm_compute; reflexivity.
    + discriminate.
    + discriminate.
  - apply (proj2 (proj2 (@create_access_token_validation unit sample_encode 604800
                    alice_claims None 1700000000 tt))).
    + vm_compute. split; discriminate.
    + right. vm_compute; reflexivity.
Defined.


(** ** The task endpoints *)

Lemma bind_run {S A B} (m : M S A) (f : A -> M S B) (s s' : S) (a : A) :
  out (m s) = Return a -> st (m s) = s' ->
  out (bind m f s) = out (f a s') /\ st (bind m f s) = st (f a s').
Proof.
  unfold bind. destruct (m s) as [s1 t1 o]. cbn [st tr out]. intros -> ->.
  destruct (f a s'). split; reflexivity.
Qed.

(** Token verification leaves the store alone. *)
Lemma verify_token_st {S} (jwt_decode : pystr -> Z -> outcome claims)
    (token : pystr) (now : Z) (s : S) :
  st (verify_token jwt_decode token now s) = s.
Proof.
  unfold verify_token.
  destruct (negb (truthy (VStr token)) || (len token =? 0)%Z); [reflexivity|].
  destruct (negb (Z.of_nat (length (split 46 token)) =? 3)%Z); [reflexivity|].
  run. destruct (jwt_decode token now) as [p|e]; cbn [st tr out].
  - destruct (truthy (dict_get p "exp")); [|reflexivity].
    destruct (dict_get p "exp") as [|z|x]; cbn [st tr out]; try reflexivity.
    destruct (z <=? now)%Z; reflexivity.
  - destruct e; reflexivity.
Qed.

Lemma get_current_user_id_run {S} (jwt_decode : pystr -> Z -> outcome claims)
    (token : pystr) (now : Z) (p : claims) (uid : pyval) (s : S) :
  out (verify_token jwt_decode token now s) = Return (Some p) ->
  p !! "user_id" = Some uid -> uid <> VNone ->
  out (get_current_user_id jwt_decode token now s) = Return uid /\
  st (get_current_user_id jwt_decode token now s) = s.
Proof.
  intros Hv Hp Hu. unfold get_current_user_id.
  destruct (bind_run (verify_token jwt_decode token now)
              (fun payload =>
                 match payload with
                 | Some payload =>
                     match dict_get payload "user_id" with
                     | VNone => raise (HTTPException HTTP_401_UNAUTHORIZED
                                         "Could not validate credentials" www_authenticate)
                     | user_id => ret user_id
                     end
                 | None => raise (HTTPException HTTP_401_UNAUTHORIZED
                                    "Invalid authentication credentials" www_authenticate)
                 end) s s (Some p) Hv (verify_token_st jwt_decode token now s)) as [-> ->].
  unfold dict_get. rewrite Hp. destruct uid; [contradiction| |]; split; reflexivity.
Qed.

Lemma validate_task_update_ok {S} (u : TaskUpdate) (s : S) :
  TaskUpdate_fields_ok u -> validate_task_update u s = Res s [] (Return tt).
Proof.
  intros [Ht Hd]. unfold validate_task_update. run.
  destruct (value_of (update_title u)) as [t|].
  - pose proof (Ht t eq_refl) as Hlen.
    replace (len t =? 0)%Z with false by (symmetry; apply Z.eqb_neq; lia).
    replace (255 <? len t)%Z with false by (symmetry; apply Z.ltb_ge; lia).
    cbn [st tr out].
    destruct (value_of (update_description u)) as [d|]; [|reflexivity].
    pose proof (Hd d eq_refl).
    replace (1000 <? len d)%Z with false by (symmetry; apply Z.ltb_ge; lia).
    reflexivity.
  - cbn [st tr out].
    destruct (value_of (update_description u)) as [d|]; [|reflexivity].
    pose proof (Hd d eq_refl).
    replace (1000 <? len d)%Z with false by (symmetry; apply Z.ltb_ge; lia).
    reflexivity.
Qed.

Lemma run_mutation_not_found (op : TasksAPI.mutation) (task_id : Z) (uid : pyval)
    (s : session) :
  TasksAPI.body_ok op ->
  s !! task_id = None ->
  out (TasksAPI.run_mutation op task_id uid s)
    = Raise (HTTPException 404
         (String.append "Task with id " (String.append (pretty task_id) " not found")) []) /\
  st (TasksAPI.run_mutation op task_id uid s) = s.
Proof.
  intros Hok Hnone. destruct op as [u| |]; cbn [TasksAPI.run_mutation].
  - unfold TasksAPI.update_task, TaskService.get_task_by_id, TasksAPI.not_found. run.
    rewrite (validate_task_update_ok u s Hok). cbn [st tr out].
    rewrite Hnone. cbn. split; reflexivity.
  - unfold TasksAPI.toggle_task_completion, TaskService.get_task_by_id,
      TasksAPI.not_found. run. rewrite Hnone. cbn. split; reflexivity.
  - unfold TasksAPI.delete_task, TaskService.get_task_by_id, TasksAPI.not_found.
    run. rewrite Hnone. cbn. split; reflexivity.
Qed.

Lemma run_mutation_forbidden (op : TasksAPI.mutation) (task_id : Z) (uid : pyval)
    (t : Task) (s : session) :
  TasksAPI.body_ok op ->
  s !! task_id = Some t -> user_id t <> uid ->
  out (TasksAPI.run_mutation op task_id uid s)
    = Raise (HTTPException 403 (TasksAPI.forbidden_detail op) []) /\
  st (TasksAPI.run_mutation op task_id uid s) = s.
Proof.
  intros Hok Hsome Hne. destruct op as [u| |]; cbn [TasksAPI.run_mutation].
  - unfold TasksAPI.update_task, TaskService.get_task_by_id. run.
    rewrite (validate_task_update_ok u s Hok). cbn [st tr out].
    rewrite Hsome. cbn [st tr out].
    rewrite (bool_decide_eq_false_2 _ Hne). cbn. split; reflexivity.
  - unfold TasksAPI.toggle_task_completion, TaskService.get_task_by_id. run.
    rewrite Hsome. cbn [st tr out].
    rewrite (bool_decide_eq_false_2 _ Hne). cbn. split; reflexivity.
  - unfold TasksAPI.delete_task, TaskService.get_task_by_id. run.
    rewrite Hsome. cbn [st tr out].
    rewrite (bool_decide_eq_false_2 _ Hne). cbn. split; reflexivity.
Qed.

(** The service's own guard, used when a caller passes [current_user_id]:
    a missing task is reported by the return value; for a task of another
    owner the [PermissionError] raised is replaced, in the handler, by the
    [TypeError] of the call of [log_error]; the table stays as it was. *)
Lemma delete_task_service_guard (task_id : Z) (uid : pyval) (s : session) :
  (s !! task_id = None ->
   out (TaskService.delete_task task_id uid s) = Return false /\
   st (TaskService.delete_task task_id uid s) = s) /\
  (forall t, s !! task_id = Some t -> truthy uid = true -> user_id t <> uid ->
   out (TaskService.delete_task task_id uid s) = Raise TypeError /\
   st (TaskService.delete_task task_id uid s) = s).
Proof.
  unfold TaskService.delete_task, TaskService.check_owner, session_rollback. run. split.
  - intros Hnone. rewrite Hnone. cbn. split; reflexivity.
  - intros t Hsome Htrue Hne. rewrite Hsome, Htrue.
    rewrite (bool_decide_eq_false_2 _ Hne). cbn. split; reflexivity.
Qed.

(** C2.  Take any of the three mutating routes, called with a token that
    [verify_token] accepts and whose claims name the principal [uid],
    whatever role they carry.  If the table has no task under the given id,
    the answer is 404 and the table is unchanged, with no regard to who owns
    what; if it has one whose [user_id] differs from [uid], the answer is
    403 and the table is unchanged. *)
Theorem mutation_not_found_then_forbidden
    (jwt_decode : pystr -> Z -> outcome claims) (op : TasksAPI.mutation)
    (task_id : Z) (token : pystr) (now : Z) (p : claims) (uid : pyval) (s : session) :
  TasksAPI.body_ok op ->
  out (verify_token jwt_decode token now s) = Return (Some p) ->
  p !! "user_id" = Some uid -> uid <> VNone ->
  (s !! task_id = None ->
   out (TasksAPI.route jwt_decode op task_id token now s)
     = Raise (HTTPException 404
         (String.append "Task with id " (String.append (pretty task_id) " not found")) []) /\
   st (TasksAPI.route jwt_decode op task_id token now s) = s) /\
  (forall t, s !! task_id = Some t -> user_id t <> uid ->
   out (TasksAPI.route jwt_decode op task_id token now s)
     = Raise (HTTPException 403 (TasksAPI.forbidden_detail op) []) /\
   st (TasksAPI.route jwt_decode op task_id token now s) = s).
Proof.
  intros Hok Hv Hp Hu.
  destruct (get_current_user_id_run jwt_decode token now p uid s Hv Hp Hu) as [Ho Hs].
  unfold TasksAPI.route.
  destruct (bind_run (get_current_user_id jwt_decode token now)
              (fun current_user_id => TasksAPI.run_mutation op task_id current_user_id)
              s s uid Ho Hs) as [-> ->].
  split.
  - intros Hnone. apply run_mutation_not_found; assumption.
  - intros t Hsome Hne. apply (run_mutation_forbidden op task_id uid t s); assumption.
Qed.

Lemma mutation_not_found_then_forbidden_witness :
  (out (TasksAPI.route (sample_decode alice_claims) (TasksAPI.Update rename_update)
          7 sample_token 1700000000 sample_session)
     = Raise (HTTPException 404 "Task with id 7 not found" []) /\
   st (TasksAPI.route (sample_decode alice_claims) (TasksAPI.Update rename_update)
         7 sample_token 1700000000 sample_session) = sample_session) /\
  (out (TasksAPI.route (sample_decode alice_claims) (TasksAPI.Update rename_update)
          1 sample_token 1700000000 sample_session)
     = Raise (HTTPException 403 "You can only update your own tasks" []) /\
   st (TasksAPI.route (sample_decode alice_claims) (TasksAPI.Update rename_update)
         1 sample_token 1700000000 sample_session) = sample_session).
Proof.
  assert (Hok : TasksAPI.body_ok (TasksAPI.Update rename_update)).
  { split.
    - intros t Ht. injection Ht as <-. vm_compute. split; discriminate.
    - intros d Hd. discriminate Hd. }
  split.
  - apply (fun a b c => proj1 (mutation_not_found_then_forbidden
             (sample_decode alice_claims) (TasksAPI.Update rename_update)
             7 sample_token 1700000000 alice_claims (VStr (str "alice")) sample_session
             Hok a b c)).
    + vm_compute; reflexivity.
    + vm_compute; reflexivity.
    + discriminate.
    + vm_compute; reflexivity.
  - apply (fun a b c => proj2 (mutation_not_found_then_forbidden
             (sample_decode alice_claims) (TasksAPI.Update rename_update)
             1 sample_token 1700000000 alice_claims (VStr (str "alice")) sample_session
             Hok a b c) bob_task).
    + vm_compute; reflexivity.
    + vm_compute; reflexivity.
    + discriminate.
    + vm_compute; reflexivity.
    + discriminate.
Defined.

(** ** Creation *)

Lemma fresh_not_in_session (s : session) : s !! fresh (dom s) = None.
Proof. apply not_elem_of_dom. apply is_fresh. Qed.

Lemma strip_nonempty (x : pystr) : (len (strip x) =? 0)%Z = false -> 1 <= len x.
Proof.
  destruct x as [|c r]; [discriminate|]. intros _. unfold len. simpl length. lia.
Qed.

(** Validation of a creation body either passes, and then the title has 1
    to 255 characters and the description at most 1000, or raises a 400. *)
Lemma validate_task_create_cases {S} (tc : TaskCreate) (s : S) :
  (validate_task_create tc s = Res s [] (Return tt) /\
   1 <= len (create_title tc) <= 255 /\
   (forall d, create_description tc = Some d -> len d <= 1000)) \/
  (exists detail, validate_task_create tc s
                  = Res s [] (Raise (HTTPException 400 detail []))).
Proof.
  unfold validate_task_create. run.
  destruct (negb (truthy (VStr (create_title tc)))
            || (len (strip (create_title tc)) =? 0)%Z) eqn:Hblank; cbn [st tr out].
  { right. eexists. reflexivity. }
  apply orb_false_iff in Hblank as [_ Hstrip]. apply strip_nonempty in Hstrip.
  destruct (255 <? len (create_title tc))%Z eqn:Hlong; cbn [st tr out].
  { right. eexists. reflexivity. }
  apply Z.ltb_ge in Hlong.
  destruct (create_description tc) as [d|] eqn:Hd; cbn [st tr out].
  - destruct (truthy (VStr d) && (1000 <? len d)%Z) eqn:Hdesc; cbn [st tr out].
    { right. eexists. reflexivity. }
    left. split; [reflexivity|]. split; [lia|].
    intros d' Hd'. injection Hd' as <-.
    apply andb_false_iff in Hdesc as [Hfalsy|Hshort].
    + cbn [truthy] in Hfalsy. apply negb_false_iff, Z.eqb_eq in Hfalsy. lia.
    + apply Z.ltb_ge in Hshort. lia.
  - left. split; [reflexivity|]. split; [lia|]. intros d' Hd'. discriminate Hd'.
Qed.

Lemma create_task_invalid (tc : TaskCreate) (uid : pyval) (now : Z) (s : session)
    (detail : string) :
  validate_task_create tc s = Res s [] (Raise (HTTPException 400 detail [])) ->
  out (TasksAPI.create_task tc uid now s) = Raise (HTTPException 400 detail []) /\
  st (TasksAPI.create_task tc uid now s) = s.
Proof.
  intros Hv. unfold TasksAPI.create_task. run.
  change (validate_task_create _ s) with (validate_task_create tc s).
  rewrite Hv. cbn. split; reflexivity.
Qed.

Lemma create_task_valid (tc : TaskCreate) (uid : pyval) (now : Z) (s : session) :
  validate_task_create tc s = Res s [] (Return tt) ->
  1 <= len (create_title tc) <= 255 ->
  (forall d, create_description tc = Some d -> len d <= 1000) ->
  match uid with
  | VNone =>
      st (TasksAPI.create_task tc uid now s) = s /\
      exists e, out (TasksAPI.create_task tc uid now s) = Raise e
  | VInt _ =>
      st (TasksAPI.create_task tc uid now s)
        = <[fresh (dom s) := created_row tc uid now s]> s /\
      exists e, out (TasksAPI.create_task tc uid now s) = Raise e
  | VStr u =>
      st (TasksAPI.create_task tc uid now s)
        = <[fresh (dom s) := created_row tc uid now s]> s /\
      if (len u <=? 255)%Z
      then out (TasksAPI.create_task tc uid now s) = Return (created_row tc uid now s)
      else exists e, out (TasksAPI.create_task tc uid now s) = Raise e
  end.
Proof.
  intros Hv Htitle Hdesc.
  unfold TasksAPI.create_task, TaskService.create_task, TaskResponse_model_validate,
    created_row, session_rollback, TasksAPI.reraise_or_500.
  run.
  change (validate_task_create _ s) with (validate_task_create tc s).
  rewrite Hv. cbn [st tr out].
  cbn [create_user_id create_title create_description create_completed].
  destruct uid as [|z|u]; cbn [st tr out user_id title description id].
  - split; [reflexivity|]. eexists. reflexivity.
  - rewrite andb_false_r. cbn [st tr out]. split; [reflexivity|]. eexists. reflexivity.
  - replace (1 <=? len (create_title tc))%Z with true by (symmetry; apply Z.leb_le; lia).
    replace (len (create_title tc) <=? 255)%Z with true by (symmetry; apply Z.leb_le; lia).
    assert (Hd : match create_description tc with
                 | Some d => (len d <=? 1000)%Z
                 | None => true
                 end = true).
    { destruct (create_description tc) as [d|]; [|reflexivity].
      apply Z.leb_le. apply Hdesc. reflexivity. }
    rewrite Hd. cbn [andb].
    destruct (len u <=? 255)%Z; cbn [st tr out].
    + split; reflexivity.
    + split; [reflexivity|]. eexists. reflexivity.
Qed.

(** C3.  Whatever owner the request body names, [create_task] runs the
    same; a task it returns is owned by the authenticated principal and is
    the row stored under its id, which was free before; every row of the
    table afterwards was there before or is owned by the principal; and for
    a body that passes validation and a principal id of at most 255
    characters a task is returned. *)
Theorem create_task_owner_is_principal (task_create : TaskCreate) (uid : pyval)
    (now : Z) (s : session) :
  (forall payload_owner,
      TasksAPI.create_task
        (mkTaskCreate (create_title task_create) (create_description task_create)
           (create_completed task_create) payload_owner) uid now s
      = TasksAPI.create_task task_create uid now s) /\
  (forall t, out (TasksAPI.create_task task_create uid now s) = Return t ->
             user_id t = uid /\
             st (TasksAPI.create_task task_create uid now s) !! id t = Some t /\
             s !! id t = None) /\
  (forall k t, st (TasksAPI.create_task task_create uid now s) !! k = Some t ->
               s !! k = Some t \/ user_id t = uid) /\
  (forall u, uid = VStr u -> len u <= 255 ->
             out (validate_task_create task_create s) = Return tt ->
             exists t, out (TasksAPI.create_task task_create uid now s) = Return t).
Proof.
  split; [reflexivity|].
  assert (Hrow : forall k t,
             (<[fresh (dom s) := created_row task_create uid now s]> s : session) !! k
               = Some t ->
             s !! k = Some t \/ user_id t = uid).
  { intros k t Hk. destruct (decide (fresh (dom s) = k)) as [<-|Hne].
    - rewrite lookup_insert_eq in Hk. injection Hk as <-. right. reflexivity.
    - rewrite lookup_insert_ne in Hk by exact Hne. left. exact Hk. }
  destruct (validate_task_create_cases task_create s)
    as [(Hv & Htitle & Hdesc) | [detail Hv]].
  - pose proof (create_task_valid task_create uid now s Hv Htitle Hdesc) as Hrun.
    destruct uid as [|z|u].
    + destruct Hrun as [Hst [e He]]. rewrite Hst, He.
      split; [discriminate|]. split; [intros k t Hk; left; exact Hk|].
      intros u Hu. discriminate Hu.
    + destruct Hrun as [Hst [e He]]. rewrite Hst, He.
      split; [discriminate|]. split; [exact Hrow|].
      intros u Hu. discriminate Hu.
    + destruct Hrun as [Hst Hout]. rewrite Hst.
      destruct (len u <=? 255)%Z eqn:Hlen.
      * rewrite Hout. split; [|split; [exact Hrow|]].
        -- intros t Ht. injection Ht as <-. cbn [created_row user_id id].
           split; [reflexivity|]. split; [apply lookup_insert_eq|].
           apply fresh_not_in_session.
        -- intros u' _ _ _. eexists. reflexivity.
      * destruct Hout as [e He]. rewrite He.
        split; [discriminate|]. split; [exact Hrow|].
        intros u' Hu Hle _. injection Hu as <-. apply Z.leb_gt in Hlen. lia.
  - destruct (create_task_invalid task_create uid now s detail Hv) as [Ho Hs].
    rewrite Ho, Hs. split; [discriminate|]. split; [intros k t Hk; left; exact Hk|].
    intros u _ _ Hvalid. rewrite Hv in Hvalid. discriminate Hvalid.
Qed.

Lemma create_task_owner_is_principal_witness :
  (forall t, out (TasksAPI.create_task spoofed_create (VStr (str "alice")) 1700000000
                    sample_session) = Return t ->
             user_id t = VStr (str "alice") /\
             st (TasksAPI.create_task spoofed_create (VStr (str "alice")) 1700000000
                   sample_session) !! id t = Some t /\
             sample_session !! id t = None) /\
  (exists t, out (TasksAPI.create_task spoofed_create (VStr (str "alice")) 1700000000
                    sample_session) = Return t).
Proof.
  split.
  - apply (proj1 (proj2 (create_task_owner_is_principal spoofed_create
                           (VStr (str "alice")) 1700000000 sample_session))).
  - apply (proj2 (proj2 (proj2 (create_task_owner_is_principal spoofed_create
                           (VStr (str "alice")) 1700000000 sample_session)))
             (str "alice")).
    + reflexivity.
    + vm_compute. discriminate.
    + vm_compute. reflexivity.
Defined.

(** ** Toggling *)

Lemma check_owner_same (action : string) (t : Task) (s : session) :
  exists l, TaskService.check_owner action t (user_id t) s = Res s l (Return tt).
Proof.
  unfold TaskService.check_owner. run.
  rewrite (bool_decide_eq_true_2 _ (eq_refl (user_id t))).
  cbn [negb]. rewrite andb_false_r.
  destruct (truthy (user_id t)); eexists; reflexivity.
Qed.

Lemma toggle_task_completion_run (task_id : Z) (t : Task) (s : session) :
  s !! task_id = Some t ->
  out (TaskService.toggle_task_completion task_id (user_id t) s) = Return (Some (toggled t)) /\
  st (TaskService.toggle_task_completion task_id (user_id t) s) = <[task_id := toggled t]> s.
Proof.
  intros Hs. destruct (check_owner_same "toggle" t s) as [l Hc].
  unfold TaskService.toggle_task_completion. run. rewrite Hs, Hc.
  cbn. split; reflexivity.
Qed.

Lemma toggled_twice (t : Task) : toggled (toggled t) = t.
Proof. destruct t. unfold toggled. cbn. rewrite negb_involutive. reflexivity. Qed.

(** C10.  For a task in the table whose owner is the caller, one call of
    [toggle_task_completion] returns and stores the task with [completed]
    negated and [id], [title], [description], [user_id] and [created_at] as
    they were, leaving every other row alone; a second call returns the
    original task and the original table. *)
Theorem toggle_task_completion_involution (task_id : Z) (uid : pyval) (t : Task)
    (s : session) :
  s !! task_id = Some t -> user_id t = uid ->
  exists t1,
    out (TaskService.toggle_task_completion task_id uid s) = Return (Some t1) /\
    st (TaskService.toggle_task_completion task_id uid s) = <[task_id := t1]> s /\
    completed t1 = negb (completed t) /\
    (id t1 = id t /\ title t1 = title t /\ description t1 = description t /\
     user_id t1 = user_id t /\ created_at t1 = created_at t) /\
    out (TaskService.toggle_task_completion task_id uid
           (st (TaskService.toggle_task_completion task_id uid s))) = Return (Some t) /\
    st (TaskService.toggle_task_completion task_id uid
          (st (TaskService.toggle_task_completion task_id uid s))) = s.
Proof.
  intros Hs <-. exists (toggled t).
  destruct (toggle_task_completion_run task_id t s Hs) as [Ho Hst].
  rewrite Ho, Hst.
  split; [reflexivity|]. split; [reflexivity|]. split; [reflexivity|].
  split; [repeat split|].
  assert (Hs' : (<[task_id := toggled t]> s : session) !! task_id = Some (toggled t))
    by apply lookup_insert_eq.
  destruct (toggle_task_completion_run task_id (toggled t) _ Hs') as [Ho' Hst'].
  change (user_id (toggled t)) with (user_id t) in Ho', Hst'.
  rewrite Ho', Hst', toggled_twice. split; [reflexivity|].
  rewrite insert_insert_eq. apply insert_id. exact Hs.
Qed.

Lemma toggle_task_completion_involution_witness :
  exists t1,
    out (TaskService.toggle_task_completion 2 (VStr (str "alice")) alice_session)
      = Return (Some t1) /\
    st (TaskService.toggle_task_completion 2 (VStr (str "alice")) alice_session)
      = <[2 := t1]> alice_session /\
    completed t1 = negb (completed alice_task) /\
    (id t1 = id alice_task /\ title t1 = title alice_task /\
     description t1 = description alice_task /\
     user_id t1 = user_id alice_task /\ created_at t1 = created_at alice_task) /\
    out (TaskService.toggle_task_completion 2 (VStr (str "alice"))
           (st (TaskService.toggle_task_completion 2 (VStr (str "alice")) alice_session)))
      = Return (Some alice_task) /\
    st (TaskService.toggle_task_completion 2 (VStr (str "alice"))
          (st (TaskService.toggle_task_completion 2 (VStr (str "alice")) alice_session)))
      = alice_session.
Proof.
  apply (toggle_task_completion_involution 2 (VStr (str "alice")) alice_task alice_session).
  - vm_compute. reflexivity.
  - reflexivity.
Defined.

(** ** The rate limiter *)

Lemma rate_limit_keys_differ (user_id endpoint : pystr) :
  RateLimiter.rate_limit_key user_id endpoint "minute"
    <> RateLimiter.rate_limit_key user_id endpoint "hour" /\
  RateLimiter.rate_limit_key user_id endpoint "minute"
    <> RateLimiter.rate_limit_key user_id endpoint "day" /\
  RateLimiter.rate_limit_key user_id endpoint "hour"
    <> RateLimiter.rate_limit_key user_id endpoint "day".
Proof.
  unfold RateLimiter.rate_limit_key.
  repeat split; intros H;
    repeat (apply app_inv_head in H); discriminate H.
Qed.

Lemma increment_counter_run (key : pystr) (t w : Z) (r : redis) :
  out (RateLimiter._increment_counter key t w r)
    = Return (Z.of_nat (size (recorded r key t w))) /\
  tr (RateLimiter._increment_counter key t w r) = [] /\
  zset_of (st (RateLimiter._increment_counter key t w r)) key = recorded r key t w /\
  (forall k, k <> key ->
             zset_of (st (RateLimiter._increment_counter key t w r)) k = zset_of r k).
Proof.
  unfold RateLimiter._increment_counter, zremrangebyscore, zadd, expire, zcard,
    recorded, zset_of.
  run.
  destruct (zsets r !! key) as [z|] eqn:Hz.
  - destruct (decide (filter (fun x => ~ (0 <= x /\ x <= t - seconds w)) z = ∅))
      as [He|He].
    + repeat (cbn [st tr out zsets ttls app];
              rewrite ?lookup_delete_eq, ?lookup_insert_eq).
      rewrite He. repeat split.
      intros k Hk. rewrite lookup_insert_ne by congruence.
      rewrite lookup_delete_ne by congruence. reflexivity.
    + repeat (cbn [st tr out zsets ttls app];
              rewrite ?lookup_insert_eq).
      repeat split.
      intros k Hk. rewrite lookup_insert_ne by congruence.
      rewrite lookup_insert_ne by congruence. reflexivity.
  - repeat (cbn [st tr out zsets ttls app];
            rewrite ?Hz, ?lookup_insert_eq).
    rewrite filter_empty_L; [|apply _]. repeat split.
    intros k Hk. rewrite lookup_insert_ne by congruence. reflexivity.
Qed.

Lemma increment_counter_eq (key : pystr) (t w : Z) (r : redis) :
  RateLimiter._increment_counter key t w r
  = Res (st (RateLimiter._increment_counter key t w r)) []
      (Return (Z.of_nat (size (recorded r key t w)))).
Proof.
  destruct (increment_counter_run key t w r) as (Ho & Ht & _).
  destruct (RateLimiter._increment_counter key t w r) as [s1 t1 o].
  cbn [st tr out] in *. subst. reflexivity.
Qed.

Lemma default_limits_lookup :
  RateLimiter.default_limits !! "requests_per_minute" = Some 100 /\
  RateLimiter.default_limits !! "requests_per_hour" = Some 1000 /\
  RateLimiter.default_limits !! "requests_per_day" = Some 10000.
Proof. repeat split; vm_compute; reflexivity. Qed.

(** One call with the default limits, for a principal that is neither
    empty nor the sentinel: the three windows in order, each one recorded
    before it is compared, and the coarser ones left alone once one is over
    its threshold. *)
Lemma is_rate_limited_run (user_id endpoint : pystr) (t : Z) (r : redis) :
  counted user_id ->
  let km := RateLimiter.rate_limit_key user_id endpoint "minute" in
  let kh := RateLimiter.rate_limit_key user_id endpoint "hour" in
  let kd := RateLimiter.rate_limit_key user_id endpoint "day" in
  let r1 := st (RateLimiter._increment_counter km t 60 r) in
  let r2 := st (RateLimiter._increment_counter kh t 3600 r1) in
  let r3 := st (RateLimiter._increment_counter kd t 86400 r2) in
  let a := RateLimiter.is_rate_limited user_id endpoint None t r in
  if (100 <? Z.of_nat (size (recorded r km t 60)))%Z then
    out a = Return true /\ st a = r1
  else if (1000 <? Z.of_nat (size (recorded r1 kh t 3600)))%Z then
    out a = Return true /\ st a = r2
  else
    out a = Return (10000 <? Z.of_nat (size (recorded r2 kd t 86400)))%Z /\ st a = r3.
Proof.
  intros Huser. cbn zeta.
  destruct default_limits_lookup as (Hm & Hh & Hd).
  set (km := RateLimiter.rate_limit_key user_id endpoint "minute").
  set (kh := RateLimiter.rate_limit_key user_id endpoint "hour").
  set (kd := RateLimiter.rate_limit_key user_id endpoint "day").
  pose proof (increment_counter_eq km t 60 r) as E1.
  set (r1 := st (RateLimiter._increment_counter km t 60 r)) in *. clearbody r1.
  pose proof (increment_counter_eq kh t 3600 r1) as E2.
  set (r2 := st (RateLimiter._increment_counter kh t 3600 r1)) in *. clearbody r2.
  pose proof (increment_counter_eq kd t 86400 r2) as E3.
  set (r3 := st (RateLimiter._increment_counter kd t 86400 r2)) in *. clearbody r3.
  unfold RateLimiter.is_rate_limited. rewrite Huser.
  unfold RateLimiter.limit_item, RateLimiter.log_rate_limit_event.
  rewrite Hm, Hh, Hd. cbn [default from_option Datatypes.id].
  fold km kh kd. unfold bind, ret, emit. rewrite E1.
  destruct (100 <? Z.of_nat (size (recorded r km t 60)))%Z.
  { cbn [st tr out]. split; reflexivity. }
  rewrite E2.
  destruct (1000 <? Z.of_nat (size (recorded r1 kh t 3600)))%Z.
  { cbn [st tr out]. split; reflexivity. }
  rewrite E3.
  destruct (10000 <? Z.of_nat (size (recorded r2 kd t 86400)))%Z;
    cbn [st tr out]; split; reflexivity.
Qed.

(** C8, as stated, fails: of 101 requests inside one 60-second window that
    carry the same clock reading, the 101st is admitted. *)
Lemma same_instant_never_blocked :
  length same_instant = 101%nat /\
  within_a_minute same_instant /\
  fst (RateLimiter.serve (str "alice") (str "/api/v1/chat") same_instant fresh_redis)
    !! 100%nat = Some (Return false).
Proof.
  split; [reflexivity|]. split.
  - apply (bool_decide_unpack (within_a_minute same_instant)). vm_compute. exact I.
  - vm_compute. reflexivity.
Qed.

Lemma recorded_all_kept (r : redis) (key : pystr) (t w : Z) (seen : list Z) :
  zset_of r key = list_to_set seen ->
  (forall x, x ∈ seen -> t - x < seconds w) ->
  recorded r key t w = list_to_set (t :: seen).
Proof.
  intros Hz Hclose. unfold recorded. rewrite Hz. cbn [list_to_set].
  f_equal. apply set_eq. intros x. rewrite elem_of_filter, elem_of_list_to_set.
  split; [intros [_ Hx]; exact Hx|].
  intros Hx. split; [|exact Hx]. specialize (Hclose x Hx). lia.
Qed.

Lemma recorded_subseteq (r : redis) (key : pystr) (t w : Z) (seen : list Z) :
  zset_of r key ⊆ list_to_set seen ->
  recorded r key t w ⊆ list_to_set (t :: seen).
Proof.
  intros Hz. unfold recorded. cbn [list_to_set].
  intros x. rewrite !elem_of_union, elem_of_filter.
  intros [Hx|[_ Hx]]; [left; exact Hx|right; apply Hz; exact Hx].
Qed.

Lemma size_recorded_le (r : redis) (key : pystr) (t w : Z) (seen : list Z) :
  NoDup (t :: seen) ->
  zset_of r key ⊆ list_to_set seen ->
  (size (recorded r key t w) <= Datatypes.S (length seen))%nat.
Proof.
  intros Hnd Hz.
  change (Datatypes.S (length seen)) with (length (t :: seen)).
  rewrite <- (size_list_to_set (C := gset Z) (t :: seen) Hnd).
  apply subseteq_size. apply recorded_subseteq. exact Hz.
Qed.

Section Burst.
Variables user_id endpoint : pystr.
Hypothesis Hcounted : counted user_id.

Abbreviation km := (RateLimiter.rate_limit_key user_id endpoint "minute").
Abbreviation kh := (RateLimiter.rate_limit_key user_id endpoint "hour").
Abbreviation kd := (RateLimiter.rate_limit_key user_id endpoint "day").
Abbreviation counters_hold := (counters_hold user_id endpoint).

Lemma is_rate_limited_step (seen : list Z) (t : Z) (r : redis) :
  counters_hold seen r ->
  NoDup (t :: seen) ->
  (forall x, x ∈ seen -> t - x < seconds 60) ->
  out (RateLimiter.is_rate_limited user_id endpoint None t r)
    = Return (bool_decide (100 <= length seen)%nat) /\
  counters_hold (t :: seen) (st (RateLimiter.is_rate_limited user_id endpoint None t r)).
Proof.
  intros (Hm & Hh & Hd) Hnd Hclose.
  destruct (rate_limit_keys_differ user_id endpoint) as (Hmh & Hmd & Hhd).
  pose proof (is_rate_limited_run user_id endpoint t r Hcounted) as Hrun.
  cbn zeta in Hrun.
  destruct (increment_counter_run km t 60 r) as (_ & _ & Hm1 & Ho1).
  set (r1 := st (RateLimiter._increment_counter km t 60 r)) in *.
  destruct (increment_counter_run kh t 3600 r1) as (_ & _ & Hh2 & Ho2).
  set (r2 := st (RateLimiter._increment_counter kh t 3600 r1)) in *.
  destruct (increment_counter_run kd t 86400 r2) as (_ & _ & Hd3 & Ho3).
  set (r3 := st (RateLimiter._increment_counter kd t 86400 r2)) in *.
  assert (Hmin : recorded r km t 60 = list_to_set (t :: seen))
    by (apply recorded_all_kept; assumption).
  assert (Hsize : size (recorded r km t 60) = Datatypes.S (length seen)).
  { rewrite Hmin. change (Datatypes.S (length seen)) with (length (t :: seen)).
    apply (size_list_to_set (C := gset Z)). exact Hnd. }
  assert (Hsub : forall (X : gset Z), X ⊆ list_to_set seen -> X ⊆ list_to_set (t :: seen)).
  { intros X HX x Hx. cbn [list_to_set]. apply elem_of_union. right. apply HX, Hx. }
  rewrite Hsize in Hrun.
  destruct (100 <? Z.of_nat (Datatypes.S (length seen)))%Z eqn:Hc1.
  - destruct Hrun as [-> ->]. apply Z.ltb_lt in Hc1.
    rewrite bool_decide_eq_true_2 by lia. split; [reflexivity|].
    split; [rewrite Hm1; exact Hmin|].
    split; [rewrite (Ho1 kh) by congruence; apply Hsub, Hh
           |rewrite (Ho1 kd) by congruence; apply Hsub, Hd].
  - apply Z.ltb_ge in Hc1.
    assert (Hh1 : zset_of r1 kh ⊆ list_to_set seen)
      by (rewrite (Ho1 kh) by congruence; exact Hh).
    pose proof (size_recorded_le r1 kh t 3600 seen Hnd Hh1) as Hs2.
    replace (1000 <? Z.of_nat (size (recorded r1 kh t 3600)))%Z with false in Hrun
      by (symmetry; apply Z.ltb_ge; lia).
    assert (Hd2 : zset_of r2 kd ⊆ list_to_set seen).
    { rewrite (Ho2 kd) by congruence. rewrite (Ho1 kd) by congruence. exact Hd. }
    pose proof (size_recorded_le r2 kd t 86400 seen Hnd Hd2) as Hs3.
    replace (10000 <? Z.of_nat (size (recorded r2 kd t 86400)))%Z with false in Hrun
      by (symmetry; apply Z.ltb_ge; lia).
    destruct Hrun as [-> ->].
    rewrite bool_decide_eq_false_2 by lia. split; [reflexivity|].
    split; [|split].
    + rewrite (Ho3 km) by congruence. rewrite (Ho2 km) by congruence.
      rewrite Hm1. exact Hmin.
    + rewrite (Ho3 kh) by congruence. rewrite Hh2.
      apply recorded_subseteq. exact Hh1.
    + rewrite Hd3. apply recorded_subseteq. exact Hd2.
Qed.

Lemma serve_answers (times seen : list Z) (r : redis) :
  counters_hold seen r ->
  NoDup (times ++ seen)%list ->
  (forall a b, a ∈ (times ++ seen)%list -> b ∈ (times ++ seen)%list -> a - b < seconds 60) ->
  forall (i : nat) (b : outcome bool),
    fst (RateLimiter.serve user_id endpoint times r) !! i = Some b ->
    b = Return (bool_decide (100 <= length seen + i)%nat).
Proof.
  revert seen r. induction times as [|t rest IH]; intros seen r Hinv Hnd Hclose i b Hi.
  - destruct i; discriminate Hi.
  - cbn [RateLimiter.serve] in Hi.
    cbn [app] in Hnd. apply NoDup_cons in Hnd as [Hnotin Hnd].
    assert (Hnd' : NoDup (t :: seen)).
    { apply NoDup_cons. split.
      - intros Hin. apply Hnotin. apply elem_of_app. right. exact Hin.
      - apply NoDup_app in Hnd as (_ & _ & Hs). exact Hs. }
    destruct (is_rate_limited_step seen t r Hinv Hnd') as [Hout Hinv'].
    { intros x Hx. apply Hclose.
      - apply elem_of_cons. left. reflexivity.
      - apply elem_of_cons. right. apply elem_of_app. right. exact Hx. }
    destruct (RateLimiter.serve user_id endpoint rest
                (st (RateLimiter.is_rate_limited user_id endpoint None t r)))
      as [answers r'] eqn:Hserve.
    cbn [fst] in Hi. destruct i as [|j].
    + cbn in Hi. injection Hi as <-. rewrite Hout. rewrite Nat.add_0_r. reflexivity.
    + cbn in Hi.
      replace (length seen + Datatypes.S j)%nat with (length (t :: seen) + j)%nat
        by (cbn [length]; lia).
      apply (IH (t :: seen) (st (RateLimiter.is_rate_limited user_id endpoint None t r))).
      * exact Hinv'.
      * rewrite <- Permutation_middle. apply NoDup_cons. split; assumption.
      * intros a c Ha Hc. apply Hclose.
        -- rewrite <- Permutation_middle in Ha. exact Ha.
        -- rewrite <- Permutation_middle in Hc. exact Hc.
      * rewrite Hserve. exact Hi.
Qed.

End Burst.

Lemma recorded_ext (r r' : redis) (key : pystr) (t w : Z) :
  zset_of r' key = zset_of r key -> recorded r' key t w = recorded r key t w.
Proof. intros H. unfold recorded. rewrite H. reflexivity. Qed.

(** C8, as the code has it.  (1) For the empty principal id and for the
    sentinel ["unknown"], [is_rate_limited] answers [False] and leaves the
    store as it was.  (2) For any other principal, with the default limits,
    the minute, hour and day counters are taken in that order; each one
    drops the members scoring in [0, now - window], records the reading and
    is then compared: the answer is [True] at the first counter that now
    holds more than 100, 1000 or 10000 members, the coarser counters being
    left untouched, and [False] when none does.  (3) Starting from empty
    counters, of any run of requests with pairwise distinct clock readings
    inside one 60-second window the first hundred are admitted and the
    101st and later ones are blocked. *)
Theorem is_rate_limited_windows :
  (forall user_id endpoint limits t r,
      ~ counted user_id ->
      RateLimiter.is_rate_limited user_id endpoint limits t r = Res r [] (Return false)) /\
  (forall user_id endpoint t r,
      counted user_id ->
      let km := RateLimiter.rate_limit_key user_id endpoint "minute" in
      let kh := RateLimiter.rate_limit_key user_id endpoint "hour" in
      let kd := RateLimiter.rate_limit_key user_id endpoint "day" in
      let a := RateLimiter.is_rate_limited user_id endpoint None t r in
      if (100 <? Z.of_nat (size (recorded r km t 60)))%Z then
        out a = Return true /\
        zset_of (st a) km = recorded r km t 60 /\
        zset_of (st a) kh = zset_of r kh /\
        zset_of (st a) kd = zset_of r kd
      else if (1000 <? Z.of_nat (size (recorded r kh t 3600)))%Z then
        out a = Return true /\
        zset_of (st a) km = recorded r km t 60 /\
        zset_of (st a) kh = recorded r kh t 3600 /\
        zset_of (st a) kd = zset_of r kd
      else
        out a = Return (10000 <? Z.of_nat (size (recorded r kd t 86400)))%Z /\
        zset_of (st a) km = recorded r km t 60 /\
        zset_of (st a) kh = recorded r kh t 3600 /\
        zset_of (st a) kd = recorded r kd t 86400) /\
  (forall user_id endpoint times r,
      counted user_id ->
      zset_of r (RateLimiter.rate_limit_key user_id endpoint "minute") = ∅ ->
      zset_of r (RateLimiter.rate_limit_key user_id endpoint "hour") = ∅ ->
      zset_of r (RateLimiter.rate_limit_key user_id endpoint "day") = ∅ ->
      NoDup times -> within_a_minute times ->
      forall (i : nat) (b : outcome bool),
        fst (RateLimiter.serve user_id endpoint times r) !! i = Some b ->
        b = Return (bool_decide (100 <= i)%nat)).
Proof.
  split; [|split].
  - intros user_id endpoint limits t r Hn. unfold RateLimiter.is_rate_limited.
    unfold counted in Hn. apply not_false_is_true in Hn. rewrite Hn. reflexivity.
  - intros user_id endpoint t r Hc. cbn zeta.
    destruct (rate_limit_keys_differ user_id endpoint) as (Hmh & Hmd & Hhd).
    pose proof (is_rate_limited_run user_id endpoint t r Hc) as Hrun. cbn zeta in Hrun.
    set (km := RateLimiter.rate_limit_key user_id endpoint "minute") in *.
    set (kh := RateLimiter.rate_limit_key user_id endpoint "hour") in *.
    set (kd := RateLimiter.rate_limit_key user_id endpoint "day") in *.
    destruct (increment_counter_run km t 60 r) as (_ & _ & Hm1 & Ho1).
    set (r1 := st (RateLimiter._increment_counter km t 60 r)) in *.
    destruct (increment_counter_run kh t 3600 r1) as (_ & _ & Hh2 & Ho2).
    set (r2 := st (RateLimiter._increment_counter kh t 3600 r1)) in *.
    destruct (increment_counter_run kd t 86400 r2) as (_ & _ & Hd3 & Ho3).
    set (r3 := st (RateLimiter._increment_counter kd t 86400 r2)) in *.
    assert (E2 : recorded r1 kh t 3600 = recorded r kh t 3600).
    { apply recorded_ext. apply Ho1. congruence. }
    assert (E3 : recorded r2 kd t 86400 = recorded r kd t 86400).
    { apply recorded_ext. rewrite (Ho2 kd) by congruence. apply Ho1. congruence. }
    rewrite E2, E3 in Hrun. rewrite E2 in Hh2. rewrite E3 in Hd3.
    destruct (100 <? Z.of_nat (size (recorded r km t 60)))%Z.
    { destruct Hrun as [-> ->]. repeat split; [exact Hm1| |]; apply Ho1; congruence. }
    destruct (1000 <? Z.of_nat (size (recorded r kh t 3600)))%Z.
    { destruct Hrun as [-> ->]. repeat split.
      - rewrite (Ho2 km) by congruence. exact Hm1.
      - exact Hh2.
      - rewrite (Ho2 kd) by congruence. apply Ho1. congruence. }
    destruct Hrun as [-> ->]. repeat split.
    + rewrite (Ho3 km) by congruence. rewrite (Ho2 km) by congruence. exact Hm1.
    + rewrite (Ho3 kh) by congruence. exact Hh2.
    + exact Hd3.
  - intros user_id endpoint times r Hc Hm Hh Hd Hnd Hwin i b Hi.
    apply (serve_answers user_id endpoint Hc times [] r); try exact Hi.
    + unfold counters_hold. rewrite Hm, Hh, Hd. cbn [list_to_set]. repeat split; reflexivity.
    + rewrite app_nil_r. exact Hnd.
    + rewrite app_nil_r. intros x y Hx Hy. unfold within_a_minute in Hwin.
      rewrite Forall_forall in Hwin. specialize (Hwin x Hx).
      rewrite Forall_forall in Hwin. apply Hwin. exact Hy.
Qed.

Lemma is_rate_limited_windows_witness :
  RateLimiter.is_rate_limited (str "unknown") (str "/api/v1/chat") None 1700000000000000
    fresh_redis = Res fresh_redis [] (Return false) /\
  out (RateLimiter.is_rate_limited (str "alice") (str "/api/v1/chat") None 1700000000000000
         fresh_redis) = Return false /\
  (forall (i : nat) (b : outcome bool),
      fst (RateLimiter.serve (str "alice") (str "/api/v1/chat") burst fresh_redis) !! i
        = Some b ->
      b = Return (bool_decide (100 <= i)%nat)).
Proof.
  split; [|split].
  - apply (proj1 is_rate_limited_windows). vm_compute. discriminate.
  - assert (Hc : counted (str "alice")) by (vm_compute; reflexivity).
    pose proof (proj1 (proj2 is_rate_limited_windows) (str "alice") (str "/api/v1/chat")
                  1700000000000000 fresh_redis Hc) as H.
    cbn zeta in H.
    change (100 <? Z.of_nat (size (recorded fresh_redis
              (RateLimiter.rate_limit_key (str "alice") (str "/api/v1/chat") "minute")
              1700000000000000 60)))%Z with false in H.
    change (1000 <? Z.of_nat (size (recorded fresh_redis
              (RateLimiter.rate_limit_key (str "alice") (str "/api/v1/chat") "hour")
              1700000000000000 3600)))%Z with false in H.
    change (10000 <? Z.of_nat (size (recorded fresh_redis
              (RateLimiter.rate_limit_key (str "alice") (str "/api/v1/chat") "day")
              1700000000000000 86400)))%Z with false in H.
    exact (proj1 H).
  - apply (proj2 (proj2 is_rate_limited_windows)).
    + vm_compute. reflexivity.
    + vm_compute. reflexivity.
    + vm_compute. reflexivity.
    + vm_compute. reflexivity.
    + apply (bool_decide_unpack (NoDup burst)). vm_compute. exact I.
    + apply (bool_decide_unpack (within_a_minute burst)). vm_compute. exact I.
Defined.

(** * Further properties *)

Section TokenEndpointFacts.
Context {S : Type}.
Variable jwt_encode : claims -> pystr.
Variable jwt_decode : pystr -> Z -> outcome claims.
Variable jwt_decode_no_exp : pystr -> Z -> outcome claims.
Variable JWT_EXPIRATION_DELTA : Z.

Lemma validate_jwt_token_decoded (token : pystr) (now : Z) (p : claims) (s : S) :
  jwt_decode token now = Return p ->
  out (validate_jwt_token jwt_decode token now s) =
    match dict_get p "exp" with
    | VInt e => if negb (e =? 0)%Z && (e <=? now)%Z then Return None else Return (Some p)
    | VNone => Return (Some p)
    | VStr x => if (len x =? 0)%Z then Return (Some p) else Raise TypeError
    end /\
  st (validate_jwt_token jwt_decode token now s) = s.
Proof.
  intros Hdec. unfold validate_jwt_token. run. rewrite Hdec. cbn [st tr out].
  destruct (dict_get p "exp") as [|e|x]; cbn [truthy].
  - split; reflexivity.
  - destruct (e =? 0)%Z; cbn [negb andb]; [split; reflexivity|].
    destruct (e <=? now)%Z; split; reflexivity.
  - destruct (len x =? 0)%Z; split; reflexivity.
Qed.

(** X1.  Every answer [verify_token] returns is the answer
    [validate_jwt_token] returns for the same token and clock; and where the
    library rejects a token with [JWTError], [validate_jwt_token] returns
    [None] and raises nothing. *)
Theorem validate_jwt_token_extends_verify_token (token : pystr) (now : Z) (s : S) :
  (forall r, out (verify_token jwt_decode token now s) = Return r ->
             out (validate_jwt_token jwt_decode token now s) = Return r) /\
  (jwt_decode token now = Raise JWTError ->
   out (validate_jwt_token jwt_decode token now s) = Return None).
Proof.
  split.
  - intros r Hv.
    destruct (verify_token_returns_inv jwt_decode token now r s Hv) as (_ & p & Hdec & Hr).
    rewrite (proj1 (validate_jwt_token_decoded token now p s Hdec)).
    destruct (dict_get p "exp") as [|e|x].
    + congruence.
    + destruct (negb (e =? 0)%Z && (e <=? now)%Z); congruence.
    + destruct Hr as [Hx ->]. rewrite Hx. reflexivity.
  - intros Hdec. unfold validate_jwt_token. run. rewrite Hdec. reflexivity.
Qed.

Lemma validate_jwt_token_none (token : pystr) (now : Z) (s : S) :
  out (validate_jwt_token jwt_decode token now s) = Return None ->
  exists l, validate_jwt_token jwt_decode token now s = Res s l (Return None).
Proof.
  unfold validate_jwt_token. run.
  destruct (jwt_decode token now) as [p|e]; cbn [st tr out].
  - destruct (truthy (dict_get p "exp")); cbn [st tr out]; [|discriminate].
    destruct (dict_get p "exp") as [|z|x]; cbn [st tr out]; try discriminate.
    destruct (z <=? now)%Z; cbn [st tr out]; [|discriminate].
    intros _. eexists. reflexivity.
  - destruct e; cbn [st tr out]; try discriminate. intros _. eexists. reflexivity.
Qed.

(** X2.  [get_current_user_payload] returns claims only when the library
    decoded the bearer token to them, they name a [user_id], and their
    [exp] is absent, zero or later than the clock.  Without credentials,
    for a token the library rejects, and for a token past its [exp], the
    answer is 401 with [WWW-Authenticate: Bearer]; for the rejected token
    this holds whatever the second, unverified decode does. *)
Theorem get_current_user_payload_outcomes (credentials : option pystr) (now : Z) (s : S) :
  (forall p,
      out (get_current_user_payload jwt_decode jwt_decode_no_exp credentials now s)
        = Return p ->
      exists token,
        credentials = Some token /\ jwt_decode token now = Return p /\
        dict_get p "user_id" <> VNone /\
        match dict_get p "exp" with
        | VInt e => e = 0 \/ now < e
        | VNone => True
        | VStr x => len x = 0
        end) /\
  (credentials = None ->
   out (get_current_user_payload jwt_decode jwt_decode_no_exp credentials now s)
     = Raise (HTTPException 401 "No authorization token provided"
                [("WWW-Authenticate", "Bearer")])) /\
  (forall token,
      credentials = Some token ->
      jwt_decode token now = Raise JWTError \/
      (exists p e, jwt_decode token now = Return p /\ p !! "exp" = Some (VInt e) /\
                   e <> 0 /\ e <= now) ->
      out (get_current_user_payload jwt_decode jwt_decode_no_exp credentials now s)
        = Raise (HTTPException 401 "Invalid or expired token"
                   [("WWW-Authenticate", "Bearer")])).
Proof.
  split; [|split].
  - intros p Hout. destruct credentials as [token|]; [|discriminate Hout].
    exists token. split; [reflexivity|].
    unfold get_current_user_payload in Hout. unfold bind at 1 in Hout.
    destruct (validate_jwt_token jwt_decode token now s) as [s1 t1 [[q|]|e]] eqn:Hv;
      cbn [st tr out] in Hout.
    + assert (Hq : out (validate_jwt_token jwt_decode token now s) = Return (Some q))
        by (rewrite Hv; reflexivity).
      destruct (jwt_decode token now) as [p'|e'] eqn:Hdec.
      * rewrite (proj1 (validate_jwt_token_decoded token now p' s Hdec)) in Hq.
        assert (Hpq : p = q /\ dict_get q "user_id" <> VNone).
        { destruct (dict_get q "user_id") eqn:Hu; run; cbn in Hout;
            try discriminate Hout; injection Hout as <-; split; congruence. }
        destruct Hpq as [-> Hu].
        destruct (dict_get p' "exp") as [|z|x] eqn:Hexp.
        -- injection Hq as ->. rewrite Hexp. repeat split; assumption.
        -- destruct (z =? 0)%Z eqn:Hz; cbn [negb andb] in Hq.
           ++ injection Hq as ->. rewrite Hexp. apply Z.eqb_eq in Hz.
              repeat split; try assumption. left. exact Hz.
           ++ destruct (z <=? now)%Z eqn:Hle; [discriminate Hq|].
              injection Hq as ->. rewrite Hexp. apply Z.leb_gt in Hle.
              repeat split; try assumption. right. exact Hle.
        -- destruct (len x =? 0)%Z eqn:Hx; [|discriminate Hq].
           injection Hq as ->. rewrite Hexp. apply Z.eqb_eq in Hx.
           repeat split; assumption.
      * exfalso. unfold validate_jwt_token in Hq. run. rewrite Hdec in Hq.
        destruct e'; cbn in Hq; discriminate Hq.
    + exfalso. run.
      destruct (jwt_decode_no_exp token now); cbn in Hout; discriminate Hout.
    + discriminate Hout.
  - intros ->. reflexivity.
  - intros token -> Hbad.
    assert (Hnone : out (validate_jwt_token jwt_decode token now s) = Return None).
    { destruct Hbad as [Hdec | (p & e & Hdec & Hexp & He & Hle)].
      - unfold validate_jwt_token. run. rewrite Hdec. reflexivity.
      - rewrite (proj1 (validate_jwt_token_decoded token now p s Hdec)).
        unfold dict_get. rewrite Hexp. apply Z.eqb_neq in He. apply Z.leb_le in Hle.
        rewrite He, Hle. reflexivity. }
    destruct (validate_jwt_token_none token now s Hnone) as [l Hv].
    unfold get_current_user_payload. unfold bind at 1. rewrite Hv. run.
    destruct (jwt_decode_no_exp token now); reflexivity.
Qed.

Lemma res_of_out_st {A} (r : res S A) (o : outcome A) (s : S) :
  out r = o -> st r = s -> exists l, r = Res s l o.
Proof. destruct r as [s1 t1 o1]. cbn. intros -> ->. eexists. reflexivity. Qed.

Lemma create_access_token_accepted (data : claims) (ttl : option Z) (now : Z) (s : S) :
  user_id_accepted data -> role_accepted data ->
  exists l, create_access_token jwt_encode JWT_EXPIRATION_DELTA data ttl now s
            = Res s l (Return (jwt_encode (issued_claims JWT_EXPIRATION_DELTA data ttl now))).
Proof.
  unfold user_id_accepted, role_accepted, create_access_token. run.
  intros Hu Hr.
  assert (Hrole : match data !! "role" with
                  | Some role =>
                      negb (bool_decide (role = VStr (str "user"))
                            || bool_decide (role = VStr (str "admin"))) = false
                  | None => True
                  end).
  { destruct (data !! "role") as [role|]; [|exact I].
    destruct Hr as [-> | ->]; reflexivity. }
  destruct (data !! "user_id") as [[|z|u]|]; try contradiction.
  - replace (len u =? 0)%Z with false by (symmetry; apply Z.eqb_neq; lia).
    replace (255 <? len u)%Z with false by (symmetry; apply Z.ltb_ge; lia).
    cbn [orb st tr out].
    destruct (data !! "role") as [role|]; [rewrite Hrole|]; eexists; reflexivity.
  - destruct (data !! "role") as [role|]; [rewrite Hrole|]; eexists; reflexivity.
Qed.


(** X4.  [is_token_expired] and [validate_token_not_expired] answer
    opposite things at every clock reading.  Without an [exp], or with
    [None] for it, the first says [True] and the second [False]: the token
    counts as expired for both.  With an integer [exp] the first says
    whether the reading has reached it and the second whether it has not. *)
Theorem is_token_expired_complements (p : claims) (now : Z) (s : S) :
  (dict_get p "exp" = VNone ->
   out (is_token_expired p now s) = Return true /\
   out (validate_token_not_expired p now s) = Return false) /\
  (forall e, p !! "exp" = Some (VInt e) ->
             out (is_token_expired p now s) = Return (e <=? now)%Z /\
             out (validate_token_not_expired p now s) = Return (negb (e <=? now)%Z)).
Proof.
  unfold is_token_expired, validate_token_not_expired. split.
  - intros ->. split; reflexivity.
  - intros e He. unfold dict_get. rewrite He. run. split; [reflexivity|].
    destruct (e <=? now)%Z eqn:Hle; destruct (now <? e)%Z eqn:Hlt; cbn; try reflexivity;
      lia.
Qed.

End TokenEndpointFacts.

Lemma validate_jwt_token_extends_verify_token_witness :
  out (validate_jwt_token (sample_decode alice_exp_claims) sample_token 1700000000 tt)
    = Return (Some alice_exp_claims) /\
  out (validate_jwt_token (sample_decode alice_exp_claims) (str "a.b.c") 1700000000 tt)
    = Return None.
Proof.
  split.
  - apply (proj1 (@validate_jwt_token_extends_verify_token unit
                    (sample_decode alice_exp_claims) sample_token 1700000000 tt)).
    vm_compute. reflexivity.
  - apply (proj2 (@validate_jwt_token_extends_verify_token unit
                    (sample_decode alice_exp_claims) (str "a.b.c") 1700000000 tt)).
    vm_compute. reflexivity.
Defined.

Lemma get_current_user_payload_outcomes_witness :
  (exists token,
      Some sample_token = Some token /\
      sample_decode alice_exp_claims token 1700000000 = Return alice_exp_claims /\
      dict_get alice_exp_claims "user_id" <> VNone /\
      match dict_get alice_exp_claims "exp" with
      | VInt e => e = 0 \/ 1700000000 < e
      | VNone => True
      | VStr x => len x = 0
      end) /\
  out (get_current_user_payload (sample_decode alice_exp_claims)
         (sample_decode alice_exp_claims) (Some sample_token) 1700003600 tt)
    = Raise (HTTPException 401 "Invalid or expired token" [("WWW-Authenticate", "Bearer")]).
Proof.
  split.
  - apply (proj1 (@get_current_user_payload_outcomes unit (sample_decode alice_exp_claims)
                    (sample_decode alice_exp_claims) (Some sample_token) 1700000000 tt)).
    vm_compute. reflexivity.
  - apply (proj2 (proj2 (@get_current_user_payload_outcomes unit
                    (sample_decode alice_exp_claims) (sample_decode alice_exp_claims)
                    (Some sample_token) 1700003600 tt)) sample_token).
    + reflexivity.
    + right. exists alice_exp_claims, 1700003600. repeat split.
      * vm_compute. discriminate.
      * lia.
Defined.


Lemma is_token_expired_complements_witness :
  (out (is_token_expired alice_claims 1700000000 tt) = Return true /\
   out (validate_token_not_expired alice_claims 1700000000 tt) = Return false) /\
  (out (is_token_expired alice_exp_claims 1700000000 tt) = Return false /\
   out (validate_token_not_expired alice_exp_claims 1700000000 tt) = Return true).
Proof.
  split.
  - apply (proj1 (@is_token_expired_complements unit alice_claims 1700000000 tt)).
    reflexivity.
  - apply (proj2 (@is_token_expired_complements unit alice_exp_claims 1700000000 tt)
             1700003600).
    reflexivity.
Defined.

(** ** Reading tasks *)

(** X5.  For a task of the table, [authorize_user_for_task] lets the
    caller through exactly when [verify_task_ownership] answers [True], and
    answers 403 otherwise; [validate_user_access] agrees with them for a
    requesting id that is true in a condition and denies every other one,
    the empty string included, even when it is the owner recorded on the
    task. *)
Theorem ownership_checks_agree (task_id : Z) (uid : pyval) (t : Task) (s : session) :
  s !! task_id = Some t ->
  (out (authorize_user_for_task t uid s) = Return t <->
   out (TaskReads.verify_task_ownership task_id uid s) = Return true) /\
  (out (authorize_user_for_task t uid s) = Return t \/
   out (authorize_user_for_task t uid s)
     = Raise (HTTPException 403 "Not authorized to access this task" [])) /\
  (validate_user_access (user_id t) uid = true <->
   truthy uid = true /\
   out (TaskReads.verify_task_ownership task_id uid s) = Return true).
Proof.
  intros Hs. unfold authorize_user_for_task, TaskReads.verify_task_ownership,
    validate_user_access. run. rewrite Hs. cbn [st tr out].
  destruct (decide (user_id t = uid)) as [Heq|Hne].
  - rewrite (bool_decide_eq_true_2 _ Heq). cbn [negb st tr out].
    split; [split; reflexivity|]. split; [left; reflexivity|].
    destruct (truthy uid); cbn [negb]; split; try discriminate; intuition.
  - rewrite (bool_decide_eq_false_2 _ Hne). cbn [negb st tr out].
    split; [split; discriminate|]. split; [right; reflexivity|].
    destruct (truthy uid); cbn [negb]; split; try discriminate;
      intros [_ H]; discriminate H.
Qed.

Lemma ownership_checks_agree_witness :
  (out (authorize_user_for_task bob_task (VStr (str "alice")) sample_session)
     = Return bob_task <->
   out (TaskReads.verify_task_ownership 1 (VStr (str "alice")) sample_session)
     = Return true) /\
  (out (authorize_user_for_task bob_task (VStr (str "alice")) sample_session)
     = Return bob_task \/
   out (authorize_user_for_task bob_task (VStr (str "alice")) sample_session)
     = Raise (HTTPException 403 "Not authorized to access this task" [])) /\
  (validate_user_access (user_id bob_task) (VStr (str "alice")) = true <->
   truthy (VStr (str "alice")) = true /\
   out (TaskReads.verify_task_ownership 1 (VStr (str "alice")) sample_session)
     = Return true).
Proof.
  apply (ownership_checks_agree 1 (VStr (str "alice")) bob_task sample_session).
  vm_compute. reflexivity.
Defined.

Lemma validate_all_run (tasks : list Task) (s : session) :
  st (TaskReads.validate_all tasks s) = s /\
  (forall l, out (TaskReads.validate_all tasks s) = Return l -> l = tasks).
Proof.
  induction tasks as [|t rest [IHs IHo]]; [split; [reflexivity|intros l [= <-]; reflexivity]|].
  cbn [TaskReads.validate_all]. unfold bind at 1. unfold TaskResponse_model_validate.
  destruct (_ && _ && _); run; [|split; [reflexivity|discriminate]].
  destruct (TaskReads.validate_all rest s) as [s1 t1 [l1|e]]; cbn [st tr out] in *.
  - split; [exact IHs|]. intros l [= <-]. f_equal. apply IHo. reflexivity.
  - split; [exact IHs|discriminate].
Qed.

(** X6.  [get_tasks_for_user] never writes to the table.  It answers 403
    when the user named in the path is not the caller; and when it returns
    a list, the path names the caller and the list holds exactly the tasks
    of the table whose owner is the caller, whether the driver hands back
    entities or rows. *)
Theorem get_tasks_for_user_isolation (as_rows : bool) (path_user_id : pystr)
    (uid : pyval) (s : session) :
  st (TaskReads.get_tasks_for_user as_rows path_user_id uid s) = s /\
  (VStr path_user_id <> uid ->
   out (TaskReads.get_tasks_for_user as_rows path_user_id uid s)
     = Raise (HTTPException 403 "You can only access your own tasks" [])) /\
  (forall ts,
      out (TaskReads.get_tasks_for_user as_rows path_user_id uid s) = Return ts ->
      uid = VStr path_user_id /\
      forall t, t ∈ ts <-> user_id t = uid /\ exists k, s !! k = Some t).
Proof.
  unfold TaskReads.get_tasks_for_user.
  destruct (decide (VStr path_user_id = uid)) as [Heq|Hne].
  - rewrite (bool_decide_eq_true_2 _ Heq). cbn [negb].
    split; [|split; [intros Hne; contradiction|]].
    + destruct (negb (truthy (VStr path_user_id)) || (len (strip path_user_id) =? 0)%Z);
        [reflexivity|].
      unfold TaskReads.get_tasks_by_user_id, TaskReads.get_by_user_id,
        TasksAPI.reraise_or_500. run.
      destruct (validate_all_run
                  (map TaskReads.unwrap
                     (map (if as_rows then Row else Entity)
                        (filter (fun t => user_id t = VStr path_user_id)
                           (map snd (map_to_list s))))) s) as [Hst _].
      destruct (TaskReads.validate_all _ s) as [s1 t1 [l|e]]; cbn [st tr out] in *;
        [exact Hst|]. destruct e; cbn [st tr out]; exact Hst.
    + intros ts Hout. split; [symmetry; exact Heq|].
      destruct (negb (truthy (VStr path_user_id)) || (len (strip path_user_id) =? 0)%Z);
        [discriminate Hout|].
      unfold TaskReads.get_tasks_by_user_id, TaskReads.get_by_user_id,
        TasksAPI.reraise_or_500 in Hout. run.
      destruct (validate_all_run
                  (map TaskReads.unwrap
                     (map (if as_rows then Row else Entity)
                        (filter (fun t => user_id t = VStr path_user_id)
                           (map snd (map_to_list s))))) s) as [_ Hl].
      destruct (TaskReads.validate_all _ s) as [s1 t1 [l|e]]; cbn [st tr out] in *.
      * injection Hout as <-. rewrite (Hl l eq_refl). clear Hl.
        assert (Hun : forall l0 : list Task,
                   map TaskReads.unwrap (map (if as_rows then Row else Entity) l0) = l0).
        { intros l0. rewrite map_map. destruct as_rows; apply map_id. }
        rewrite Hun. intros t. rewrite list_elem_of_filter. rewrite <- Heq.
        rewrite list_elem_of_fmap. split.
        -- intros [Hu [[k t'] [-> Hin]]]. split; [exact Hu|].
           exists k. apply elem_of_map_to_list. exact Hin.
        -- intros [Hu [k Hk]]. split; [exact Hu|].
           exists (k, t). split; [reflexivity|]. apply elem_of_map_to_list. exact Hk.
      * destruct e; cbn [st tr out] in Hout; discriminate Hout.
  - rewrite (bool_decide_eq_false_2 _ Hne). cbn [negb].
    split; [reflexivity|]. split; [intros _; reflexivity|].
    intros ts Hout. discriminate Hout.
Qed.

Lemma get_tasks_for_user_isolation_witness :
  bob_task ∈ [alice_task] <->
  user_id bob_task = VStr (str "alice") /\ exists k, alice_session !! k = Some bob_task.
Proof.
  apply (proj2 (proj2 (proj2 (get_tasks_for_user_isolation true (str "alice")
                                (VStr (str "alice")) alice_session)) [alice_task]
                  ltac:(vm_compute; reflexivity)) bob_task).
Defined.

(** X7.  [get_task_by_id_and_user_id] returns something exactly when the
    table has a task under that id with that owner, and what it returns
    holds that task, as an entity or as a row.  A task that is missing and
    a task that belongs to someone else give one and the same result, log
    lines included. *)
Theorem get_task_by_id_and_user_id_scoped (as_rows : bool) (task_id : Z) (uid : pyval)
    (s : session) :
  (forall f,
      out (TaskReads.get_task_by_id_and_user_id as_rows task_id uid s) = Return (Some f) <->
      exists t, s !! task_id = Some t /\ user_id t = uid /\
                f = (if as_rows then Row else Entity) t) /\
  (s !! task_id = None \/ (exists t, s !! task_id = Some t /\ user_id t <> uid) ->
   TaskReads.get_task_by_id_and_user_id as_rows task_id uid s
   = Res s [LogEntry "log_operation" "GET_TASK_BY_ID_AND_USER" uid "";
            LogEntry "log_operation" "TASK_NOT_FOUND_FOR_USER" uid ""] (Return None)).
Proof.
  unfold TaskReads.get_task_by_id_and_user_id, TaskReads.get_by_id_and_user_id. run.
  destruct (s !! task_id) as [t0|] eqn:Hs.
  - destruct (decide (user_id t0 = uid)) as [Heq|Hne].
    + rewrite (bool_decide_eq_true_2 _ Heq). cbn [st tr out]. split.
      * intros f. split.
        -- intros [= <-]. exists t0. repeat split; [exact Heq].
        -- intros (t & [= <-] & _ & ->). reflexivity.
      * intros [Hn | [t [[= <-] Hne]]]; [discriminate Hn|contradiction].
    + rewrite (bool_decide_eq_false_2 _ Hne). cbn [st tr out]. split.
      * intros f. split; [discriminate|]. intros (t & [= <-] & Heq & _). contradiction.
      * intros _. reflexivity.
  - cbn [st tr out]. split.
    + intros f. split; [discriminate|]. intros (t & Hn & _). discriminate Hn.
    + intros _. reflexivity.
Qed.

Lemma get_task_by_id_and_user_id_scoped_witness :
  TaskReads.get_task_by_id_and_user_id true 1 (VStr (str "alice")) sample_session
  = TaskReads.get_task_by_id_and_user_id true 7 (VStr (str "alice")) sample_session.
Proof.
  rewrite (proj2 (get_task_by_id_and_user_id_scoped true 1 (VStr (str "alice"))
                    sample_session)).
  - rewrite (proj2 (get_task_by_id_and_user_id_scoped true 7 (VStr (str "alice"))
                      sample_session)).
    + reflexivity.
    + left. vm_compute. reflexivity.
  - right. exists bob_task. split; [vm_compute; reflexivity|discriminate].
Defined.

(** ** What a mutation can change *)

Lemma validate_task_update_cases {S} (u : TaskUpdate) (s : S) :
  validate_task_update u s = Res s [] (Return tt) \/
  exists detail, validate_task_update u s = Res s [] (Raise (HTTPException 400 detail [])).
Proof.
  unfold validate_task_update. run.
  destruct (value_of (update_title u)) as [t|].
  - destruct (len t =? 0)%Z; cbn [st tr out]; [right; eexists; reflexivity|].
    destruct (255 <? len t)%Z; cbn [st tr out]; [right; eexists; reflexivity|].
    destruct (value_of (update_description u)) as [d|]; [|left; reflexivity].
    destruct (1000 <? len d)%Z; [right; eexists; reflexivity|left; reflexivity].
  - cbn [st tr out].
    destruct (value_of (update_description u)) as [d|]; [|left; reflexivity].
    destruct (1000 <? len d)%Z; [right; eexists; reflexivity|left; reflexivity].
Qed.

Lemma apply_update_keeps (u : TaskUpdate) (t t' : Task) :
  TaskService.apply_update u t = Some t' ->
  user_id t' = user_id t /\ id t' = id t /\ created_at t' = created_at t.
Proof.
  unfold TaskService.apply_update.
  destruct (update_title u) as [|[x|]]; cbn; try discriminate;
    destruct (update_completed u) as [|[c|]]; cbn; try discriminate;
    intros [= <-]; repeat split.
Qed.

Lemma run_mutation_states (op : TasksAPI.mutation) (task_id : Z) (uid : pyval)
    (s : session) :
  st (TasksAPI.run_mutation op task_id uid s) = s \/
  exists t, s !! task_id = Some t /\ user_id t = uid /\
    (st (TasksAPI.run_mutation op task_id uid s) = delete task_id s \/
     exists t', st (TasksAPI.run_mutation op task_id uid s) = <[task_id := t']> s /\
                user_id t' = user_id t /\ id t' = id t /\ created_at t' = created_at t).
Proof.
  destruct op as [u| |]; cbn [TasksAPI.run_mutation].
  - unfold TasksAPI.update_task, TaskService.get_task_by_id, TaskService.update_task,
      TaskService.check_owner, TasksAPI.not_found, TasksAPI.reraise_or_500,
      session_rollback, TaskResponse_model_validate.
    run.
    destruct (validate_task_update_cases u s) as [Hv|[d Hv]]; rewrite Hv; cbn [st tr out];
      [|left; reflexivity].
    destruct (s !! task_id) as [t|] eqn:Hs; cbn [st tr out]; [|left; reflexivity].
    destruct (decide (user_id t = uid)) as [Heq|Hne].
    + rewrite (bool_decide_eq_true_2 _ Heq). cbn [negb truthy andb st tr out].
      rewrite Hs. cbn [st tr out].
      destruct (TaskService.apply_update u t) as [t'|] eqn:Ha; cbn [st tr out];
        [|left; reflexivity].
      right. exists t. split; [reflexivity|]. split; [exact Heq|]. right. exists t'.
      split; [|exact (apply_update_keeps u t t' Ha)].
      destruct (_ && _ && _); reflexivity.
    + rewrite (bool_decide_eq_false_2 _ Hne). left. reflexivity.
  - unfold TasksAPI.toggle_task_completion, TaskService.get_task_by_id,
      TaskService.toggle_task_completion, TaskService.check_owner, TasksAPI.not_found,
      TasksAPI.reraise_or_500, session_rollback, TaskResponse_model_validate.
    run.
    destruct (s !! task_id) as [t|] eqn:Hs; cbn [st tr out]; [|left; reflexivity].
    destruct (decide (user_id t = uid)) as [Heq|Hne].
    + rewrite (bool_decide_eq_true_2 _ Heq). cbn [negb truthy andb st tr out].
      rewrite Hs. cbn [st tr out].
      right. exists t. split; [reflexivity|]. split; [exact Heq|]. right.
      exists (toggled t). split; [|repeat split].
      unfold toggled. cbn [user_id title description id].
      destruct (_ && _ && _); reflexivity.
    + rewrite (bool_decide_eq_false_2 _ Hne). left. reflexivity.
  - unfold TasksAPI.delete_task, TaskService.get_task_by_id, TaskService.delete_task,
      TaskService.check_owner, TasksAPI.not_found, TasksAPI.reraise_or_500,
      session_rollback.
    run.
    destruct (s !! task_id) as [t|] eqn:Hs; cbn [st tr out]; [|left; reflexivity].
    destruct (decide (user_id t = uid)) as [Heq|Hne].
    + rewrite (bool_decide_eq_true_2 _ Heq). cbn [negb truthy andb st tr out].
      rewrite Hs. cbn [st tr out].
      right. exists t. split; [reflexivity|]. split; [exact Heq|]. left. reflexivity.
    + rewrite (bool_decide_eq_false_2 _ Hne). left. reflexivity.
Qed.

(** X8.  Whatever a mutating endpoint is asked, with whatever body: rows
    under other ids stay as they are; the row under the given id, if it is
    still there afterwards, has the owner, the id and the creation instant
    of the row that was there before; and the table changes at all only
    when the caller owns that row. *)
Theorem mutation_frame_and_owner (op : TasksAPI.mutation) (task_id : Z) (uid : pyval)
    (s : session) :
  (forall k, k <> task_id -> st (TasksAPI.run_mutation op task_id uid s) !! k = s !! k) /\
  (forall t', st (TasksAPI.run_mutation op task_id uid s) !! task_id = Some t' ->
              exists t, s !! task_id = Some t /\ user_id t' = user_id t /\
                        id t' = id t /\ created_at t' = created_at t) /\
  (st (TasksAPI.run_mutation op task_id uid s) <> s ->
   exists t, s !! task_id = Some t /\ user_id t = uid).
Proof.
  destruct (run_mutation_states op task_id uid s)
    as [Hst | (t & Hs & Hu & [Hst | (t' & Hst & Hk)])]; rewrite Hst.
  - split; [reflexivity|]. split; [|intros H; contradiction].
    intros t' Ht'. exists t'. repeat split. exact Ht'.
  - split; [intros k Hk; apply lookup_delete_ne; congruence|].
    split; [|intros _; exists t; split; assumption].
    intros t' Ht'. rewrite lookup_delete_eq in Ht'. discriminate Ht'.
  - split; [intros k Hne; apply lookup_insert_ne; congruence|].
    split; [|intros _; exists t; split; assumption].
    intros t'' Ht''. rewrite lookup_insert_eq in Ht''. injection Ht'' as <-.
    exists t. split; [exact Hs|exact Hk].
Qed.

Lemma mutation_frame_and_owner_witness :
  st (TasksAPI.run_mutation TasksAPI.Toggle 2 (VStr (str "alice")) alice_session) !! 1
    = alice_session !! 1 /\
  exists t, alice_session !! 2 = Some t /\ user_id t = VStr (str "alice").
Proof.
  split.
  - apply (proj1 (mutation_frame_and_owner TasksAPI.Toggle 2 (VStr (str "alice"))
                    alice_session)).
    discriminate.
  - apply (proj2 (proj2 (mutation_frame_and_owner TasksAPI.Toggle 2 (VStr (str "alice"))
                           alice_session))).
    intros H.
    assert (H2 : st (TasksAPI.run_mutation TasksAPI.Toggle 2 (VStr (str "alice"))
                       alice_session) !! 2 = alice_session !! 2) by (rewrite H; reflexivity).
    vm_compute in H2. discriminate H2.
Defined.

(** ** Creating, reading and deleting *)

Lemma create_task_returns_inv (tc : TaskCreate) (uid : pyval) (now : Z) (s : session)
    (t : Task) :
  out (TasksAPI.create_task tc uid now s) = Return t ->
  t = created_row tc uid now s /\
  st (TasksAPI.create_task tc uid now s) = <[fresh (dom s) := t]> s.
Proof.
  intros Hout.
  destruct (validate_task_create_cases tc s) as [(Hv & Htitle & Hdesc) | [detail Hv]].
  - pose proof (create_task_valid tc uid now s Hv Htitle Hdesc) as Hrun.
    destruct uid as [|z|u].
    + destruct Hrun as [_ [e He]]. congruence.
    + destruct Hrun as [_ [e He]]. congruence.
    + destruct Hrun as [Hst Hrun]. destruct (len u <=? 255)%Z.
      * rewrite Hrun in Hout. injection Hout as <-. split; [reflexivity|exact Hst].
      * destruct Hrun as [e He]. congruence.
  - destruct (create_task_invalid tc uid now s detail Hv) as [Ho _]. congruence.
Qed.

(** X9.  A task that [create_task] returns can be read back under its id
    from the table it leaves; and when its creator deletes it right away the
    table is again what it was before the creation. *)
Theorem create_read_delete_round_trip (tc : TaskCreate) (uid : pyval) (now : Z)
    (s : session) (t : Task) :
  out (TasksAPI.create_task tc uid now s) = Return t ->
  out (TaskService.get_task_by_id (id t) (st (TasksAPI.create_task tc uid now s)))
    = Return (Some t) /\
  out (TasksAPI.delete_task (id t) uid (st (TasksAPI.create_task tc uid now s)))
    = Return tt /\
  st (TasksAPI.delete_task (id t) uid (st (TasksAPI.create_task tc uid now s))) = s.
Proof.
  intros Hout. destruct (create_task_returns_inv tc uid now s t Hout) as [Ht Hst].
  rewrite Hst. assert (Hid : id t = fresh (dom s)) by (rewrite Ht; reflexivity).
  assert (Hu : user_id t = uid) by (rewrite Ht; reflexivity).
  rewrite Hid.
  unfold TasksAPI.delete_task, TaskService.get_task_by_id, TaskService.delete_task,
    TaskService.check_owner, TasksAPI.not_found, TasksAPI.reraise_or_500, session_rollback.
  run. rewrite lookup_insert_eq. cbn [st tr out].
  rewrite (bool_decide_eq_true_2 _ Hu). cbn [negb truthy andb st tr out].
  rewrite lookup_insert_eq. cbn [st tr out].
  split; [reflexivity|]. split; [reflexivity|].
  apply delete_insert_id. apply fresh_not_in_session.
Qed.

Lemma create_read_delete_round_trip_witness :
  out (TaskService.get_task_by_id
         (id (created_row spoofed_create (VStr (str "alice")) 1700000000 sample_session))
         (st (TasksAPI.create_task spoofed_create (VStr (str "alice")) 1700000000
                sample_session)))
    = Return (Some (created_row spoofed_create (VStr (str "alice")) 1700000000
                      sample_session)) /\
  out (TasksAPI.delete_task
         (id (created_row spoofed_create (VStr (str "alice")) 1700000000 sample_session))
         (VStr (str "alice"))
         (st (TasksAPI.create_task spoofed_create (VStr (str "alice")) 1700000000
                sample_session)))
    = Return tt /\
  st (TasksAPI.delete_task
        (id (created_row spoofed_create (VStr (str "alice")) 1700000000 sample_session))
        (VStr (str "alice"))
        (st (TasksAPI.create_task spoofed_create (VStr (str "alice")) 1700000000
               sample_session)))
    = sample_session.
Proof.
  apply (create_read_delete_round_trip spoofed_create (VStr (str "alice")) 1700000000
           sample_session).
  vm_compute. reflexivity.
Defined.

(** ** The validators *)

Lemma lstrip_all_space (x : pystr) :
  Forall (fun c => isspace c = true) x -> lstrip x = [].
Proof.
  induction 1 as [|c r Hc _ IH]; [reflexivity|]. cbn [lstrip]. rewrite Hc. exact IH.
Qed.

(** X10.  A title made of white space only, of 1 to 255 characters, is
    refused by [validate_task_create] with 400 and accepted by
    [validate_task_update]: only creation strips the title before testing
    it for emptiness. *)
Theorem blank_title_create_vs_update {S} (title : pystr) (tc : TaskCreate)
    (u : TaskUpdate) (s : S) :
  title <> [] -> Forall (fun c => isspace c = true) title ->
  create_title tc = title ->
  update_title u = Sent (Some title) -> TaskUpdate_fields_ok u ->
  out (validate_task_create tc s)
    = Raise (HTTPException 400 "Task title is required" []) /\
  out (validate_task_update u s) = Return tt.
Proof.
  intros Hne Hsp Htc Hu Hok. split.
  - unfold validate_task_create. rewrite Htc. unfold strip.
    rewrite (lstrip_all_space title Hsp). cbn [rev lstrip len length Z.of_nat Z.eqb].
    rewrite orb_true_r. reflexivity.
  - rewrite (validate_task_update_ok u s Hok). reflexivity.
Qed.

Lemma blank_title_create_vs_update_witness :
  out (validate_task_create (mkTaskCreate (str "   ") None false VNone) tt)
    = Raise (HTTPException 400 "Task title is required" []) /\
  out (validate_task_update (mkTaskUpdate (Sent (Some (str "   "))) NotSent NotSent) tt)
    = Return tt.
Proof.
  apply (blank_title_create_vs_update (str "   ")).
  - discriminate.
  - repeat constructor.
  - reflexivity.
  - reflexivity.
  - split.
    + intros t Ht. injection Ht as <-. vm_compute. split; discriminate.
    + intros d Hd. discriminate Hd.
Defined.

(** ** Updating *)

(** X11.  When the owner updates a task with a body that passes
    validation: a [null] sent for [title] or for [completed] makes the
    answer a 500 and leaves the table as it was; otherwise the row is
    replaced by one in which each field that was sent has the value sent
    and each field left out keeps its value, and that row is returned when
    it passes the response model. *)
Theorem update_task_by_owner (task_id : Z) (u : TaskUpdate) (t : Task) (s : session) :
  TaskUpdate_fields_ok u ->
  s !! task_id = Some t ->
  (update_title u = Sent None \/ update_completed u = Sent None ->
   (exists detail,
       out (TasksAPI.update_task task_id u (user_id t) s)
         = Raise (HTTPException 500 detail [])) /\
   st (TasksAPI.update_task task_id u (user_id t) s) = s) /\
  (update_title u <> Sent None -> update_completed u <> Sent None ->
   exists t',
     st (TasksAPI.update_task task_id u (user_id t) s) = <[task_id := t']> s /\
     title t' = default (title t) (value_of (update_title u)) /\
     completed t' = default (completed t) (value_of (update_completed u)) /\
     description t' = match update_description u with
                      | NotSent => description t
                      | Sent v => v
                      end /\
     user_id t' = user_id t /\ id t' = id t /\
     created_at t' = created_at t /\ updated_at t' = updated_at t /\
     (out (TaskResponse_model_validate t' s) = Return t' ->
      out (TasksAPI.update_task task_id u (user_id t) s) = Return t')).
Proof.
  intros Hok Hs.
  assert (Hrun : TasksAPI.update_task task_id u (user_id t) s =
                 TasksAPI.update_task task_id u (user_id t) s) by reflexivity.
  unfold TasksAPI.update_task at 2, TaskService.get_task_by_id, TaskService.update_task,
    TaskService.check_owner, TasksAPI.not_found, TasksAPI.reraise_or_500,
    session_rollback in Hrun.
  run. rewrite (validate_task_update_ok u s Hok) in Hrun. cbn [st tr out] in Hrun.
  rewrite Hs in Hrun. cbn [st tr out] in Hrun.
  rewrite (bool_decide_eq_true_2 _ (eq_refl (user_id t))) in Hrun.
  cbn [negb truthy andb st tr out] in Hrun. rewrite Hs in Hrun. cbn [st tr out] in Hrun.
  split.
  - intros Hnull.
    assert (Ha : TaskService.apply_update u t = None).
    { unfold TaskService.apply_update. destruct Hnull as [-> | ->]; [reflexivity|].
      destruct (update_title u) as [|[x|]]; reflexivity. }
    rewrite Ha in Hrun. cbn [st tr out] in Hrun. rewrite Hrun.
    split; [eexists; reflexivity|reflexivity].
  - intros Hnt Hnc.
    set (t' := mkTask (id t) (default (title t) (value_of (update_title u)))
                 (match update_description u with
                  | NotSent => description t
                  | Sent v => v
                  end)
                 (default (completed t) (value_of (update_completed u)))
                 (user_id t) (created_at t) (updated_at t)).
    assert (Ha : TaskService.apply_update u t = Some t').
    { unfold TaskService.apply_update, t'.
      destruct (update_title u) as [|[x|]]; [| |contradiction];
        (destruct (update_completed u) as [|[c|]]; [| |contradiction]); reflexivity. }
    rewrite Ha in Hrun. unfold TaskResponse_model_validate in Hrun |- *.
    cbn [st tr out] in Hrun. exists t'.
    split; [rewrite Hrun; destruct (_ && _ && _); reflexivity|].
    repeat (split; [reflexivity|]).
    rewrite Hrun. destruct (_ && _ && _); cbn [st tr out]; [reflexivity|discriminate].
Qed.

Lemma update_task_by_owner_witness :
  exists t',
    st (TasksAPI.update_task 2 rename_update (user_id alice_task) alice_session)
      = <[2 := t']> alice_session /\
    title t' = default (title alice_task) (value_of (update_title rename_update)) /\
    completed t' = default (completed alice_task) (value_of (update_completed rename_update)) /\
    description t' = match update_description rename_update with
                     | NotSent => description alice_task
                     | Sent v => v
                     end /\
    user_id t' = user_id alice_task /\ id t' = id alice_task /\
    created_at t' = created_at alice_task /\ updated_at t' = updated_at alice_task /\
    (out (TaskResponse_model_validate t' alice_session) = Return t' ->
     out (TasksAPI.update_task 2 rename_update (user_id alice_task) alice_session)
       = Return t').
Proof.
  apply (fun a b => proj2 (update_task_by_owner 2 rename_update alice_task alice_session a b)).
  - split.
    + intros t Ht. injection Ht as <-. vm_compute. split; discriminate.
    + intros d Hd. discriminate Hd.
  - vm_compute. reflexivity.
  - discriminate.
  - discriminate.
Defined.

(** ** More on the rate limiter *)

Lemma size_recorded_succ (r : redis) (key : pystr) (t w : Z) :
  (size (recorded r key t w) <= Datatypes.S (size (zset_of r key)))%nat.
Proof.
  unfold recorded. rewrite size_union_alt, size_singleton.
  apply le_n_S. apply subseteq_size. set_solver.
Qed.

(** X12.  After a pause of a full minute the minute window starts over:
    when every reading in the minute counter scores between 0 and
    [now - 60 s], and the hour and day counters hold fewer than 1000 and
    10000 readings, the request is admitted and the minute counter holds
    the new reading alone. *)
Theorem minute_window_restarts (user_id endpoint : pystr) (t : Z) (r : redis) :
  counted user_id ->
  (forall x, x ∈ zset_of r (RateLimiter.rate_limit_key user_id endpoint "minute") ->
             0 <= x <= t - seconds 60) ->
  Z.of_nat (size (zset_of r (RateLimiter.rate_limit_key user_id endpoint "hour"))) < 1000 ->
  Z.of_nat (size (zset_of r (RateLimiter.rate_limit_key user_id endpoint "day"))) < 10000 ->
  out (RateLimiter.is_rate_limited user_id endpoint None t r) = Return false /\
  zset_of (st (RateLimiter.is_rate_limited user_id endpoint None t r))
    (RateLimiter.rate_limit_key user_id endpoint "minute") = {[t]}.
Proof.
  intros Hc Hold Hh Hd.
  destruct (rate_limit_keys_differ user_id endpoint) as (Hmh & Hmd & Hhd).
  pose proof (is_rate_limited_run user_id endpoint t r Hc) as Hrun. cbn zeta in Hrun.
  set (km := RateLimiter.rate_limit_key user_id endpoint "minute") in *.
  set (kh := RateLimiter.rate_limit_key user_id endpoint "hour") in *.
  set (kd := RateLimiter.rate_limit_key user_id endpoint "day") in *.
  destruct (increment_counter_run km t 60 r) as (_ & _ & Hm1 & Ho1).
  set (r1 := st (RateLimiter._increment_counter km t 60 r)) in *.
  destruct (increment_counter_run kh t 3600 r1) as (_ & _ & Hh2 & Ho2).
  set (r2 := st (RateLimiter._increment_counter kh t 3600 r1)) in *.
  destruct (increment_counter_run kd t 86400 r2) as (_ & _ & Hd3 & Ho3).
  set (r3 := st (RateLimiter._increment_counter kd t 86400 r2)) in *.
  assert (Hmin : recorded r km t 60 = {[t]}).
  { unfold recorded. apply set_eq. intros x.
    rewrite elem_of_union, elem_of_filter, elem_of_singleton.
    split; [intros [Hx|[Hn Hx]]; [exact Hx|]|intros Hx; left; exact Hx].
    exfalso. apply Hn. apply Hold. exact Hx. }
  rewrite Hmin, size_singleton in Hrun.
  change (100 <? Z.of_nat 1)%Z with false in Hrun.
  pose proof (size_recorded_succ r1 kh t 3600) as Hs2.
  rewrite (Ho1 kh) in Hs2 by congruence.
  replace (1000 <? Z.of_nat (size (recorded r1 kh t 3600)))%Z with false in Hrun
    by (symmetry; apply Z.ltb_ge; lia).
  pose proof (size_recorded_succ r2 kd t 86400) as Hs3.
  rewrite (Ho2 kd), (Ho1 kd) in Hs3 by congruence.
  replace (10000 <? Z.of_nat (size (recorded r2 kd t 86400)))%Z with false in Hrun
    by (symmetry; apply Z.ltb_ge; lia).
  destruct Hrun as [-> ->]. split; [reflexivity|].
  rewrite (Ho3 km) by congruence. rewrite (Ho2 km) by congruence.
  rewrite Hm1. exact Hmin.
Qed.

Lemma minute_window_restarts_witness :
  out (RateLimiter.is_rate_limited (str "alice") (str "/api/v1/chat") None
         (1700000000000000 + seconds 60) after_one) = Return false /\
  zset_of (st (RateLimiter.is_rate_limited (str "alice") (str "/api/v1/chat") None
                 (1700000000000000 + seconds 60) after_one))
    (RateLimiter.rate_limit_key (str "alice") (str "/api/v1/chat") "minute")
    = {[1700000000000000 + seconds 60]}.
Proof.
  apply minute_window_restarts.
  - vm_compute. reflexivity.
  - assert (Hz : zset_of after_one
                   (RateLimiter.rate_limit_key (str "alice") (str "/api/v1/chat") "minute")
                 = {[1700000000000000]}) by (vm_compute; reflexivity).
    rewrite Hz. intros x Hx. apply elem_of_singleton in Hx. subst x.
    unfold seconds. lia.
  - vm_compute. reflexivity.
  - vm_compute. reflexivity.
Defined.

Section BurstCounters.
Variables user_id endpoint : pystr.
Hypothesis Hcounted : counted user_id.

Abbreviation km := (RateLimiter.rate_limit_key user_id endpoint "minute").
Abbreviation kh := (RateLimiter.rate_limit_key user_id endpoint "hour").
Abbreviation kd := (RateLimiter.rate_limit_key user_id endpoint "day").

Lemma list_to_set_snoc (l : list Z) (t : Z) :
  (list_to_set (t :: l) : gset Z) = list_to_set (l ++ [t]).
Proof. rewrite list_to_set_app_L. cbn [list_to_set]. set_solver. Qed.

Lemma is_rate_limited_counters (arrived : list Z) (t : Z) (r : redis) :
  zset_of r km = list_to_set arrived ->
  zset_of r kh = list_to_set (take 100 arrived) ->
  zset_of r kd = list_to_set (take 100 arrived) ->
  NoDup (arrived ++ [t]) ->
  (forall x, x ∈ arrived -> t - x < seconds 60) ->
  zset_of (st (RateLimiter.is_rate_limited user_id endpoint None t r)) km
    = list_to_set (arrived ++ [t]) /\
  zset_of (st (RateLimiter.is_rate_limited user_id endpoint None t r)) kh
    = list_to_set (take 100 (arrived ++ [t])) /\
  zset_of (st (RateLimiter.is_rate_limited user_id endpoint None t r)) kd
    = list_to_set (take 100 (arrived ++ [t])).
Proof.
  intros Hm Hh Hd Hnd Hclose.
  assert (Hnd' : NoDup (t :: arrived)).
  { rewrite (Permutation_cons_append arrived t). exact Hnd. }
  destruct (rate_limit_keys_differ user_id endpoint) as (Hmh & Hmd & Hhd).
  pose proof (is_rate_limited_run user_id endpoint t r Hcounted) as Hrun.
  cbn zeta in Hrun.
  destruct (increment_counter_run km t 60 r) as (_ & _ & Hm1 & Ho1).
  set (r1 := st (RateLimiter._increment_counter km t 60 r)) in *.
  destruct (increment_counter_run kh t 3600 r1) as (_ & _ & Hh2 & Ho2).
  set (r2 := st (RateLimiter._increment_counter kh t 3600 r1)) in *.
  destruct (increment_counter_run kd t 86400 r2) as (_ & _ & Hd3 & Ho3).
  set (r3 := st (RateLimiter._increment_counter kd t 86400 r2)) in *.
  assert (Hmin : recorded r km t 60 = list_to_set (arrived ++ [t])).
  { rewrite <- list_to_set_snoc. apply recorded_all_kept; assumption. }
  assert (Hsize : size (recorded r km t 60) = Datatypes.S (length arrived)).
  { rewrite Hmin, <- list_to_set_snoc.
    change (Datatypes.S (length arrived)) with (length (t :: arrived)).
    apply (size_list_to_set (C := gset Z)). exact Hnd'. }
  rewrite Hsize in Hrun.
  destruct (100 <? Z.of_nat (Datatypes.S (length arrived)))%Z eqn:Hc1.
  - destruct Hrun as [_ ->]. apply Z.ltb_lt in Hc1.
    rewrite (take_app_le arrived [t] 100) by lia.
    split; [rewrite Hm1; exact Hmin|].
    split; [rewrite (Ho1 kh) by congruence; exact Hh
           |rewrite (Ho1 kd) by congruence; exact Hd].
  - apply Z.ltb_ge in Hc1.
    assert (Htake : take 100 arrived = arrived) by (apply take_ge; lia).
    assert (Htake' : take 100 (arrived ++ [t]) = (arrived ++ [t])%list).
    { apply take_ge. rewrite length_app. cbn [length]. lia. }
    rewrite Htake in Hh, Hd. rewrite Htake'.
    assert (Hwide : forall w, seconds 60 <= seconds w ->
                              forall x, x ∈ arrived -> t - x < seconds w).
    { intros w Hw x Hx. specialize (Hclose x Hx). lia. }
    assert (Hhour : recorded r1 kh t 3600 = list_to_set (arrived ++ [t])).
    { rewrite <- list_to_set_snoc. apply recorded_all_kept.
      - rewrite (Ho1 kh) by congruence. exact Hh.
      - apply Hwide. unfold seconds. lia. }
    assert (Hday : recorded r2 kd t 86400 = list_to_set (arrived ++ [t])).
    { rewrite <- list_to_set_snoc. apply recorded_all_kept.
      - rewrite (Ho2 kd) by congruence. rewrite (Ho1 kd) by congruence. exact Hd.
      - apply Hwide. unfold seconds. lia. }
    rewrite Hhour, Hday in Hrun. rewrite <- Hmin, Hsize in Hrun.
    replace (1000 <? Z.of_nat (Datatypes.S (length arrived)))%Z with false in Hrun
      by (symmetry; apply Z.ltb_ge; lia).
    destruct Hrun as [_ ->].
    split; [|split].
    + rewrite (Ho3 km) by congruence. rewrite (Ho2 km) by congruence.
      rewrite Hm1. exact Hmin.
    + rewrite (Ho3 kh) by congruence. rewrite Hh2. exact Hhour.
    + rewrite Hd3. exact Hday.
Qed.

Lemma serve_counters (times arrived : list Z) (r : redis) :
  zset_of r km = list_to_set arrived ->
  zset_of r kh = list_to_set (take 100 arrived) ->
  zset_of r kd = list_to_set (take 100 arrived) ->
  NoDup (arrived ++ times)%list ->
  (forall a b, a ∈ (arrived ++ times)%list -> b ∈ (arrived ++ times)%list ->
               a - b < seconds 60) ->
  zset_of (snd (RateLimiter.serve user_id endpoint times r)) km
    = list_to_set (arrived ++ times)%list /\
  zset_of (snd (RateLimiter.serve user_id endpoint times r)) kh
    = list_to_set (take 100 (arrived ++ times)%list) /\
  zset_of (snd (RateLimiter.serve user_id endpoint times r)) kd
    = list_to_set (take 100 (arrived ++ times)%list).
Proof.
  revert arrived r. induction times as [|t rest IH]; intros arrived r Hm Hh Hd Hnd Hclose.
  - cbn [RateLimiter.serve snd]. rewrite app_nil_r. repeat split; assumption.
  - cbn [RateLimiter.serve].
    destruct (RateLimiter.serve user_id endpoint rest
                (st (RateLimiter.is_rate_limited user_id endpoint None t r)))
      as [answers r'] eqn:Hserve.
    cbn [snd].
    replace (arrived ++ t :: rest)%list with ((arrived ++ [t]) ++ rest)%list in *
      by (rewrite <- app_assoc; reflexivity).
    destruct (is_rate_limited_counters arrived t r Hm Hh Hd) as (Hm' & Hh' & Hd').
    { apply NoDup_app in Hnd as (Hn & _ & _). exact Hn. }
    { intros x Hx. apply Hclose.
      - apply elem_of_app. left. apply elem_of_app. right. apply list_elem_of_singleton.
        reflexivity.
      - apply elem_of_app. left. apply elem_of_app. left. exact Hx. }
    pose proof (IH (arrived ++ [t])%list
                  (st (RateLimiter.is_rate_limited user_id endpoint None t r))
                  Hm' Hh' Hd' Hnd Hclose) as Hrest.
    rewrite Hserve in Hrest. exact Hrest.
Qed.

End BurstCounters.

(** X13.  Starting from empty counters, after any run of requests with
    pairwise distinct readings inside one 60-second window the minute
    counter holds every reading of the run, the blocked ones included,
    while the hour and day counters hold the first hundred only: a request
    that the minute window blocks is recorded there and never reaches the
    coarser windows. *)
Theorem burst_counters (user_id endpoint : pystr) (times : list Z) (r : redis) :
  counted user_id ->
  zset_of r (RateLimiter.rate_limit_key user_id endpoint "minute") = ∅ ->
  zset_of r (RateLimiter.rate_limit_key user_id endpoint "hour") = ∅ ->
  zset_of r (RateLimiter.rate_limit_key user_id endpoint "day") = ∅ ->
  NoDup times -> within_a_minute times ->
  zset_of (snd (RateLimiter.serve user_id endpoint times r))
    (RateLimiter.rate_limit_key user_id endpoint "minute") = list_to_set times /\
  zset_of (snd (RateLimiter.serve user_id endpoint times r))
    (RateLimiter.rate_limit_key user_id endpoint "hour") = list_to_set (take 100 times) /\
  zset_of (snd (RateLimiter.serve user_id endpoint times r))
    (RateLimiter.rate_limit_key user_id endpoint "day") = list_to_set (take 100 times).
Proof.
  intros Hc Hm Hh Hd Hnd Hwin.
  apply (serve_counters user_id endpoint Hc times [] r); try assumption.
  intros a b Ha Hb. unfold within_a_minute in Hwin.
  rewrite Forall_forall in Hwin. specialize (Hwin a Ha).
  rewrite Forall_forall in Hwin. apply Hwin. exact Hb.
Qed.

Lemma burst_counters_witness :
  zset_of (snd (RateLimiter.serve (str "alice") (str "/api/v1/chat") burst fresh_redis))
    (RateLimiter.rate_limit_key (str "alice") (str "/api/v1/chat") "minute")
    = list_to_set burst /\
  zset_of (snd (RateLimiter.serve (str "alice") (str "/api/v1/chat") burst fresh_redis))
    (RateLimiter.rate_limit_key (str "alice") (str "/api/v1/chat") "hour")
    = list_to_set (take 100 burst) /\
  zset_of (snd (RateLimiter.serve (str "alice") (str "/api/v1/chat") burst fresh_redis))
    (RateLimiter.rate_limit_key (str "alice") (str "/api/v1/chat") "day")
    = list_to_set (take 100 burst).
Proof.
  apply burst_counters.
  - vm_compute. reflexivity.
  - vm_compute. reflexivity.
  - vm_compute. reflexivity.
  - vm_compute. reflexivity.
  - apply (bool_decide_unpack (NoDup burst)). vm_compute. exact I.
  - apply (bool_decide_unpack (within_a_minute burst)). vm_compute. exact I.
Defined.

(** ** Reading the counters *)

Lemma window_count_run (user_id endpoint : pystr) (name : string) (w t : Z) (r : redis) :
  let key := RateLimiter.rate_limit_key user_id endpoint name in
  RateReports.window_count user_id endpoint name w t r
    = Res (st (RateReports.window_count user_id endpoint name w t r)) []
        (Return (Z.of_nat (size (kept r key t w)))) /\
  zset_of (st (RateReports.window_count user_id endpoint name w t r)) key = kept r key t w /\
  (forall k, k <> key ->
             zset_of (st (RateReports.window_count user_id endpoint name w t r)) k
             = zset_of r k).
Proof.
  cbn zeta. unfold RateReports.window_count, zremrangebyscore, zcard, kept, zset_of. run.
  destruct (zsets r !! RateLimiter.rate_limit_key user_id endpoint name) as [z|] eqn:Hz.
  - destruct (decide (filter (fun x => ~ (0 <= x /\ x <= t - seconds w)) z = ∅)) as [He|He].
    + repeat (cbn [st tr out zsets ttls app]; rewrite ?lookup_delete_eq, ?lookup_insert_eq).
      rewrite He. repeat split.
      intros k Hk. rewrite lookup_delete_ne by congruence. reflexivity.
    + repeat (cbn [st tr out zsets ttls app]; rewrite ?lookup_insert_eq).
      repeat split.
      intros k Hk. rewrite lookup_insert_ne by congruence. reflexivity.
  - repeat (cbn [st tr out zsets ttls app]; rewrite ?Hz).
    rewrite filter_empty_L; [|apply _]. repeat split.
Qed.

Lemma is_rate_limited_minute_counter (user_id endpoint : pystr) (t : Z) (r : redis) :
  counted user_id ->
  zset_of (st (RateLimiter.is_rate_limited user_id endpoint None t r))
    (RateLimiter.rate_limit_key user_id endpoint "minute")
  = recorded r (RateLimiter.rate_limit_key user_id endpoint "minute") t 60.
Proof.
  intros Hc.
  destruct (rate_limit_keys_differ user_id endpoint) as (Hmh & Hmd & Hhd).
  pose proof (is_rate_limited_run user_id endpoint t r Hc) as Hrun. cbn zeta in Hrun.
  set (km := RateLimiter.rate_limit_key user_id endpoint "minute") in *.
  set (kh := RateLimiter.rate_limit_key user_id endpoint "hour") in *.
  set (kd := RateLimiter.rate_limit_key user_id endpoint "day") in *.
  destruct (increment_counter_run km t 60 r) as (_ & _ & Hm1 & Ho1).
  set (r1 := st (RateLimiter._increment_counter km t 60 r)) in *.
  destruct (increment_counter_run kh t 3600 r1) as (_ & _ & Hh2 & Ho2).
  set (r2 := st (RateLimiter._increment_counter kh t 3600 r1)) in *.
  destruct (increment_counter_run kd t 86400 r2) as (_ & _ & Hd3 & Ho3).
  destruct (100 <? _)%Z; [destruct Hrun as [_ ->]; exact Hm1|].
  destruct (1000 <? _)%Z; destruct Hrun as [_ ->].
  - rewrite (Ho2 km) by congruence. exact Hm1.
  - rewrite (Ho3 km) by congruence. rewrite (Ho2 km) by congruence. exact Hm1.
Qed.

(** X14.  [get_rate_limit_info] reports, for each window, how many
    readings of its counter survive the eviction at that instant, and
    leaves exactly those in the counter: it records nothing.  Asked right
    after [is_rate_limited], at the same instant, its minute count is the
    count [is_rate_limited] compared with the threshold. *)
Theorem get_rate_limit_info_reads (user_id endpoint : pystr) (t : Z) (r : redis) :
  let km := RateLimiter.rate_limit_key user_id endpoint "minute" in
  let kh := RateLimiter.rate_limit_key user_id endpoint "hour" in
  let kd := RateLimiter.rate_limit_key user_id endpoint "day" in
  (out (RateReports.get_rate_limit_info user_id endpoint t r)
     = Return (RateReports.RateLimitInfo
                 (Z.of_nat (size (kept r km t 60)))
                 (Z.of_nat (size (kept r kh t 3600)))
                 (Z.of_nat (size (kept r kd t 86400)))) /\
   zset_of (st (RateReports.get_rate_limit_info user_id endpoint t r)) km = kept r km t 60 /\
   zset_of (st (RateReports.get_rate_limit_info user_id endpoint t r)) kh = kept r kh t 3600 /\
   zset_of (st (RateReports.get_rate_limit_info user_id endpoint t r)) kd = kept r kd t 86400) /\
  (counted user_id ->
   exists info,
     out (RateReports.get_rate_limit_info user_id endpoint t
            (st (RateLimiter.is_rate_limited user_id endpoint None t r))) = Return info /\
     RateReports.per_minute info = Z.of_nat (size (recorded r km t 60))).
Proof.
  cbn zeta.
  assert (Hgen : forall r0,
    out (RateReports.get_rate_limit_info user_id endpoint t r0)
      = Return (RateReports.RateLimitInfo
          (Z.of_nat (size (kept r0 (RateLimiter.rate_limit_key user_id endpoint "minute") t 60)))
          (Z.of_nat (size (kept r0 (RateLimiter.rate_limit_key user_id endpoint "hour") t 3600)))
          (Z.of_nat (size (kept r0 (RateLimiter.rate_limit_key user_id endpoint "day") t 86400)))) /\
    zset_of (st (RateReports.get_rate_limit_info user_id endpoint t r0))
      (RateLimiter.rate_limit_key user_id endpoint "minute")
      = kept r0 (RateLimiter.rate_limit_key user_id endpoint "minute") t 60 /\
    zset_of (st (RateReports.get_rate_limit_info user_id endpoint t r0))
      (RateLimiter.rate_limit_key user_id endpoint "hour")
      = kept r0 (RateLimiter.rate_limit_key user_id endpoint "hour") t 3600 /\
    zset_of (st (RateReports.get_rate_limit_info user_id endpoint t r0))
      (RateLimiter.rate_limit_key user_id endpoint "day")
      = kept r0 (RateLimiter.rate_limit_key user_id endpoint "day") t 86400).
  { intros r0.
    destruct (rate_limit_keys_differ user_id endpoint) as (Hmh & Hmd & Hhd).
    destruct (window_count_run user_id endpoint "minute" 60 t r0) as (E1 & Hm1 & Ho1).
    cbn zeta in E1, Hm1, Ho1.
    set (r1 := st (RateReports.window_count user_id endpoint "minute" 60 t r0)) in *.
    destruct (window_count_run user_id endpoint "hour" 3600 t r1) as (E2 & Hh2 & Ho2).
    cbn zeta in E2, Hh2, Ho2.
    set (r2 := st (RateReports.window_count user_id endpoint "hour" 3600 t r1)) in *.
    destruct (window_count_run user_id endpoint "day" 86400 t r2) as (E3 & Hd3 & Ho3).
    cbn zeta in E3, Hd3, Ho3.
    set (r3 := st (RateReports.window_count user_id endpoint "day" 86400 t r2)) in *.
    assert (K2 : kept r1 (RateLimiter.rate_limit_key user_id endpoint "hour") t 3600
                 = kept r0 (RateLimiter.rate_limit_key user_id endpoint "hour") t 3600).
    { unfold kept. rewrite Ho1 by congruence. reflexivity. }
    assert (K3 : kept r2 (RateLimiter.rate_limit_key user_id endpoint "day") t 86400
                 = kept r0 (RateLimiter.rate_limit_key user_id endpoint "day") t 86400).
    { unfold kept. rewrite Ho2 by congruence. rewrite Ho1 by congruence. reflexivity. }
    clearbody r1 r2 r3.
    unfold RateReports.get_rate_limit_info, bind, ret. rewrite E1, E2, E3.
    cbn [st tr out]. rewrite K2, K3. split; [reflexivity|].
    split; [|split].
    - rewrite Ho3 by congruence. rewrite Ho2 by congruence. exact Hm1.
    - rewrite Ho3 by congruence. rewrite Hh2. exact K2.
    - rewrite Hd3. exact K3. }
  split; [apply Hgen|].
  intros Hc. eexists. split; [apply Hgen|]. cbn [RateReports.per_minute].
  f_equal. f_equal. unfold kept.
  rewrite (is_rate_limited_minute_counter user_id endpoint t r Hc).
  unfold recorded. apply set_eq. intros x.
  rewrite elem_of_filter, !elem_of_union, elem_of_filter, elem_of_singleton.
  split; [intros [_ H]; exact H|].
  intros [-> | [Hn Hx]].
  - split; [|left; reflexivity]. unfold seconds. lia.
  - split; [exact Hn|right; split; assumption].
Qed.

Lemma get_rate_limit_info_reads_witness :
  exists info,
    out (RateReports.get_rate_limit_info (str "alice") (str "/api/v1/chat") 1700000000000000
           after_one) = Return info /\
    RateReports.per_minute info
    = Z.of_nat (size (recorded fresh_redis
                        (RateLimiter.rate_limit_key (str "alice") (str "/api/v1/chat") "minute")
                        1700000000000000 60)).
Proof.
  apply (proj2 (get_rate_limit_info_reads (str "alice") (str "/api/v1/chat")
                  1700000000000000 fresh_redis)).
  vm_compute. reflexivity.
Defined.

(** ** Limits given by the caller *)

(** Limits that leave out the minute: the comparison falls back on 100,
    the log line then reads the missing key. *)
Lemma is_rate_limited_missing_minute (u e : pystr) (l : gmap string Z) (t : Z) (r : redis) :
  counted u -> l <> ∅ -> l !! "requests_per_minute" = None ->
  100 < Z.of_nat (size (recorded r (RateLimiter.rate_limit_key u e "minute") t 60)) ->
  out (RateLimiter.is_rate_limited u e (Some l) t r) = Raise (KeyError "requests_per_minute").
Proof.
  intros Hc Hne Hmiss Hover. unfold counted in Hc.
  unfold RateLimiter.is_rate_limited. rewrite Hc.
  rewrite (decide_False (P := l = ∅)) by exact Hne.
  cbn zeta. unfold bind at 1.
  rewrite (increment_counter_eq (RateLimiter.rate_limit_key u e "minute") t 60 r).
  rewrite Hmiss. cbn [default from_option Datatypes.id].
  apply Z.ltb_lt in Hover. rewrite Hover.
  unfold RateLimiter.limit_item. rewrite Hmiss. reflexivity.
Qed.

(** X15.  [is_rate_limited] with limits of the caller's: an empty
    dictionary is taken for none, so the default limits apply.  A
    dictionary that is not empty but leaves out [requests_per_minute] is
    compared against 100, and the request that brings the minute counter
    over 100 ends in a [KeyError] for that name instead of the answer
    [True]. *)
Theorem is_rate_limited_custom_limits (user_id endpoint : pystr) (t : Z) (r : redis) :
  RateLimiter.is_rate_limited user_id endpoint (Some ∅) t r
    = RateLimiter.is_rate_limited user_id endpoint None t r /\
  (forall limits,
      counted user_id -> limits <> ∅ -> limits !! "requests_per_minute" = None ->
      100 < Z.of_nat (size (recorded r
               (RateLimiter.rate_limit_key user_id endpoint "minute") t 60)) ->
      out (RateLimiter.is_rate_limited user_id endpoint (Some limits) t r)
        = Raise (KeyError "requests_per_minute")).
Proof.
  split.
  - unfold RateLimiter.is_rate_limited.
    rewrite (decide_True (P := (∅ : gmap string Z) = ∅)) by reflexivity. reflexivity.
  - intros limits. apply is_rate_limited_missing_minute.
Qed.

Lemma is_rate_limited_custom_limits_witness :
  out (RateLimiter.is_rate_limited (str "alice") (str "/api/v1/chat") (Some hourly_limits)
         1700000000000000 crowded_redis) = Raise (KeyError "requests_per_minute").
Proof.
  apply (proj2 (is_rate_limited_custom_limits (str "alice") (str "/api/v1/chat")
                  1700000000000000 crowded_redis) hourly_limits).
  - vm_compute. reflexivity.
  - intros H. apply (f_equal (fun m => m !! "requests_per_hour")) in H.
    vm_compute in H. discriminate H.
  - vm_compute. reflexivity.
  - vm_compute. reflexivity.
Defined.

(** ** Shared counters *)

Lemma rate_limit_key_shift (u x e : pystr) (w : string) :
  RateLimiter.rate_limit_key (u ++ str ":" ++ x)%list e w
  = RateLimiter.rate_limit_key u (x ++ str ":" ++ e)%list w.
Proof. unfold RateLimiter.rate_limit_key. rewrite <- !app_assoc. reflexivity. Qed.

(** X16.  The key of a counter is the principal id and the path joined by
    a colon, so the pair ([u:x], [e]) and the pair ([u], [x:e]) name the
    same three counters: with the default limits a request of the one is
    answered, and changes the store, exactly as the same request of the
    other. *)
Theorem colon_shifts_share_counters (u x e : pystr) (t : Z) (r : redis) :
  counted u -> counted (u ++ str ":" ++ x)%list ->
  out (RateLimiter.is_rate_limited (u ++ str ":" ++ x)%list e None t r)
    = out (RateLimiter.is_rate_limited u (x ++ str ":" ++ e)%list None t r) /\
  st (RateLimiter.is_rate_limited (u ++ str ":" ++ x)%list e None t r)
    = st (RateLimiter.is_rate_limited u (x ++ str ":" ++ e)%list None t r).
Proof.
  intros Hu Hux.
  pose proof (is_rate_limited_run (u ++ str ":" ++ x)%list e t r Hux) as H1.
  pose proof (is_rate_limited_run u (x ++ str ":" ++ e)%list t r Hu) as H2.
  cbn zeta in H1, H2. rewrite !rate_limit_key_shift in H1.
  destruct (100 <? _)%Z; [destruct H1 as [-> ->], H2 as [-> ->]; split; reflexivity|].
  destruct (1000 <? _)%Z; destruct H1 as [-> ->], H2 as [-> ->]; split; reflexivity.
Qed.

Lemma colon_shifts_share_counters_witness :
  out (RateLimiter.is_rate_limited (str "bob" ++ str ":" ++ str "/a")%list (str "/b") None
         1700000000000000 fresh_redis)
    = out (RateLimiter.is_rate_limited (str "bob") (str "/a" ++ str ":" ++ str "/b")%list None
             1700000000000000 fresh_redis) /\
  st (RateLimiter.is_rate_limited (str "bob" ++ str ":" ++ str "/a")%list (str "/b") None
        1700000000000000 fresh_redis)
    = st (RateLimiter.is_rate_limited (str "bob") (str "/a" ++ str ":" ++ str "/b")%list None
            1700000000000000 fresh_redis).
Proof.
  apply colon_shifts_share_counters; vm_compute; reflexivity.
Defined.

(** ** The usage counters *)

Lemma bump_run (name : string) (v : Z) (u : usage) :
  metrics u !! name = Some v ->
  UsageTracker.bump name u
  = Res (Usage (<[name := v + 1]> (metrics u)) (hashes u)) [] (Return tt).
Proof. intros H. unfold UsageTracker.bump. run. rewrite H. reflexivity. Qed.

Lemma hincrby_run (key field : pystr) (u : usage) :
  exists h, UsageTracker.hincrby key field u = Res (Usage (metrics u) h) [] (Return tt).
Proof. unfold UsageTracker.hincrby. run. eexists. reflexivity. Qed.

Lemma log_metric_run (name : string) (u : usage) :
  exists l, UsageTracker.log_metric name u = Res u l (Return tt).
Proof. unfold UsageTracker.log_metric. run. eexists. reflexivity. Qed.

(** A counter bumped, then Redis hashes incremented and a line logged:
    the shape of the five [track_*] methods. *)
Lemma bump_then_run (name : string) (v : Z) (u : usage) (k : M usage unit) :
  metrics u !! name = Some v ->
  (forall u1, exists h l, k u1 = Res (Usage (metrics u1) h) l (Return tt)) ->
  exists h l, (UsageTracker.bump name ;;; k) u
              = Res (Usage (<[name := v + 1]> (metrics u)) h) l (Return tt).
Proof.
  intros H Hk. unfold bind. rewrite (bump_run name v u H).
  destruct (Hk (Usage (<[name := v + 1]> (metrics u)) (hashes u))) as (h & l & ->).
  cbn [metrics]. eexists _, _. reflexivity.
Qed.

Lemma hincrby_then_run (key field : pystr) (k : M usage unit) :
  (forall u1, exists h l, k u1 = Res (Usage (metrics u1) h) l (Return tt)) ->
  forall u, exists h l, (UsageTracker.hincrby key field ;;; k) u
                        = Res (Usage (metrics u) h) l (Return tt).
Proof.
  intros Hk u. unfold bind. destruct (hincrby_run key field u) as (h0 & ->).
  destruct (Hk (Usage (metrics u) h0)) as (h & l & ->).
  cbn [metrics]. eexists _, _. reflexivity.
Qed.

Lemma log_metric_keeps (name : string) :
  forall u1, exists h l, UsageTracker.log_metric name u1
                         = Res (Usage (metrics u1) h) l (Return tt).
Proof.
  intros u1. destruct (log_metric_run name u1) as (l & ->).
  exists (hashes u1), l. destruct u1; reflexivity.
Qed.

Lemma metric_insert_eq (u : usage) (h : gmap pystr (gmap pystr Z)) (name : string) (v : Z) :
  UsageTracker.metric (Usage (<[name := v]> (metrics u)) h) name = v.
Proof. unfold UsageTracker.metric. cbn [metrics]. rewrite lookup_insert_eq. reflexivity. Qed.

Lemma metric_insert_ne (u : usage) (h : gmap pystr (gmap pystr Z)) (name other : string)
    (v : Z) :
  name <> other ->
  UsageTracker.metric (Usage (<[name := v]> (metrics u)) h) other = UsageTracker.metric u other.
Proof.
  intros Hne. unfold UsageTracker.metric. cbn [metrics].
  rewrite lookup_insert_ne by exact Hne. reflexivity.
Qed.

Ltac keeps_metrics := repeat apply hincrby_then_run; apply log_metric_keeps.

Ltac bump_step u v Hv h l :=
  match goal with
  | |- context [bind (UsageTracker.bump ?n) ?k u] =>
      let Hk := fresh "Hk" in
      assert (Hk : forall u1, exists h l, k tt u1 = Res (Usage (metrics u1) h) l (Return tt))
        by keeps_metrics;
      destruct (bump_then_run n v u (k tt) Hv Hk) as (h & l & ->); clear Hk
  end.

(** One call, on a tracker that has the seven counters of [__init__]. *)
Lemma perform_run (c : UsageTracker.call) (u : usage) :
  (forall name, is_Some (metrics UsageTracker.init !! name) -> is_Some (metrics u !! name)) ->
  exists u' l,
    UsageTracker.perform c u = Res u' l (Return tt) /\
    (forall name, is_Some (metrics UsageTracker.init !! name) -> is_Some (metrics u' !! name)) /\
    UsageTracker.metric u' "requests"
      = UsageTracker.metric u "requests" + (if UsageTracker.is_request c then 1 else 0) /\
    UsageTracker.metric u' "successful_requests" + UsageTracker.metric u' "failed_requests"
      = UsageTracker.metric u "successful_requests" + UsageTracker.metric u "failed_requests"
        + (if UsageTracker.is_request c then 1 else 0).
Proof.
  intros Hall.
  assert (Hkeep : forall (name : string) (v : Z) h,
             forall n, is_Some (metrics UsageTracker.init !! n) ->
                       is_Some (metrics (Usage (<[name := v]> (metrics u)) h) !! n)).
  { intros name v h n Hn. cbn [metrics]. destruct (decide (name = n)) as [->|Hne].
    - rewrite lookup_insert_eq. eexists; reflexivity.
    - rewrite lookup_insert_ne by exact Hne. apply Hall, Hn. }
  assert (Hget : forall name, is_Some (metrics UsageTracker.init !! name) ->
                              exists v, metrics u !! name = Some v
                                        /\ UsageTracker.metric u name = v).
  { intros name Hn. destruct (Hall name Hn) as [v Hv]. exists v. split; [exact Hv|].
    unfold UsageTracker.metric. rewrite Hv. reflexivity. }
  destruct c as [uid status|uid q|e status|uid|uid]; cbn [UsageTracker.perform UsageTracker.is_request].
  - destruct (Hget "requests") as (vr & Hr & Er); [eexists; vm_compute; reflexivity|].
    destruct (Hget "successful_requests") as (vs & Hs & Es); [eexists; vm_compute; reflexivity|].
    destruct (Hget "failed_requests") as (vf & Hf & Ef); [eexists; vm_compute; reflexivity|].
    unfold UsageTracker.track_request.
    unfold bind at 1. rewrite (bump_run "requests" vr u Hr).
    set (u1 := Usage (<["requests" := vr + 1]> (metrics u)) (hashes u)).
    assert (H1s : metrics u1 !! "successful_requests" = Some vs).
    { subst u1. cbn [metrics]. rewrite lookup_insert_ne by discriminate. exact Hs. }
    assert (H1f : metrics u1 !! "failed_requests" = Some vf).
    { subst u1. cbn [metrics]. rewrite lookup_insert_ne by discriminate. exact Hf. }
    unfold bind at 1.
    destruct (bool_decide (status = str "success")).
    + rewrite (bump_run "successful_requests" vs u1 H1s).
      destruct (hincrby_then_run (UsageTracker.user_key uid) (str "requests") _
                  (hincrby_then_run (UsageTracker.user_key uid) status _
                     (log_metric_keeps "request_tracking"))
                  (Usage (<["successful_requests" := vs + 1]> (metrics u1)) (hashes u1)))
        as (h & l & ->).
      cbn [metrics]. eexists _, _. split; [reflexivity|]. subst u1. cbn [metrics].
      split; [|split].
      * intros n Hn. cbn [metrics]. destruct (decide ("successful_requests" = n)) as [<-|Hne].
        -- rewrite lookup_insert_eq. eexists; reflexivity.
        -- rewrite lookup_insert_ne by exact Hne. apply (Hkeep "requests" (vr + 1) h n Hn).
      * unfold UsageTracker.metric. cbn [metrics].
        rewrite lookup_insert_ne by discriminate. rewrite lookup_insert_eq.
        cbn. unfold UsageTracker.metric in Er. lia.
      * unfold UsageTracker.metric in *. cbn [metrics].
        rewrite lookup_insert_eq.
        rewrite lookup_insert_ne by discriminate. rewrite lookup_insert_ne by discriminate.
        rewrite Hf in *. rewrite Hs in *. cbn in *. lia.
    + rewrite (bump_run "failed_requests" vf u1 H1f).
      destruct (hincrby_then_run (UsageTracker.user_key uid) (str "requests") _
                  (hincrby_then_run (UsageTracker.user_key uid) status _
                     (log_metric_keeps "request_tracking"))
                  (Usage (<["failed_requests" := vf + 1]> (metrics u1)) (hashes u1)))
        as (h & l & ->).
      cbn [metrics]. eexists _, _. split; [reflexivity|]. subst u1. cbn [metrics].
      split; [|split].
      * intros n Hn. cbn [metrics]. destruct (decide ("failed_requests" = n)) as [<-|Hne].
        -- rewrite lookup_insert_eq. eexists; reflexivity.
        -- rewrite lookup_insert_ne by exact Hne. apply (Hkeep "requests" (vr + 1) h n Hn).
      * unfold UsageTracker.metric. cbn [metrics].
        rewrite lookup_insert_ne by discriminate. rewrite lookup_insert_eq.
        cbn. unfold UsageTracker.metric in Er. lia.
      * unfold UsageTracker.metric in *. cbn [metrics].
        rewrite lookup_insert_ne by discriminate. rewrite lookup_insert_ne by discriminate.
        rewrite lookup_insert_eq.
        rewrite Hf in *. rewrite Hs in *. cbn in *. lia.
  - destruct (Hget "database_queries") as (v & Hv & _); [eexists; vm_compute; reflexivity|].
    unfold UsageTracker.track_database_query. bump_step u v Hv h l.
    eexists _, _. split; [reflexivity|]. split; [apply Hkeep|].
    rewrite !metric_insert_ne by discriminate. split; lia.
  - destruct (Hget "api_calls") as (v & Hv & _); [eexists; vm_compute; reflexivity|].
    unfold UsageTracker.track_api_call. bump_step u v Hv h l.
    eexists _, _. split; [reflexivity|]. split; [apply Hkeep|].
    rewrite !metric_insert_ne by discriminate. split; lia.
  - destruct (Hget "user_messages") as (v & Hv & _); [eexists; vm_compute; reflexivity|].
    unfold UsageTracker.track_user_message. bump_step u v Hv h l.
    eexists _, _. split; [reflexivity|]. split; [apply Hkeep|].
    rewrite !metric_insert_ne by discriminate. split; lia.
  - destruct (Hget "ai_responses") as (v & Hv & _); [eexists; vm_compute; reflexivity|].
    unfold UsageTracker.track_ai_response. bump_step u v Hv h l.
    eexists _, _. split; [reflexivity|]. split; [apply Hkeep|].
    rewrite !metric_insert_ne by discriminate. split; lia.
Qed.

(** X17.  [UsageTracker]: on a tracker that has the counters [__init__]
    sets up, any run of [track_*] calls ends without an exception; it adds
    to [requests] the number of [track_request] calls among them, and
    [successful_requests] and [failed_requests] together grow by the same
    number, whatever the status strings were. *)
Theorem perform_all_counts (calls : list UsageTracker.call) (u : usage) :
  (forall name, is_Some (metrics UsageTracker.init !! name) -> is_Some (metrics u !! name)) ->
  let a := UsageTracker.perform_all calls u in
  let n := Z.of_nat (length (filter (fun c => UsageTracker.is_request c = true) calls)) in
  out a = Return tt /\
  UsageTracker.metric (st a) "requests" = UsageTracker.metric u "requests" + n /\
  UsageTracker.metric (st a) "successful_requests" + UsageTracker.metric (st a) "failed_requests"
    = UsageTracker.metric u "successful_requests" + UsageTracker.metric u "failed_requests" + n.
Proof.
  cbn zeta. revert u. induction calls as [|c rest IH]; intros u Hall.
  - cbn. repeat split; lia.
  - cbn [UsageTracker.perform_all]. unfold bind.
    destruct (perform_run c u Hall) as (u' & l & -> & Hall' & Hr & Hsf).
    destruct (IH u' Hall') as (Ho & Hr' & Hsf').
    destruct (UsageTracker.perform_all rest u') as [s2 t2 o2]. cbn [st tr out] in *.
    split; [exact Ho|].
    rewrite filter_cons.
    destruct (UsageTracker.is_request c) eqn:Hreq.
    + rewrite decide_True by reflexivity. cbn [length]. split; lia.
    + rewrite decide_False by discriminate. split; lia.
Qed.

Lemma perform_all_counts_witness :
  out (UsageTracker.perform_all
         [UsageTracker.TrackRequest (str "alice") (str "success");
          UsageTracker.TrackApiCall (str "/api/v1/chat") (str "success");
          UsageTracker.TrackRequest (str "alice") (str "timeout")]
         UsageTracker.init) = Return tt.
Proof.
  apply (perform_all_counts
           [UsageTracker.TrackRequest (str "alice") (str "success");
            UsageTracker.TrackApiCall (str "/api/v1/chat") (str "success");
            UsageTracker.TrackRequest (str "alice") (str "timeout")]
           UsageTracker.init).
  intros name H. exact H.
Defined.

(** ** Issued tokens, from issuance to verification *)

Section IssuedTokens.
Context {S : Type}.
Variable jwt_encode : claims -> pystr.
Variable jwt_decode : pystr -> Z -> outcome claims.
Variable JWT_EXPIRATION_DELTA : Z.
Variable utc_offset : Z.
Hypothesis library : jose_round_trip jwt_encode jwt_decode utc_offset.

Lemma issued_claims_lookup (data : claims) (ttl : option Z) (now : Z) :
  issued_claims JWT_EXPIRATION_DELTA data ttl now !! "exp"
    = Some (VInt (expire_at JWT_EXPIRATION_DELTA ttl now)) /\
  issued_claims JWT_EXPIRATION_DELTA data ttl now !! "iat" = Some (VInt now) /\
  issued_claims JWT_EXPIRATION_DELTA data ttl now !! "nbf" = Some (VInt now) /\
  (forall k, k <> "exp" -> k <> "iat" -> k <> "nbf" ->
             issued_claims JWT_EXPIRATION_DELTA data ttl now !! k = data !! k).
Proof.
  unfold issued_claims. repeat split.
  - rewrite lookup_insert_ne by discriminate.
    rewrite lookup_insert_ne by discriminate. apply lookup_insert_eq.
  - rewrite lookup_insert_ne by discriminate. apply lookup_insert_eq.
  - apply lookup_insert_eq.
  - intros k He Hi Hn. rewrite !lookup_insert_ne by congruence. reflexivity.
Qed.

Lemma issued_claims_unregistered (data : claims) (ttl : option Z) (now : Z) :
  unregistered data -> unregistered (issued_claims JWT_EXPIRATION_DELTA data ttl now).
Proof.
  unfold unregistered, registered_names. rewrite !Forall_cons.
  destruct (issued_claims_lookup data ttl now) as (_ & _ & _ & Hk).
  intros (Ha & Hi & Hs & Hj & Hh & _).
  rewrite !Hk by discriminate. repeat split; assumption || constructor.
Qed.

(** What the library makes of an issued token at the instant [now1]. *)
Lemma jwt_decode_issued (data : claims) (ttl : option Z) (now0 now1 : Z)
    (tok : pystr) (s : S) :
  out (create_access_token jwt_encode JWT_EXPIRATION_DELTA data ttl now0 s) = Return tok ->
  unregistered data ->
  tok = jwt_encode (issued_claims JWT_EXPIRATION_DELTA data ttl now0) /\
  Z.of_nat (length (split 46 tok)) = 3 /\
  jwt_decode tok (utcnow_timestamp utc_offset now1)
  = if (expire_at JWT_EXPIRATION_DELTA ttl now0 <? now1)%Z || (now1 <? now0)%Z
    then Raise JWTError
    else Return (issued_claims JWT_EXPIRATION_DELTA data ttl now0).
Proof.
  intros Hiss Hun.
  pose proof (create_access_token_returns_inv jwt_encode JWT_EXPIRATION_DELTA
                data ttl now0 tok s Hiss) as ->.
  destruct (issued_claims_lookup data ttl now0) as (He & Hi & Hn & _).
  destruct (library _ _ _ _ now1 He Hi Hn (issued_claims_unregistered data ttl now0 Hun))
    as [Hseg Hdec].
  repeat split; assumption.
Qed.

(** Verification of an issued token, not before it was issued: once the
    library finds [exp] in the past its [JWTError] is handled by a call of
    the unbound [log_security_event]; before that, the reading taken by
    [verify_token] itself decides. *)
Lemma verify_token_issued (data : claims) (ttl : option Z) (now0 now1 : Z)
    (tok : pystr) (s : S) :
  out (create_access_token jwt_encode JWT_EXPIRATION_DELTA data ttl now0 s) = Return tok ->
  unregistered data -> now0 <= now1 ->
  out (verify_token jwt_decode tok (utcnow_timestamp utc_offset now1) s)
  = if (expire_at JWT_EXPIRATION_DELTA ttl now0 <? now1)%Z
    then Raise (NameError "log_security_event")
    else if negb (expire_at JWT_EXPIRATION_DELTA ttl now0 =? 0)%Z
            && (expire_at JWT_EXPIRATION_DELTA ttl now0 <=? utcnow_timestamp utc_offset now1)%Z
    then Return None
    else Return (Some (issued_claims JWT_EXPIRATION_DELTA data ttl now0)).
Proof.
  intros Hiss Hun Hle.
  destruct (jwt_decode_issued data ttl now0 now1 tok s Hiss Hun) as (_ & Hseg & Hdec).
  replace (now1 <? now0)%Z with false in Hdec by (symmetry; apply Z.ltb_ge; exact Hle).
  rewrite orb_false_r in Hdec.
  destruct (expire_at JWT_EXPIRATION_DELTA ttl now0 <? now1)%Z.
  - apply (verify_token_rejected_raises jwt_decode tok _ JWTError s Hseg Hdec).
  - rewrite (verify_token_decoded jwt_decode tok _ _ s Hseg Hdec).
    destruct (issued_claims_lookup data ttl now0) as (He & _).
    unfold dict_get at 1. rewrite He. cbn zeta.
    destruct (negb (expire_at JWT_EXPIRATION_DELTA ttl now0 =? 0)%Z
              && (expire_at JWT_EXPIRATION_DELTA ttl now0 <=? utcnow_timestamp utc_offset now1)%Z);
      reflexivity.
Qed.

(** C5 (fails on the code).  Take a token issued at [now0] and verified
    at [now1], not earlier.  Once [now1] is past [exp] the library rejects
    the token, the handler of its [JWTError] calls [log_security_event],
    which the module never imports, and [verify_token] raises [NameError]
    where the claim has it fail with EXPIRED and the repository's test
    expects [None]: so for the token issued with a time to live of -1
    second, at the instant of issuance, and for the token issued for one
    hour, after that hour.  Up to [exp] the reading of [verify_token]
    decides: [None], on the EXPIRED path, when the reading has reached
    [exp], and the claims before. *)
Theorem verify_token_after_expiry_raises (data : claims) (ttl : option Z) (now0 now1 : Z)
    (tok : pystr) (s : S) :
  out (create_access_token jwt_encode JWT_EXPIRATION_DELTA data ttl now0 s) = Return tok ->
  unregistered data -> now0 <= now1 ->
  (expire_at JWT_EXPIRATION_DELTA ttl now0 < now1 ->
   out (verify_token jwt_decode tok (utcnow_timestamp utc_offset now1) s)
     = Raise (NameError "log_security_event")) /\
  (ttl = Some (-1) -> now1 = now0 ->
   out (verify_token jwt_decode tok (utcnow_timestamp utc_offset now1) s)
     = Raise (NameError "log_security_event")) /\
  (ttl = Some 3600 -> now0 + 3600 < now1 ->
   out (verify_token jwt_decode tok (utcnow_timestamp utc_offset now1) s)
     = Raise (NameError "log_security_event")) /\
  (now1 <= expire_at JWT_EXPIRATION_DELTA ttl now0 ->
   expire_at JWT_EXPIRATION_DELTA ttl now0 <> 0 ->
   out (verify_token jwt_decode tok (utcnow_timestamp utc_offset now1) s)
     = if (expire_at JWT_EXPIRATION_DELTA ttl now0 <=? utcnow_timestamp utc_offset now1)%Z
       then Return None
       else Return (Some (issued_claims JWT_EXPIRATION_DELTA data ttl now0))).
Proof.
  intros Hiss Hun Hle.
  pose proof (verify_token_issued data ttl now0 now1 tok s Hiss Hun Hle) as Hv.
  assert (Hlate : expire_at JWT_EXPIRATION_DELTA ttl now0 < now1 ->
                  out (verify_token jwt_decode tok (utcnow_timestamp utc_offset now1) s)
                  = Raise (NameError "log_security_event")).
  { intros Hlt. apply Z.ltb_lt in Hlt. rewrite Hlt in Hv. exact Hv. }
  split; [exact Hlate|split; [|split]].
  - intros -> ->. apply Hlate. cbn. lia.
  - intros -> Hlt. apply Hlate. cbn. lia.
  - intros Hbefore Hne.
    replace (expire_at JWT_EXPIRATION_DELTA ttl now0 <? now1)%Z with false in Hv
      by (symmetry; apply Z.ltb_ge; exact Hbefore).
    apply Z.eqb_neq in Hne. rewrite Hne in Hv. exact Hv.
Qed.

(** C7 (fails on the code).  Take claims [data] that pass the checks of
    issuance and hold none of [exp], [iat], [nbf] (nor a claim the library
    validates by itself), and the token issued for them at [now0], verified
    at an instant [now1] from then on and before [exp].  While the reading
    of [verify_token] has not reached [exp] the token is accepted, and the
    claims returned contain every entry of [data] together with [exp],
    [iat] and [nbf].  But the reading is [datetime.utcnow().timestamp()]:
    on a host west of UTC it runs ahead of the clock [exp] was written on,
    and once it has reached [exp] the token is refused, [None] on the
    EXPIRED path, before its expiry instant. *)
Theorem issue_verify_round_trip (data : claims) (ttl : option Z) (now0 now1 : Z)
    (tok : pystr) (s : S) :
  out (create_access_token jwt_encode JWT_EXPIRATION_DELTA data ttl now0 s) = Return tok ->
  data !! "exp" = None -> data !! "iat" = None -> data !! "nbf" = None ->
  unregistered data ->
  now0 <= now1 ->
  now1 < expire_at JWT_EXPIRATION_DELTA ttl now0 ->
  (utcnow_timestamp utc_offset now1 < expire_at JWT_EXPIRATION_DELTA ttl now0 ->
   exists p,
     out (verify_token jwt_decode tok (utcnow_timestamp utc_offset now1) s)
       = Return (Some p) /\
     data ⊆ p /\
     p !! "exp" = Some (VInt (expire_at JWT_EXPIRATION_DELTA ttl now0)) /\
     p !! "iat" = Some (VInt now0) /\
     p !! "nbf" = Some (VInt now0)) /\
  (expire_at JWT_EXPIRATION_DELTA ttl now0 <= utcnow_timestamp utc_offset now1 ->
   expire_at JWT_EXPIRATION_DELTA ttl now0 <> 0 ->
   out (verify_token jwt_decode tok (utcnow_timestamp utc_offset now1) s) = Return None).
Proof.
  intros Hiss He Hi Hn Hun Hle Hlt.
  pose proof (verify_token_issued data ttl now0 now1 tok s Hiss Hun Hle) as Hv.
  replace (expire_at JWT_EXPIRATION_DELTA ttl now0 <? now1)%Z with false in Hv
    by (symmetry; apply Z.ltb_ge; lia).
  split.
  - intros Hlt'.
    exists (issued_claims JWT_EXPIRATION_DELTA data ttl now0).
    destruct (issued_claims_lookup data ttl now0) as (Hexp & Hiat & Hnbf & _).
    split; [|split; [|repeat split; assumption]].
    + rewrite Hv.
      replace (expire_at JWT_EXPIRATION_DELTA ttl now0 <=? utcnow_timestamp utc_offset now1)%Z
        with false by (symmetry; apply Z.leb_gt; exact Hlt').
      rewrite andb_false_r. reflexivity.
    + unfold issued_claims. apply three_insert_subseteq; assumption.
  - intros Hge Hne. rewrite Hv.
    apply Z.eqb_neq in Hne. apply Z.leb_le in Hge. rewrite Hne, Hge. reflexivity.
Qed.

(** X18.  A token issued for [data] and presented, from the instant of
    issuance on, while neither the library's clock nor the reading of
    [verify_token] has reached its [exp], passes [verify_admin_access]
    exactly when [data] gives the role ["admin"]: the issued claims are
    handed on then, and a token issued with the role ["user"], or with no
    role at all, is answered 403. *)
Theorem admin_access_after_issue (data : claims) (ttl : option Z) (now0 now1 : Z)
    (tok : pystr) (s : S) :
  out (create_access_token jwt_encode JWT_EXPIRATION_DELTA data ttl now0 s) = Return tok ->
  unregistered data ->
  now0 <= now1 ->
  now1 < expire_at JWT_EXPIRATION_DELTA ttl now0 ->
  utcnow_timestamp utc_offset now1 < expire_at JWT_EXPIRATION_DELTA ttl now0 ->
  out (Deps.admin_access jwt_decode tok (utcnow_timestamp utc_offset now1) s)
    = if bool_decide (data !! "role" = Some (VStr (str "admin")))
      then Return (issued_claims JWT_EXPIRATION_DELTA data ttl now0)
      else Raise (HTTPException 403 "Admin access required" []).
Proof.
  intros Hiss Hun Hle Hlt Hlt'.
  pose proof (verify_token_issued data ttl now0 now1 tok s Hiss Hun Hle) as Hv.
  replace (expire_at JWT_EXPIRATION_DELTA ttl now0 <? now1)%Z with false in Hv
    by (symmetry; apply Z.ltb_ge; lia).
  replace (expire_at JWT_EXPIRATION_DELTA ttl now0 <=? utcnow_timestamp utc_offset now1)%Z
    with false in Hv by (symmetry; apply Z.leb_gt; exact Hlt').
  rewrite andb_false_r in Hv.
  destruct (res_of_out_st _ _ s Hv (verify_token_st jwt_decode tok _ s)) as [l Hrec].
  assert (Hrole : issued_claims JWT_EXPIRATION_DELTA data ttl now0 !! "role"
                  = data !! "role").
  { apply (issued_claims_lookup data ttl now0); discriminate. }
  unfold Deps.admin_access, Deps.get_current_user_payload.
  unfold bind at 1. unfold bind at 1. rewrite Hrec. cbn [ret out st tr].
  unfold verify_admin_access, dict_get_default. rewrite Hrole.
  destruct (data !! "role") as [role|].
  - destruct (decide (role = VStr (str "admin"))) as [->|Hne].
    + rewrite !bool_decide_eq_true_2 by reflexivity. reflexivity.
    + rewrite (bool_decide_eq_false_2 (role = VStr (str "admin"))) by exact Hne.
      rewrite (bool_decide_eq_false_2 (Some role = Some (VStr (str "admin"))))
        by (intros H; apply Hne; congruence).
      reflexivity.
  - rewrite (bool_decide_eq_false_2 (None = Some (VStr (str "admin")))) by discriminate.
    reflexivity.
Qed.

End IssuedTokens.

(** ** The stand-in library obeys the library's checks *)

Lemma bits_pos_pos_bits (p : positive) : bits_pos (pos_bits p) = p.
Proof. induction p as [q IH|q IH|]; cbn; rewrite ?IH; reflexivity. Qed.

Lemma pos_bits_no_dot (p : positive) :
  Forall (fun c => (c =? 46)%N = false) (pos_bits p).
Proof. induction p as [q IH|q IH|]; cbn; repeat constructor; assumption. Qed.

Lemma split_app_sep (sep : N) (a b : pystr) :
  Forall (fun c => (c =? sep)%N = false) a ->
  split sep (a ++ sep :: b)%list = a :: split sep b.
Proof.
  induction 1 as [|c a Hc _ IH]; cbn [app split].
  - rewrite N.eqb_refl. reflexivity.
  - rewrite Hc, IH. reflexivity.
Qed.

Lemma split_codec_encode (c : claims) :
  split 46 (codec_encode c) = [str "h"; pos_bits (encode c); str "s"].
Proof.
  unfold codec_encode.
  change (str "h." ++ pos_bits (encode c) ++ str ".s")%list
    with (str "h" ++ 46%N :: (pos_bits (encode c) ++ 46%N :: str "s"))%list.
  rewrite split_app_sep by (repeat constructor).
  rewrite split_app_sep by apply pos_bits_no_dot.
  reflexivity.
Qed.

Lemma codec_round_trip (utc_offset : Z) :
  jose_round_trip codec_encode (codec_decode utc_offset) utc_offset.
Proof.
  intros c e i n now He Hi Hn Hun. split.
  - rewrite split_codec_encode. reflexivity.
  - unfold codec_decode. rewrite split_codec_encode.
    rewrite bits_pos_pos_bits, decode_encode. rewrite He, Hn.
    unfold utcnow_timestamp. cbn zeta.
    replace (now - utc_offset + utc_offset) with now by lia. reflexivity.
Qed.

Lemma expired_test_claims_accepted :
  user_id_accepted expired_test_claims /\ role_accepted expired_test_claims /\
  unregistered expired_test_claims.
Proof.
  split; [vm_compute; split; discriminate|].
  split; [left; reflexivity|].
  unfold unregistered, registered_names. repeat constructor.
Qed.

Lemma alice_claims_accepted :
  user_id_accepted alice_claims /\ role_accepted alice_claims /\ unregistered alice_claims.
Proof.
  split; [vm_compute; split; discriminate|].
  split; [right; reflexivity|].
  unfold unregistered, registered_names. repeat constructor.
Qed.

Lemma codec_issues (data : claims) (ttl : option Z) (now : Z) :
  user_id_accepted data -> role_accepted data ->
  out (create_access_token codec_encode 604800 data ttl now tt)
  = Return (codec_encode (issued_claims 604800 data ttl now)).
Proof.
  intros Hu Hr.
  destruct (create_access_token_accepted codec_encode 604800 data ttl now tt Hu Hr)
    as [l ->].
  reflexivity.
Qed.

Lemma verify_token_after_expiry_raises_witness :
  out (verify_token (codec_decode 0)
         (codec_encode (issued_claims 604800 expired_test_claims (Some (-1)) 1700000000))
         (utcnow_timestamp 0 1700000000) tt)
  = Raise (NameError "log_security_event").
Proof.
  destruct expired_test_claims_accepted as (Hu & Hr & Hun).
  apply (proj1 (proj2 (@verify_token_after_expiry_raises unit codec_encode (codec_decode 0)
                         604800 0 (codec_round_trip 0) expired_test_claims (Some (-1))
                         1700000000 1700000000 _ tt
                         (codec_issues expired_test_claims (Some (-1)) 1700000000 Hu Hr)
                         Hun ltac:(lia)))); reflexivity.
Defined.

Lemma issue_verify_round_trip_witness :
  (exists p,
      out (verify_token (codec_decode 0)
             (codec_encode (issued_claims 604800 alice_claims (Some 3600) 1700000000))
             (utcnow_timestamp 0 1700000000) tt) = Return (Some p) /\
      alice_claims ⊆ p /\
      p !! "exp" = Some (VInt (expire_at 604800 (Some 3600) 1700000000)) /\
      p !! "iat" = Some (VInt 1700000000) /\
      p !! "nbf" = Some (VInt 1700000000)) /\
  out (verify_token (codec_decode (-18000))
         (codec_encode (issued_claims 604800 alice_claims (Some 3600) 1700000000))
         (utcnow_timestamp (-18000) 1700000000) tt) = Return None.
Proof.
  destruct alice_claims_accepted as (Hu & Hr & Hun).
  split.
  - apply (proj1 (@issue_verify_round_trip unit codec_encode (codec_decode 0) 604800 0
                    (codec_round_trip 0) alice_claims (Some 3600) 1700000000 1700000000 _ tt
                    (codec_issues alice_claims (Some 3600) 1700000000 Hu Hr)
                    ltac:(reflexivity) ltac:(reflexivity) ltac:(reflexivity) Hun
                    ltac:(lia) ltac:(vm_compute; reflexivity))).
    vm_compute. reflexivity.
  - apply (proj2 (@issue_verify_round_trip unit codec_encode (codec_decode (-18000))
                    604800 (-18000) (codec_round_trip (-18000)) alice_claims (Some 3600)
                    1700000000 1700000000 _ tt
                    (codec_issues alice_claims (Some 3600) 1700000000 Hu Hr)
                    ltac:(reflexivity) ltac:(reflexivity) ltac:(reflexivity) Hun
                    ltac:(lia) ltac:(vm_compute; reflexivity))).
    + vm_compute. discriminate.
    + vm_compute. discriminate.
Defined.

Lemma admin_access_after_issue_witness :
  out (Deps.admin_access (codec_decode 0)
         (codec_encode (issued_claims 604800 alice_claims None 1700000000))
         (utcnow_timestamp 0 1700000001) tt)
  = Return (issued_claims 604800 alice_claims None 1700000000).
Proof.
  destruct alice_claims_accepted as (Hu & Hr & Hun).
  apply (@admin_access_after_issue unit codec_encode (codec_decode 0) 604800 0
           (codec_round_trip 0) alice_claims None 1700000000 1700000001 _ tt
           (codec_issues alice_claims None 1700000000 Hu Hr) Hun).
  - lia.
  - vm_compute. reflexivity.
  - vm_compute. reflexivity.
Defined.
